(** * tech-article-refactor-agent: pipeline orchestration and record store

    A shallow embedding of [technical_writer_agent.py] and [db.py].

    Python text is modelled as [string] holding the UTF-8 encoding of the
    text, so concatenation of texts is concatenation of strings.  Code that
    has effects (console, files, the generation service, the PostgreSQL
    driver) is written in a state-and-exception monad over [World]; the
    parties outside the program are scripted by oracles stored in the
    world, and every theorem quantifies over them.

    What the model takes for granted:
    - printing to the console and writing a file do not fail;
    - the files that are read hold valid UTF-8;
    - a call into psycopg2 either fails, with a message chosen by the
      oracle and no other effect, or does what PostgreSQL does for the
      statements of this program on one table, seen by one client;
    - the clock of the caller keeps its reading while an operation runs. *)

From Stdlib Require Import ZArith List String Ascii Lia Sorted Permutation.
From stdpp Require Import base decidable option strings pretty gmap list sorting.

Local Open Scope Z_scope.

(** ** Text helpers *)

Definition nl : string := String (ascii_of_nat 10) EmptyString.
Definition cr : string := String (ascii_of_nat 13) EmptyString.

(** A byte that starts a code point, i.e. is not of the form [10xxxxxx]. *)
Definition utf8_lead (c : ascii) : bool :=
  negb (Z.land (Z.of_nat (nat_of_ascii c)) 192 =? 128).

(** [len(s)] of a Python [str]: the number of code points. *)
Fixpoint py_len (s : string) : Z :=
  match s with
  | EmptyString => 0
  | String c rest => (if utf8_lead c then 1 else 0) + py_len rest
  end.

(** [s[:n]] for [0 <= n]: the first [n] code points. *)
Fixpoint py_prefix (n : nat) (s : string) : string :=
  match s with
  | EmptyString => EmptyString
  | String c rest =>
      if utf8_lead c then
        match n with
        | O => EmptyString
        | S m => String c (py_prefix m rest)
        end
      else String c (py_prefix n rest)
  end.

(** Text mode with [newline=None] on reading: CR LF and lone CR become LF. *)
Fixpoint universal_newlines (s : string) : string :=
  match s with
  | EmptyString => EmptyString
  | String c rest =>
      if Ascii.eqb c (ascii_of_nat 13) then
        match rest with
        | String c' rest' =>
            if Ascii.eqb c' (ascii_of_nat 10)
            then String (ascii_of_nat 10) (universal_newlines rest')
            else String (ascii_of_nat 10) (universal_newlines rest)
        | EmptyString => nl
        end
      else String c (universal_newlines rest)
  end.

Fixpoint ends_with (s suffix : string) : bool :=
  String.eqb s suffix ||
  match s with
  | EmptyString => false
  | String _ rest => ends_with rest suffix
  end.

(** ** Exceptions and control flow *)

Inductive exn : Type :=
| FileNotFoundError (path : string)
| KeyError (key : string)
| IndexError (msg : string)
| ValueError (msg : string)
| TypeError (msg : string)
| GenerationError (msg : string)
| DatabaseError (msg : string)
| NotModelled (what : string)
| SystemExit (code : Z).

(** [except Exception] catches everything but [SystemExit], which derives
    from [BaseException] only. *)
Definition is_Exception (e : exn) : bool :=
  match e with
  | SystemExit _ => false
  | _ => true
  end.

(** [str(e)], as interpolated into the messages. *)
Definition exn_str (e : exn) : string :=
  match e with
  | FileNotFoundError p => "[Errno 2] No such file or directory: '" +:+ p +:+ "'"
  | KeyError k => "'" +:+ k +:+ "'"
  | IndexError m | ValueError m | TypeError m => m
  | GenerationError m | DatabaseError m | NotModelled m => m
  | SystemExit c => pretty c
  end.

Inductive outcome (A : Type) : Type :=
| Returned (a : A)
| Raised (e : exn).
Arguments Returned {A} a.
Arguments Raised {A} e.

(** ** [str.format] with keyword arguments

    Literal text, the escapes for the two braces, and replacement fields
    that are a plain name.  Conversions, format specifications, attribute
    and index access are outside the model: for a template that has one,
    the answer [NotModelled] says nothing about what [str.format] does,
    and a statement that concludes from a failing [format] sets that
    answer aside. *)

Inductive format_state : Type :=
| Literal
| OpenBrace
| CloseBrace
| Field (name : string).

Definition is_digit (c : ascii) : bool :=
  let n := nat_of_ascii c in (48 <=? n)%nat && (n <=? 57)%nat.

Fixpoint all_digits (s : string) : bool :=
  match s with
  | EmptyString => true
  | String c rest => is_digit c && all_digits rest
  end.

Definition field_value (kwargs : gmap string string) (name : string) : exn + string :=
  if all_digits name
  then inl (IndexError "Replacement index out of range for positional args tuple")
  else match kwargs !! name with
       | Some v => inr v
       | None => inl (KeyError name)
       end.

Definition starts_extension (c : ascii) : bool :=
  Ascii.eqb c "!" || Ascii.eqb c ":" || Ascii.eqb c "." || Ascii.eqb c "[".

Definition emit (c : ascii) (r : exn + string) : exn + string :=
  match r with
  | inl e => inl e
  | inr s => inr (String c s)
  end.

Definition emit_text (v : string) (r : exn + string) : exn + string :=
  match r with
  | inl e => inl e
  | inr s => inr (v +:+ s)
  end.

Fixpoint format_from (st : format_state) (kwargs : gmap string string)
    (template : string) : exn + string :=
  match template with
  | EmptyString =>
      match st with
      | Literal => inr EmptyString
      | OpenBrace => inl (ValueError "Single '{' encountered in format string")
      | CloseBrace => inl (ValueError "Single '}' encountered in format string")
      | Field _ => inl (ValueError "expected '}' before end of string")
      end
  | String c rest =>
      match st with
      | Literal =>
          if Ascii.eqb c "{" then format_from OpenBrace kwargs rest
          else if Ascii.eqb c "}" then format_from CloseBrace kwargs rest
          else emit c (format_from Literal kwargs rest)
      | OpenBrace =>
          if Ascii.eqb c "{" then emit c (format_from Literal kwargs rest)
          else if Ascii.eqb c "}" then
            match field_value kwargs EmptyString with
            | inl e => inl e
            | inr v => emit_text v (format_from Literal kwargs rest)
            end
          else if starts_extension c then inl (NotModelled "replacement field syntax")
          else format_from (Field (String c EmptyString)) kwargs rest
      | CloseBrace =>
          if Ascii.eqb c "}" then emit c (format_from Literal kwargs rest)
          else inl (ValueError "Single '}' encountered in format string")
      | Field name =>
          if Ascii.eqb c "}" then
            match field_value kwargs name with
            | inl e => inl e
            | inr v => emit_text v (format_from Literal kwargs rest)
            end
          else if Ascii.eqb c "{" then inl (ValueError "unexpected '{' in field name")
          else if starts_extension c then inl (NotModelled "replacement field syntax")
          else format_from (Field (name +:+ String c EmptyString)) kwargs rest
      end
  end.

(** [template.format] called with keyword arguments [kwargs]. *)
Definition format (template : string) (kwargs : gmap string string) : exn + string :=
  format_from Literal kwargs template.

(** Text without braces, and names of replacement fields the model covers:
    for the statements about [format]. *)
Definition is_brace (c : ascii) : bool := Ascii.eqb c "{" || Ascii.eqb c "}".

Fixpoint brace_free (s : string) : bool :=
  match s with
  | EmptyString => true
  | String c rest => negb (is_brace c) && brace_free rest
  end.

Fixpoint plain_name (s : string) : bool :=
  match s with
  | EmptyString => true
  | String c rest => negb (is_brace c) && negb (starts_extension c) && plain_name rest
  end.

(** ** Data of the record store ([db.py]) *)

(** The dictionary built by [DatabaseConfig.get_config]. *)
Record Config : Type := {
  host : string;
  port : Z;
  database : string;
  user : string;
  password : string;
  minconn : Z;
  maxconn : Z;
}.

(** A [ThreadedConnectionPool] object: its identity and the configuration
    it was constructed with. *)
Record Pool : Type := {
  pool_id : nat;
  pool_config : Config;
}.

(** One row of [article_optimization_logs]; a nullable column is an
    [option].  Timestamps are microseconds since the epoch. *)
Record Row : Type := {
  col_id : Z;
  col_original_content : string;
  col_analyst_prompt : option string;
  col_analyst_result : option string;
  col_architect_prompt : option string;
  col_architect_result : option string;
  col_writer_prompt : option string;
  col_writer_result : option string;
  col_evaluation : option string;
  col_created_at : option Z;
}.

(** What a transaction sees and changes: the table ([None] while it does
    not exist) and whether the index on [created_at] exists. *)
Record Catalog : Type := {
  log_table : option (list Row);
  created_at_index : bool;
}.

(** The server: committed catalog, the sequence behind [id SERIAL] (its
    last value; sequences are not rolled back), the server clock read by
    [CURRENT_TIMESTAMP], and the offset from UTC of the session time zone,
    in which a timestamp without zone is read. *)
Record Database : Type := {
  committed : Catalog;
  id_seq : Z;
  server_now : Z;
  session_utc_offset : Z;
}.

(** The statements the repository sends, with their bound parameters. *)
Inductive statement : Type :=
| CREATE_TABLE_IF_NOT_EXISTS
| CREATE_INDEX_IF_NOT_EXISTS
| INSERT_RETURNING_ID
    (original_content analyst_prompt analyst_result architect_prompt
       architect_result writer_prompt writer_result : string)
    (evaluation : option string) (created_at : Z)
| SELECT_WHERE_ID (record_id : Z)
| SELECT_ORDER_BY_CREATED_AT_DESC (limit offset : Z)
| SELECT_COUNT.

(** A [RealDictRow] of a result set. *)
Inductive result_row : Type :=
| LogRow (r : Row)
| IdRow (id : Z)
| CountRow (count : Z).

(** Calls into psycopg2, as recorded in the driver log. *)
Inductive driver_call : Type :=
| PoolCreate (cfg : Config)
| Closeall (pool : nat)
| Getconn (pool : nat)
| Cursor (conn : nat)
| Execute (conn : nat) (s : statement)
| Commit (conn : nat)
| Rollback (conn : nat)
| Putconn (pool : nat) (conn : nat).

Inductive driver_event : Type :=
| Done (c : driver_call)
| Failed (c : driver_call).

(** ** Console *)

Inductive renderable : Type :=
| Markup (text : string)
| Panel (body title : string) (border_style : option string)
| Plain (text : string).

(** ** The world *)

Record World : Type := {
  (* process environment *)
  environ : gmap string string;
  int_of_str : string -> option Z;
  utcnow : Z;
  (* files, by path *)
  filesystem : gmap string string;
  console : list renderable;
  (* generation service: the calls made (model, system instruction, user
     prompt), and the reply to the n-th call: a text, or the message of the
     exception it raises *)
  llm_calls : list (string * string * string);
  llm_reply : nat -> string -> string -> string -> string + string;
  (* class attributes of ConnectionPool *)
  ConnectionPool_instance : option Pool;
  ConnectionPool_config : option Config;
  (* psycopg2 and the server behind it *)
  driver_log : list driver_event;
  driver_fault : nat -> driver_call -> option string;
  db : Database;
  txn : option Catalog;
  result_set : option (list result_row);
}.

Definition M (A : Type) : Type := World -> outcome A * World.

Definition ret {A} (a : A) : M A := fun w => (Returned a, w).
Definition raise {A} (e : exn) : M A := fun w => (Raised e, w).

Definition bind {A B} (m : M A) (k : A -> M B) : M B :=
  fun w =>
    match m w with
    | (Returned a, w') => k a w'
    | (Raised e, w') => (Raised e, w')
    end.

Notation "x <- m ;; k" := (bind m (fun x => k))
  (at level 100, m at next level, right associativity).
Notation "m >> k" := (bind m (fun _ => k))
  (at level 100, right associativity).

(** [try: body  except Exception as e: handler] *)
Definition try_except {A} (body : M A) (handler : exn -> M A) : M A :=
  fun w =>
    match body w with
    | (Returned a, w') => (Returned a, w')
    | (Raised e, w') => if is_Exception e then handler e w' else (Raised e, w')
    end.

(** [try: body  finally: cleanup]: the cleanup runs on every exit, and an
    exception of the cleanup replaces the outcome of the body. *)
Definition try_finally {A} (body : M A) (cleanup : M unit) : M A :=
  fun w =>
    match body w with
    | (r, w') =>
        match cleanup w' with
        | (Returned _, w'') => (r, w'')
        | (Raised e, w'') => (Raised e, w'')
        end
    end.

Definition get {A} (f : World -> A) : M A := fun w => (Returned (f w), w).
Definition modify (f : World -> World) : M unit := fun w => (Returned tt, f w).

(** Field updates. *)
Definition set_filesystem (v : gmap string string) (w : World) : World :=
  {| environ := environ w; int_of_str := int_of_str w; utcnow := utcnow w;
     filesystem := v; console := console w;
     llm_calls := llm_calls w; llm_reply := llm_reply w;
     ConnectionPool_instance := ConnectionPool_instance w;
     ConnectionPool_config := ConnectionPool_config w;
     driver_log := driver_log w; driver_fault := driver_fault w;
     db := db w; txn := txn w; result_set := result_set w |}.

Definition set_console (v : list renderable) (w : World) : World :=
  {| environ := environ w; int_of_str := int_of_str w; utcnow := utcnow w;
     filesystem := filesystem w; console := v;
     llm_calls := llm_calls w; llm_reply := llm_reply w;
     ConnectionPool_instance := ConnectionPool_instance w;
     ConnectionPool_config := ConnectionPool_config w;
     driver_log := driver_log w; driver_fault := driver_fault w;
     db := db w; txn := txn w; result_set := result_set w |}.

Definition set_llm_calls (v : list (string * string * string)) (w : World) : World :=
  {| environ := environ w; int_of_str := int_of_str w; utcnow := utcnow w;
     filesystem := filesystem w; console := console w;
     llm_calls := v; llm_reply := llm_reply w;
     ConnectionPool_instance := ConnectionPool_instance w;
     ConnectionPool_config := ConnectionPool_config w;
     driver_log := driver_log w; driver_fault := driver_fault w;
     db := db w; txn := txn w; result_set := result_set w |}.

Definition set_instance (v : option Pool) (w : World) : World :=
  {| environ := environ w; int_of_str := int_of_str w; utcnow := utcnow w;
     filesystem := filesystem w; console := console w;
     llm_calls := llm_calls w; llm_reply := llm_reply w;
     ConnectionPool_instance := v;
     ConnectionPool_config := ConnectionPool_config w;
     driver_log := driver_log w; driver_fault := driver_fault w;
     db := db w; txn := txn w; result_set := result_set w |}.

Definition set_config (v : option Config) (w : World) : World :=
  {| environ := environ w; int_of_str := int_of_str w; utcnow := utcnow w;
     filesystem := filesystem w; console := console w;
     llm_calls := llm_calls w; llm_reply := llm_reply w;
     ConnectionPool_instance := ConnectionPool_instance w;
     ConnectionPool_config := v;
     driver_log := driver_log w; driver_fault := driver_fault w;
     db := db w; txn := txn w; result_set := result_set w |}.

Definition set_driver_log (v : list driver_event) (w : World) : World :=
  {| environ := environ w; int_of_str := int_of_str w; utcnow := utcnow w;
     filesystem := filesystem w; console := console w;
     llm_calls := llm_calls w; llm_reply := llm_reply w;
     ConnectionPool_instance := ConnectionPool_instance w;
     ConnectionPool_config := ConnectionPool_config w;
     driver_log := v; driver_fault := driver_fault w;
     db := db w; txn := txn w; result_set := result_set w |}.

Definition set_db (v : Database) (w : World) : World :=
  {| environ := environ w; int_of_str := int_of_str w; utcnow := utcnow w;
     filesystem := filesystem w; console := console w;
     llm_calls := llm_calls w; llm_reply := llm_reply w;
     ConnectionPool_instance := ConnectionPool_instance w;
     ConnectionPool_config := ConnectionPool_config w;
     driver_log := driver_log w; driver_fault := driver_fault w;
     db := v; txn := txn w; result_set := result_set w |}.

Definition set_txn (v : option Catalog) (w : World) : World :=
  {| environ := environ w; int_of_str := int_of_str w; utcnow := utcnow w;
     filesystem := filesystem w; console := console w;
     llm_calls := llm_calls w; llm_reply := llm_reply w;
     ConnectionPool_instance := ConnectionPool_instance w;
     ConnectionPool_config := ConnectionPool_config w;
     driver_log := driver_log w; driver_fault := driver_fault w;
     db := db w; txn := v; result_set := result_set w |}.

Definition set_result_set (v : option (list result_row)) (w : World) : World :=
  {| environ := environ w; int_of_str := int_of_str w; utcnow := utcnow w;
     filesystem := filesystem w; console := console w;
     llm_calls := llm_calls w; llm_reply := llm_reply w;
     ConnectionPool_instance := ConnectionPool_instance w;
     ConnectionPool_config := ConnectionPool_config w;
     driver_log := driver_log w; driver_fault := driver_fault w;
     db := db w; txn := txn w; result_set := v |}.

(** ** Process environment and console *)

(** [os.getenv(name)] *)
Definition getenv (name : string) : M (option string) :=
  get (fun w => environ w !! name).

(** [int(os.getenv(name, default))] with an integer default. *)
Definition getenv_int (name : string) (default : Z) : M Z :=
  fun w =>
    match environ w !! name with
    | None => (Returned default, w)
    | Some s =>
        match int_of_str w s with
        | Some n => (Returned n, w)
        | None => (Raised (ValueError "invalid literal for int() with base 10"), w)
        end
    end.

Definition emit_console (r : renderable) : M unit :=
  modify (fun w => set_console (console w ++ [r]) w).

(** [console.print] of rich, and the builtin [print]. *)
Definition console_print (markup : string) : M unit := emit_console (Markup markup).
Definition py_print (text : string) : M unit := emit_console (Plain text).

(** [sys.exit(code)] *)
Definition sys_exit {A} (code : Z) : M A := raise (SystemExit code).

(** The exit status of the interpreter: 0 when the script runs to its end,
    the code given to [sys.exit], and 1 for an exception nobody caught. *)
Definition exit_status {A} (r : outcome A) : Z :=
  match r with
  | Returned _ => 0
  | Raised (SystemExit code) => code
  | Raised _ => 1
  end.

(** ** psycopg2 and the server *)

(** One call into the driver: the oracle decides whether it fails, and the
    call is logged either way.  A failing call has no other effect. *)
Definition logged (ev : driver_event) (w : World) : World :=
  set_driver_log (driver_log w ++ [ev]) w.

Definition driver (c : driver_call) : M unit :=
  fun w =>
    match driver_fault w (length (driver_log w)) c with
    | Some msg => (Raised (DatabaseError msg), logged (Failed c) w)
    | None => (Returned tt, logged (Done c) w)
    end.

(** [pool.ThreadedConnectionPool(minconn=..., ...)] *)
Definition ThreadedConnectionPool (cfg : Config) : M Pool :=
  n <- get (fun w => length (driver_log w)) ;;
  driver (PoolCreate cfg) >>
  ret {| pool_id := n; pool_config := cfg |}.

(** [pool.getconn()]; the connection is named by the position of the call
    in the driver log. *)
Definition getconn (pool : option Pool) : M nat :=
  match pool with
  | None => raise (TypeError "'NoneType' object has no attribute 'getconn'")
  | Some p =>
      n <- get (fun w => length (driver_log w)) ;;
      driver (Getconn (pool_id p)) >>
      ret n
  end.

(** [pool.putconn(conn)]: the pool resets a connection that is not idle. *)
Definition putconn (pool : option Pool) (conn : nat) : M unit :=
  match pool with
  | None => raise (TypeError "'NoneType' object has no attribute 'putconn'")
  | Some p => driver (Putconn (pool_id p) conn) >> modify (set_txn None)
  end.

Definition set_committed (c : Catalog) (d : Database) : Database :=
  {| committed := c; id_seq := id_seq d; server_now := server_now d;
     session_utc_offset := session_utc_offset d |}.

Definition set_id_seq (n : Z) (d : Database) : Database :=
  {| committed := committed d; id_seq := n; server_now := server_now d;
     session_utc_offset := session_utc_offset d |}.

(** [conn.commit()] *)
Definition end_transaction (w : World) : World :=
  match txn w with
  | Some c => set_txn None (set_db (set_committed c (db w)) w)
  | None => w
  end.

Definition commit (conn : nat) : M unit :=
  driver (Commit conn) >> modify end_transaction.

(** [conn.rollback()] *)
Definition rollback (conn : nat) : M unit :=
  driver (Rollback conn) >> modify (set_txn None).

(** [ORDER BY created_at DESC]: nulls come first in descending order. *)
Definition newest_first (a b : Row) : Prop :=
  match col_created_at a, col_created_at b with
  | None, _ => True
  | Some _, None => False
  | Some x, Some y => y <= x
  end.

#[global] Instance newest_first_dec (a b : Row) : Decision (newest_first a b).
Proof.
  unfold newest_first.
  destruct (col_created_at a), (col_created_at b); apply _.
Defined.

(** The value stored in [created_at TIMESTAMP WITH TIME ZONE DEFAULT
    CURRENT_TIMESTAMP]: a supplied timestamp without zone is read in the
    session time zone; a column left out takes the server clock. *)
Definition created_at_value (d : Database) (supplied : option Z) : Z :=
  match supplied with
  | Some naive => naive - session_utc_offset d
  | None => server_now d
  end.

Definition undefined_table : string := "relation does not exist".

(** What a statement does to the view of the transaction and to the
    sequence, and its result set; [inl] is a rejected statement.  The
    integers are unbounded and the texts are taken as they are: a limit,
    an offset or an identifier outside [bigint], a value of the sequence
    outside [integer] and a text with a NUL character, which the server or
    the driver reject, are not rejected here.  Statements that conclude
    that an operation returns keep to the operations and the ranges where
    this makes no difference. *)
Definition run_statement (s : statement) (view : Catalog) (d : Database)
  : (string + Catalog * option (list result_row)) * Z :=
  match s with
  | CREATE_TABLE_IF_NOT_EXISTS =>
      match log_table view with
      | Some _ => (inr (view, None), id_seq d)
      | None =>
          (inr ({| log_table := Some []; created_at_index := false |}, None), 0)
      end
  | CREATE_INDEX_IF_NOT_EXISTS =>
      match log_table view with
      | Some rows =>
          (inr ({| log_table := Some rows; created_at_index := true |}, None), id_seq d)
      | None => (inl undefined_table, id_seq d)
      end
  | INSERT_RETURNING_ID original_content analyst_prompt analyst_result
      architect_prompt architect_result writer_prompt writer_result
      evaluation created_at =>
      match log_table view with
      | Some rows =>
          let new_id := id_seq d + 1 in
          if existsb (fun r => col_id r =? new_id) rows
          then (inl "duplicate key value violates unique constraint", new_id)
          else
            let r := {| col_id := new_id;
                        col_original_content := original_content;
                        col_analyst_prompt := Some analyst_prompt;
                        col_analyst_result := Some analyst_result;
                        col_architect_prompt := Some architect_prompt;
                        col_architect_result := Some architect_result;
                        col_writer_prompt := Some writer_prompt;
                        col_writer_result := Some writer_result;
                        col_evaluation := evaluation;
                        col_created_at := Some (created_at_value d (Some created_at)) |} in
            (inr ({| log_table := Some (rows ++ [r]);
                     created_at_index := created_at_index view |},
                  Some [IdRow new_id]), new_id)
      | None => (inl undefined_table, id_seq d)
      end
  | SELECT_WHERE_ID record_id =>
      match log_table view with
      | Some rows =>
          (inr (view, Some (map LogRow (List.filter (fun r => col_id r =? record_id) rows))),
           id_seq d)
      | None => (inl undefined_table, id_seq d)
      end
  | SELECT_ORDER_BY_CREATED_AT_DESC limit offset =>
      match log_table view with
      | Some rows =>
          if limit <? 0 then (inl "LIMIT must not be negative", id_seq d)
          else if offset <? 0 then (inl "OFFSET must not be negative", id_seq d)
          else
            (inr (view,
                  Some (map LogRow
                          (take (Z.to_nat limit)
                             (drop (Z.to_nat offset) (merge_sort newest_first rows))))),
             id_seq d)
      | None => (inl undefined_table, id_seq d)
      end
  | SELECT_COUNT =>
      match log_table view with
      | Some rows => (inr (view, Some [CountRow (Z.of_nat (length rows))]), id_seq d)
      | None => (inl undefined_table, id_seq d)
      end
  end.

(** [cur.execute(sql, params)]: the first statement on an idle connection
    opens a transaction on the committed catalog. *)
Definition transaction_view (w : World) : Catalog :=
  match txn w with
  | Some c => c
  | None => committed (db w)
  end.

Definition execute (cur : nat) (s : statement) : M unit :=
  driver (Execute cur s) >>
  fun w =>
    let view := transaction_view w in
    match run_statement s view (db w) with
    | (inl msg, seq) =>
        (Raised (DatabaseError msg), set_txn (Some view) (set_db (set_id_seq seq (db w)) w))
    | (inr (view', rs), seq) =>
        (Returned tt,
         set_result_set rs (set_txn (Some view') (set_db (set_id_seq seq (db w)) w)))
    end.

(** [cur.fetchone()] *)
Definition fetchone : M (option result_row) :=
  fun w =>
    match result_set w with
    | None => (Raised (DatabaseError "no results to fetch"), w)
    | Some [] => (Returned None, w)
    | Some (r :: rest) => (Returned (Some r), set_result_set (Some rest) w)
    end.

(** [cur.fetchall()] *)
Definition fetchall : M (list result_row) :=
  fun w =>
    match result_set w with
    | None => (Raised (DatabaseError "no results to fetch"), w)
    | Some rs => (Returned rs, set_result_set (Some []) w)
    end.

(** [row[key]] for the integer columns read by the repository. *)
Definition getitem (row : option result_row) (key : string) : M Z :=
  match row with
  | None => raise (TypeError "'NoneType' object is not subscriptable")
  | Some (LogRow r) => if String.eqb key "id" then ret (col_id r) else raise (NotModelled key)
  | Some (IdRow n) => if String.eqb key "id" then ret n else raise (KeyError key)
  | Some (CountRow n) => if String.eqb key "count" then ret n else raise (KeyError key)
  end.

(** ** [db.py] *)

Module DatabaseConfig.

Definition get_config : M Config :=
  host <- getenv "DB_HOST" ;;
  port <- getenv_int "DB_PORT" 5432 ;;
  database <- getenv "DB_NAME" ;;
  user <- getenv "DB_USER" ;;
  password <- getenv "DB_PASSWORD" ;;
  minconn <- getenv_int "DB_POOL_MIN" 1 ;;
  maxconn <- getenv_int "DB_POOL_MAX" 10 ;;
  ret {| host := default "localhost"%string host;
         port := port;
         database := default "postgres"%string database;
         user := default "kkbabe"%string user;
         password := default EmptyString password;
         minconn := minconn;
         maxconn := maxconn |}.

End DatabaseConfig.

Module ConnectionPool.

Definition initialize (config : option Config) : M unit :=
  instance <- get ConnectionPool_instance ;;
  match instance with
  | Some _ => ret tt
  | None =>
      cfg <- match config with
             | Some c => ret c
             | None => DatabaseConfig.get_config
             end ;;
      modify (set_config (Some cfg)) >>
      try_except
        (pool <- ThreadedConnectionPool cfg ;;
         modify (set_instance (Some pool)))
        (fun e =>
           py_print ("Error initializing connection pool: " +:+ exn_str e) >>
           raise e)
  end.

Definition get_pool : M (option Pool) :=
  instance <- get ConnectionPool_instance ;;
  match instance with
  | None => initialize None
  | Some _ => ret tt
  end >>
  get ConnectionPool_instance.

Definition close_all : M unit :=
  instance <- get ConnectionPool_instance ;;
  match instance with
  | Some p => driver (Closeall (pool_id p)) >> modify (set_instance None)
  | None => ret tt
  end.

End ConnectionPool.

(** [with conn.cursor(cursor_factory=...) as cur: body]; the cursor is
    closed when the block is left. *)
Definition with_cursor {A} (conn : nat) (body : nat -> M A) : M A :=
  driver (Cursor conn) >>
  modify (set_result_set None) >>
  try_finally (body conn) (modify (set_result_set None)).

(** The context manager [get_db_cursor], applied to the block it guards. *)
Definition get_db_cursor {A} (body : nat -> M A) : M A :=
  pool <- ConnectionPool.get_pool ;;
  conn <- getconn pool ;;
  try_finally
    (try_except
       (x <- with_cursor conn body ;;
        commit conn >>
        ret x)
       (fun e => rollback conn >> raise e))
    (putconn pool conn).

Module OptimizationLogRepository.

Definition TABLE_NAME : string := "article_optimization_logs".

(** Each operation is [with get_db_cursor() as cur: block]; the blocks
    are named so that theorems can speak about them. *)

Definition init_table_block (cur : nat) : M unit :=
  execute cur CREATE_TABLE_IF_NOT_EXISTS >>
  execute cur CREATE_INDEX_IF_NOT_EXISTS.

Definition init_table : M unit := get_db_cursor init_table_block.

Definition insert_block (original_content analyst_prompt analyst_result
    architect_prompt architect_result writer_prompt writer_result : string)
    (evaluation : option string) (cur : nat) : M Z :=
  now <- get utcnow ;;
  execute cur
    (INSERT_RETURNING_ID original_content analyst_prompt analyst_result
       architect_prompt architect_result writer_prompt writer_result
       evaluation now) >>
  result <- fetchone ;;
  getitem result "id".

Definition insert (original_content analyst_prompt analyst_result
    architect_prompt architect_result writer_prompt writer_result : string)
    (evaluation : option string) : M Z :=
  get_db_cursor
    (insert_block original_content analyst_prompt analyst_result
       architect_prompt architect_result writer_prompt writer_result evaluation).

Definition find_by_id_block (record_id : Z) (cur : nat) : M (option result_row) :=
  execute cur (SELECT_WHERE_ID record_id) >>
  fetchone.

Definition find_by_id (record_id : Z) : M (option result_row) :=
  get_db_cursor (find_by_id_block record_id).

(** The defaults [limit=100] and [offset=0] are supplied by the caller. *)
Definition find_all_block (limit offset : Z) (cur : nat) : M (list result_row) :=
  execute cur (SELECT_ORDER_BY_CREATED_AT_DESC limit offset) >>
  fetchall.

Definition find_all (limit offset : Z) : M (list result_row) :=
  get_db_cursor (find_all_block limit offset).

Definition count_block (cur : nat) : M Z :=
  execute cur SELECT_COUNT >>
  result <- fetchone ;;
  getitem result "count".

Definition count : M Z := get_db_cursor count_block.

End OptimizationLogRepository.

(** Module level of [db.py], run when the module is imported. *)
Definition import_db : M unit :=
  try_except OptimizationLogRepository.init_table
    (fun e => py_print ("Warning: Failed to initialize database table: " +:+ exn_str e)).

(** The five operations of the repository, for statements about all of
    them. *)
Inductive operation : Type :=
| Init_table
| Insert (original_content analyst_prompt analyst_result architect_prompt
            architect_result writer_prompt writer_result : string)
         (evaluation : option string)
| Find_by_id (record_id : Z)
| Find_all (limit offset : Z)
| Count.

Definition operation_result (o : operation) : Type :=
  match o with
  | Init_table => unit
  | Insert _ _ _ _ _ _ _ _ => Z
  | Find_by_id _ => option result_row
  | Find_all _ _ => list result_row
  | Count => Z
  end.

Definition operation_block (o : operation) : nat -> M (operation_result o) :=
  match o with
  | Init_table => OptimizationLogRepository.init_table_block
  | Insert a b c d e f g h => OptimizationLogRepository.insert_block a b c d e f g h
  | Find_by_id i => OptimizationLogRepository.find_by_id_block i
  | Find_all l k => OptimizationLogRepository.find_all_block l k
  | Count => OptimizationLogRepository.count_block
  end.

Definition run_operation (o : operation) : M (operation_result o) :=
  match o with
  | Init_table => OptimizationLogRepository.init_table
  | Insert a b c d e f g h => OptimizationLogRepository.insert a b c d e f g h
  | Find_by_id i => OptimizationLogRepository.find_by_id i
  | Find_all l k => OptimizationLogRepository.find_all l k
  | Count => OptimizationLogRepository.count
  end.

(** ** [technical_writer_agent.py] *)

(** The constants imported from [prompts], a module of the repository whose
    text is not part of the embedded sources: they are parameters. *)
Record Prompts : Type := {
  ANALYST_SYSTEM_PROMPT : string;
  ANALYST_USER_PROMPT_TEMPLATE : string;
  ARCHITECT_SYSTEM_PROMPT : string;
  ARCHITECT_USER_PROMPT_TEMPLATE : string;
  WRITER_SYSTEM_PROMPT : string;
  WRITER_USER_PROMPT_TEMPLATE : string;
}.

(** An instance of [TechnicalWriterAgent]. *)
Record Agent : Type := {
  api_key : string;
  model_name : string;
}.

(** The local variables of [process] that are alive once the three stages
    have run. *)
Record StageResults : Type := {
  article_content : string;
  analyst_user_prompt : string;
  analysis : string;
  architect_user_prompt : string;
  blueprint : string;
  writer_user_prompt : string;
  rewritten_article : string;
}.

(** Truth value of an [Optional[str]], and [a or b]. *)
Definition truthy (o : option string) : bool :=
  match o with
  | Some (String _ _) => true
  | _ => false
  end.

Definition py_or (a b : option string) : option string :=
  if truthy a then a else b.

(** [try: body  except FileNotFoundError: handler] *)
Definition try_except_FileNotFoundError {A} (body : M A) (handler : M A) : M A :=
  fun w =>
    match body w with
    | (Raised (FileNotFoundError _), w') => handler w'
    | r => r
    end.

(** [open(path, 'r', encoding='utf-8')] followed by [f.read()]. *)
Definition read_text (path : string) : M string :=
  fun w =>
    match filesystem w !! path with
    | Some raw => (Returned (universal_newlines raw), w)
    | None => (Raised (FileNotFoundError path), w)
    end.

(** [open(path, 'w', encoding='utf-8')] followed by [f.write(text)]: the
    file is created or truncated, then holds [text]. *)
Definition write_text (path text : string) : M unit :=
  modify (fun w => set_filesystem (<[path := text]> (filesystem w)) w).

Definition lift_format (r : exn + string) : M string :=
  match r with
  | inl e => raise e
  | inr s => ret s
  end.

(** [genai.GenerativeModel(model_name, system_instruction)], then
    [generate_content(user_prompt, ...)] with the fixed safety settings and
    generation configuration, then [response.text]: the call is recorded
    and the service answers with a text or an exception. *)
Definition generate_content (model_name system_instruction user_prompt : string)
  : M string :=
  fun w =>
    let w' := set_llm_calls
                (llm_calls w ++ [(model_name, system_instruction, user_prompt)]) w in
    match llm_reply w (length (llm_calls w)) model_name system_instruction user_prompt with
    | inr text => (Returned text, w')
    | inl msg => (Raised (GenerationError msg), w')
    end.

(** The three sections appended to [process_log]. *)
Definition step1_section (analysis : string) : string :=
  "# 步骤 1: 诊断报告 (Analyst)" +:+ nl +:+ nl +:+ analysis +:+ nl +:+ nl +:+ "---" +:+ nl +:+ nl.

Definition step2_section (blueprint : string) : string :=
  "# 步骤 2: 重构蓝图 (Architect)" +:+ nl +:+ nl +:+ blueprint +:+ nl +:+ nl +:+ "---" +:+ nl +:+ nl.

Definition step3_section (rewritten_article : string) : string :=
  "# 步骤 3: 最终文章 (Article)" +:+ nl +:+ nl +:+ rewritten_article +:+ nl +:+ nl.

(** [f"System Prompt:\n{system}\n\nUser Prompt:\n{user}"] *)
Definition full_prompt (system_prompt user_prompt : string) : string :=
  "System Prompt:" +:+ nl +:+ system_prompt +:+ nl +:+ nl +:+ "User Prompt:" +:+ nl +:+ user_prompt.

Definition preview_len : Z := 500.

Definition preview_of (rewritten_article : string) : string :=
  if preview_len <? py_len rewritten_article
  then py_prefix (Z.to_nat preview_len) rewritten_article +:+ nl +:+ nl +:+ "...(内容已截断)..."
  else rewritten_article.

Module TechnicalWriterAgent.
Section WithPrompts.
Context (prompts : Prompts).

Definition __init__ (api_key model : option string) : M Agent :=
  env_key <- getenv "GEMINI_API_KEY" ;;
  let self_api_key := py_or api_key env_key in
  if truthy self_api_key then
    env_model <- getenv "GEMINI_MODEL" ;;
    ret {| api_key := default EmptyString self_api_key;
           model_name :=
             default EmptyString
               (py_or (py_or model env_model) (Some "gemini-3-flash-preview"%string)) |}
  else
    console_print "[bold red]错误:[/bold red] 未找到 GEMINI_API_KEY 环境变量。" >>
    sys_exit 1.

Definition _call_llm (self : Agent) (system_prompt user_prompt step_name : string)
  : M string :=
  try_except
    (generate_content (model_name self) system_prompt user_prompt)
    (fun e =>
       console_print ("[bold red]LLM 调用失败:[/bold red] " +:+ exn_str e) >>
       sys_exit 1).

(** [process] in three blocks: reading the input, the three stages up
    to the success message, and the block under [try:] that records the
    run in the database. *)

Definition run_stages (self : Agent) (article_path article_content output_path : string)
  : M StageResults :=
  emit_console
    (Panel ("开始优化文章: " +:+ article_path +:+ nl +:+ "使用模型: " +:+ model_name self)
       "Technical Writer Agent" None) >>
  let process_log := EmptyString in
  console_print "[bold]步骤 1: 正在分析文章 (Analyst Agent)...[/bold]" >>
  analyst_user_prompt <-
    lift_format (format (ANALYST_USER_PROMPT_TEMPLATE prompts)
                   {[ "article_content"%string := article_content ]}) ;;
  analysis <- _call_llm self (ANALYST_SYSTEM_PROMPT prompts) analyst_user_prompt
                "分析师 Agent (Analyst)" ;;
  emit_console (Panel analysis "步骤 1 输出: 诊断报告" (Some "yellow"%string)) >>
  let process_log := process_log +:+ step1_section analysis in
  console_print "[bold]步骤 2: 正在设计蓝图 (Architect Agent)...[/bold]" >>
  architect_user_prompt <-
    lift_format (format (ARCHITECT_USER_PROMPT_TEMPLATE prompts)
                   (<[ "article_content"%string := article_content ]>
                      {[ "analysis_content"%string := analysis ]})) ;;
  blueprint <- _call_llm self (ARCHITECT_SYSTEM_PROMPT prompts) architect_user_prompt
                 "架构师 Agent (Architect)" ;;
  emit_console (Panel blueprint "步骤 2 输出: 重构蓝图" (Some "blue"%string)) >>
  let process_log := process_log +:+ step2_section blueprint in
  console_print "[bold]步骤 3: 正在重写文章 (Writer Agent)...[/bold]" >>
  writer_user_prompt <-
    lift_format (format (WRITER_USER_PROMPT_TEMPLATE prompts)
                   (<[ "article_content"%string := article_content ]>
                      (<[ "analysis_content"%string := analysis ]>
                         {[ "blueprint_content"%string := blueprint ]}))) ;;
  rewritten_article <- _call_llm self (WRITER_SYSTEM_PROMPT prompts) writer_user_prompt
                         "作家 Agent (Writer)" ;;
  let process_log := process_log +:+ step3_section rewritten_article in
  write_text output_path process_log >>
  emit_console (Panel (preview_of rewritten_article) "步骤 3 输出: 最终结果预览"
                  (Some "green"%string)) >>
  console_print ("[bold green]成功![/bold green] 包含完整步骤的输出已保存至: "
                 +:+ output_path) >>
  ret {| article_content := article_content;
         analyst_user_prompt := analyst_user_prompt;
         analysis := analysis;
         architect_user_prompt := architect_user_prompt;
         blueprint := blueprint;
         writer_user_prompt := writer_user_prompt;
         rewritten_article := rewritten_article |}.

(** The call of [OptimizationLogRepository.insert] with its arguments. *)
Definition insert_run (s : StageResults) : M Z :=
  let full_analyst_prompt :=
    full_prompt (ANALYST_SYSTEM_PROMPT prompts) (analyst_user_prompt s) in
  let full_architect_prompt :=
    full_prompt (ARCHITECT_SYSTEM_PROMPT prompts) (architect_user_prompt s) in
  let full_writer_prompt :=
    full_prompt (WRITER_SYSTEM_PROMPT prompts) (writer_user_prompt s) in
  OptimizationLogRepository.insert (article_content s)
    full_analyst_prompt (analysis s)
    full_architect_prompt (blueprint s)
    full_writer_prompt (rewritten_article s) None.

Definition record_run (s : StageResults) : M unit :=
  try_except
    (record_id <- insert_run s ;;
     console_print ("[dim]数据库记录 ID: " +:+ pretty record_id +:+ "[/dim]"))
    (fun e =>
       console_print ("[yellow]警告: 数据库记录失败[/yellow]: " +:+ exn_str e)).

Definition process (self : Agent) (article_path output_path : string) : M unit :=
  read <- try_except_FileNotFoundError
            (article_content <- read_text article_path ;; ret (Some article_content))
            (console_print ("[bold red]错误:[/bold red] 找不到文件: " +:+ article_path) >>
             ret None) ;;
  match read with
  | None => ret tt
  | Some article_content =>
      s <- run_stages self article_path article_content output_path ;;
      record_run s
  end.

(** The block under [if __name__ == "__main__":]. *)
Definition main (argv : list string) : M unit :=
  if (length argv <? 3)%nat then
    console_print "用法: python technical_writer_agent.py <markdown文章路径> <输出路径>" >>
    sys_exit 1
  else
    agent <- __init__ None None ;;
    process agent (nth 1 argv EmptyString) (nth 2 argv EmptyString).

(** Running the file as a script: the import of [db] runs its module
    level first. *)
Definition run_script (argv : list string) (w : World) : Z * World :=
  let (r, w') := (import_db >> main argv) w in (exit_status r, w').

End WithPrompts.
End TechnicalWriterAgent.

(** ** Vocabulary of the statements *)

(** A computation keeps a relation between the world before and after. *)
Definition frames (R : relation World) {A} (m : M A) : Prop :=
  forall w, R w (m w).2.

(** A computation raises nothing that [except Exception] would let pass. *)
Definition only_exceptions {A} (m : M A) : Prop :=
  forall w e, (m w).1 = Raised e -> is_Exception e = true.

(** What the record store never touches. *)
Definition same_host (w w' : World) : Prop :=
  filesystem w' = filesystem w /\
  llm_calls w' = llm_calls w /\
  llm_reply w' = llm_reply w /\
  environ w' = environ w /\
  utcnow w' = utcnow w /\
  driver_fault w' = driver_fault w.

(** Driver events of a cursor, as opposed to those of a pool or a
    connection. *)
Definition cursor_level (ev : driver_event) : Prop :=
  match ev with
  | Done (Execute _ _) | Failed (Execute _ _) => True
  | Done (Cursor _) | Failed (Cursor _) => True
  | _ => False
  end.

(** What the block of an operation can change: it adds cursor-level events
    and works inside the transaction; the committed catalog, the class
    attributes of the pool and the host stay as they are. *)
Definition within_transaction (w w' : World) : Prop :=
  same_host w w' /\
  committed (db w') = committed (db w) /\
  ConnectionPool_instance w' = ConnectionPool_instance w /\
  exists evs, driver_log w' = driver_log w ++ evs /\ Forall cursor_level evs.

(** What the orchestrator itself never touches: the record store, the
    driver, the class attributes of the pool and the oracles. *)
Definition same_store (w w' : World) : Prop :=
  db w' = db w /\
  txn w' = txn w /\
  result_set w' = result_set w /\
  driver_log w' = driver_log w /\
  driver_fault w' = driver_fault w /\
  ConnectionPool_instance w' = ConnectionPool_instance w /\
  ConnectionPool_config w' = ConnectionPool_config w /\
  llm_reply w' = llm_reply w /\
  environ w' = environ w /\
  utcnow w' = utcnow w.

(** The three calls of a run, as they are recorded. *)
Definition analyst_call (prompts : Prompts) (self : Agent) (user_prompt : string)
  : string * string * string :=
  (model_name self, ANALYST_SYSTEM_PROMPT prompts, user_prompt).

Definition architect_call (prompts : Prompts) (self : Agent) (user_prompt : string)
  : string * string * string :=
  (model_name self, ARCHITECT_SYSTEM_PROMPT prompts, user_prompt).

Definition writer_call (prompts : Prompts) (self : Agent) (user_prompt : string)
  : string * string * string :=
  (model_name self, WRITER_SYSTEM_PROMPT prompts, user_prompt).

(** The rows of the committed table; none while the table does not exist. *)
Definition stored_rows (w : World) : list Row :=
  default [] (log_table (committed (db w))).

(** Events that acquire a connection, and events of a given call whether
    it went through or failed. *)
Definition is_getconn (ev : driver_event) : bool :=
  match ev with
  | Done (Getconn _) | Failed (Getconn _) => true
  | _ => false
  end.

Definition attempted (c : driver_call) (ev : driver_event) : Prop :=
  ev = Done c \/ ev = Failed c.


(** The calls that end a guarded block. *)
Definition closing_call (pid conn : nat) (c : driver_call) : Prop :=
  c = Commit conn \/ c = Rollback conn \/ c = Putconn pid conn.

(** How a guarded block is left: the connection goes back to the pool. *)
Definition release {A} (p : Pool) (conn : nat) (r : outcome A) (w : World)
  : outcome A * World :=
  match driver_fault w (length (driver_log w)) (Putconn (pool_id p) conn) with
  | None => (r, set_txn None (logged (Done (Putconn (pool_id p) conn)) w))
  | Some msg => (Raised (DatabaseError msg), logged (Failed (Putconn (pool_id p) conn)) w)
  end.

(** The [except Exception] branch: roll back, raise again, release. *)
Definition roll_back {A} (p : Pool) (conn : nat) (e : exn) (w : World)
  : outcome A * World :=
  match driver_fault w (length (driver_log w)) (Rollback conn) with
  | None => release p conn (Raised e) (set_txn None (logged (Done (Rollback conn)) w))
  | Some msg => release p conn (Raised (DatabaseError msg)) (logged (Failed (Rollback conn)) w)
  end.

(** ** The layout of the output file in the words of the specification

    A heading of step 1 followed by the Analyst's result, a separator, a
    heading of step 2 followed by the Architect's result, a separator, a
    heading of step 3 followed by the Writer's result, and nothing after
    the final article.  The texts of the headings are parameters; what
    stands between a heading and its body, and what a separator is, is
    left open. *)
Definition claimed_output_layout (heading1 heading2 heading3 : string)
    (out analyst_result architect_result writer_result : string) : Prop :=
  exists gap1 sep1 gap2 sep2 gap3 : string,
    out = heading1 +:+ gap1 +:+ analyst_result +:+ sep1 +:+
          heading2 +:+ gap2 +:+ architect_result +:+ sep2 +:+
          heading3 +:+ gap3 +:+ writer_result.

(** The headings as the specification words them. *)
Definition claimed_heading1 : string := "# Step 1: Diagnostic Report".
Definition claimed_heading2 : string := "Step 2: Refactor Blueprint".
Definition claimed_heading3 : string := "Step 3: Final Article".

(** ** Vocabulary of the further properties *)

(** [int(os.getenv(name, default))] as a value: [None] when the variable
    is set to a text that [int] rejects. *)
Definition env_int (w : World) (name : string) (default : Z) : option Z :=
  match environ w !! name with
  | None => Some default
  | Some s => int_of_str w s
  end.

(** A computation leaves the view of the transaction as it is. *)
Definition same_view (w w' : World) : Prop :=
  transaction_view w' = transaction_view w.

(** The statements that only read. *)
Definition is_query (s : statement) : bool :=
  match s with
  | SELECT_WHERE_ID _ | SELECT_ORDER_BY_CREATED_AT_DESC _ _ | SELECT_COUNT => true
  | _ => false
  end.

(** The model name of an agent constructed without arguments:
    [os.getenv("GEMINI_MODEL") or "gemini-3-flash-preview"]. *)
Definition resolved_model (w : World) : string :=
  default EmptyString
    (py_or (py_or None (environ w !! "GEMINI_MODEL"))
       (Some "gemini-3-flash-preview"%string)).

(** The two messages of a run that stops before [process]. *)
Definition usage : string :=
  "用法: python technical_writer_agent.py <markdown文章路径> <输出路径>".

Definition missing_key : string :=
  "[bold red]错误:[/bold red] 未找到 GEMINI_API_KEY 环境变量。".

(** The agent that the script constructs when a key is set. *)
Definition script_agent (w : World) : Agent :=
  {| api_key := default EmptyString (environ w !! "GEMINI_API_KEY");
     model_name := resolved_model w |}.

(** An operation returns, with no transaction left open and the
    connection handed back to the pool by the last call into the driver. *)
Definition returns_and_releases {A} (p : Pool) (conn : nat) (m : M A) (w : World) : Prop :=
  exists x w',
    m w = (Returned x, w') /\
    txn w' = None /\
    ConnectionPool_instance w' = Some p /\
    last (driver_log w') = Some (Done (Putconn (pool_id p) conn)).

(** ** Sample worlds *)

Definition sample_prompts : Prompts :=
  {| ANALYST_SYSTEM_PROMPT := "You diagnose articles.";
     ANALYST_USER_PROMPT_TEMPLATE := "Article: {article_content}";
     ARCHITECT_SYSTEM_PROMPT := "You design blueprints.";
     ARCHITECT_USER_PROMPT_TEMPLATE :=
       "Article: {article_content} Report: {analysis_content}";
     WRITER_SYSTEM_PROMPT := "You rewrite articles.";
     WRITER_USER_PROMPT_TEMPLATE :=
       "Article: {article_content} Report: {analysis_content} Blueprint: {blueprint_content}" |}.

Definition sample_agent : Agent :=
  {| api_key := "secret"; model_name := "gemini-3-flash-preview" |}.

Definition sample_config : Config :=
  {| host := "db.example"; port := 6432; database := "articles"; user := "writer";
     password := "pw"; minconn := 2; maxconn := 4 |}.

Definition empty_database : Database :=
  {| committed := {| log_table := None; created_at_index := false |};
     id_seq := 0; server_now := 1700000000000000; session_utc_offset := 0 |}.

Definition sample_row (id : Z) (created_at : option Z) : Row :=
  {| col_id := id; col_original_content := "text";
     col_analyst_prompt := None; col_analyst_result := None;
     col_architect_prompt := None; col_architect_result := None;
     col_writer_prompt := None; col_writer_result := None;
     col_evaluation := None; col_created_at := created_at |}.

Definition filled_database : Database :=
  {| committed :=
       {| log_table := Some [sample_row 1 (Some 10); sample_row 2 (Some 30);
                             sample_row 3 (Some 20)];
          created_at_index := true |};
     id_seq := 3; server_now := 1700000000000000; session_utc_offset := 0 |}.

Definition all_answer (n : nat) (model system user : string) : string + string :=
  match n with
  | 0%nat => inr "diagnosis"%string
  | 1%nat => inr "plan"%string
  | _ => inr "final"%string
  end.

Definition architect_fails (n : nat) (model system user : string) : string + string :=
  match n with
  | 0%nat => inr "diagnosis"%string
  | _ => inl "quota exceeded"%string
  end.

Definition never_fails (n : nat) (c : driver_call) : option string := None.

Definition unreachable (n : nat) (c : driver_call) : option string :=
  match c with
  | PoolCreate _ => Some "connection refused"%string
  | _ => None
  end.

Definition sample_world_with (files : gmap string string)
    (replies : nat -> string -> string -> string -> string + string)
    (faults : nat -> driver_call -> option string) (d : Database) : World :=
  {| environ := {[ "GEMINI_API_KEY"%string := "secret"%string ]};
     int_of_str := fun _ => None;
     utcnow := 1700000000000500;
     filesystem := files;
     console := [];
     llm_calls := [];
     llm_reply := replies;
     ConnectionPool_instance := None;
     ConnectionPool_config := None;
     driver_log := [];
     driver_fault := faults;
     db := d;
     txn := None;
     result_set := None |}.

Definition sample_files : gmap string string := {[ "in.md"%string := "# Intro"%string ]}.

Definition sample_world : World :=
  sample_world_with sample_files all_answer never_fails empty_database.

Definition sample_argv : list string :=
  ["technical_writer_agent.py"; "in.md"; "out.md"]%string.

Definition missing_input_argv : list string :=
  ["technical_writer_agent.py"; "missing.md"; "out.md"]%string.

Definition unreachable_world : World :=
  sample_world_with sample_files all_answer unreachable empty_database.

Definition sample_results : StageResults :=
  {| article_content := "# Intro";
     analyst_user_prompt := "Article: # Intro";
     analysis := "diagnosis";
     architect_user_prompt := "Article: # Intro Report: diagnosis";
     blueprint := "plan";
     writer_user_prompt := "Article: # Intro Report: diagnosis Blueprint: plan";
     rewritten_article := "final" |}.

Definition architect_fails_world : World :=
  sample_world_with sample_files architect_fails never_fails empty_database.

Definition initialised_world : World := (import_db sample_world).2.

Definition inserted_world : World :=
  (OptimizationLogRepository.insert "text" "p1" "r1" "p2" "r2" "p3" "r3" (Some "fine"%string)
     initialised_world).2.

Definition filled_world : World :=
  sample_world_with sample_files all_answer never_fails filled_database.

Definition default_pool : Pool :=
  {| pool_id := 0;
     pool_config := {| host := "localhost"; port := 5432; database := "postgres";
                       user := "kkbabe"; password := EmptyString;
                       minconn := 1; maxconn := 10 |} |}.

(** Worlds in which one call into the driver fails, and prompts with a
    template that does not render. *)

Definition refused_once (n : nat) (c : driver_call) : option string :=
  match n, c with
  | 0%nat, PoolCreate _ => Some "connection refused"%string
  | _, _ => None
  end.

Definition flaky_world : World :=
  sample_world_with sample_files all_answer refused_once empty_database.

Definition closeall_fails (n : nat) (c : driver_call) : option string :=
  match c with
  | Closeall _ => Some "connection already closed"%string
  | _ => None
  end.

Definition stale_pool_world : World :=
  (ConnectionPool.get_pool
     (sample_world_with sample_files all_answer closeall_fails empty_database)).2.

Definition putconn_fails (n : nat) (c : driver_call) : option string :=
  match c with
  | Putconn _ _ => Some "trying to put unkeyed connection"%string
  | _ => None
  end.

Definition putconn_fails_world : World :=
  sample_world_with sample_files all_answer putconn_fails filled_database.

Definition broken_prompts : Prompts :=
  {| ANALYST_SYSTEM_PROMPT := "You diagnose articles.";
     ANALYST_USER_PROMPT_TEMPLATE := "Article: {article}";
     ARCHITECT_SYSTEM_PROMPT := "You design blueprints.";
     ARCHITECT_USER_PROMPT_TEMPLATE :=
       "Article: {article_content} Report: {analysis_content}";
     WRITER_SYSTEM_PROMPT := "You rewrite articles.";
     WRITER_USER_PROMPT_TEMPLATE :=
       "Article: {article_content} Report: {analysis_content} Blueprint: {blueprint_content}" |}.

(** * Properties *)

(** ** Text *)

Lemma string_app_assoc (a b c : string) : (a +:+ b) +:+ c = a +:+ (b +:+ c).
Proof.
  induction a as [|x a IH]; [reflexivity|].
  change (String x ((a +:+ b) +:+ c) = String x (a +:+ (b +:+ c))).
  rewrite IH. reflexivity.
Qed.

Lemma ends_with_refl s : ends_with s s = true.
Proof. destruct s; cbn; [reflexivity | rewrite Ascii.eqb_refl, String.eqb_refl; reflexivity]. Qed.

Lemma ends_with_app p s : ends_with (p +:+ s) s = true.
Proof.
  induction p as [|c p IH]; [apply ends_with_refl|].
  change (String c p +:+ s) with (String c (p +:+ s)).
  cbn [ends_with]. rewrite IH. apply orb_true_r.
Qed.

Example universal_newlines_demo :
  universal_newlines ("a" +:+ cr +:+ nl +:+ "b" +:+ cr +:+ "c" +:+ nl) =
  "a" +:+ nl +:+ "b" +:+ nl +:+ "c" +:+ nl.
Proof. reflexivity. Qed.

Example py_len_demo : py_len "步骤 1" = 4.
Proof. reflexivity. Qed.

Example py_prefix_demo : py_prefix 3 "步骤 1" = "步骤 "%string.
Proof. reflexivity. Qed.

Example format_demo :
  format "a {x} {{b}} {y}" (<["x"%string := "1{z}"%string]> {["y"%string := "2"%string]})
  = inr "a 1{z} {b} 2"%string.
Proof. vm_compute. reflexivity. Qed.

Example format_missing_key :
  format "{article_content} {analysis_content}" {["article_content"%string := "x"%string]}
  = inl (KeyError "analysis_content").
Proof. vm_compute. reflexivity. Qed.

Lemma emit_text_cons c v r : emit c (emit_text v r) = emit_text (String c v) r.
Proof. destruct r; reflexivity. Qed.

Lemma emit_text_nil r : emit_text EmptyString r = r.
Proof. destruct r; reflexivity. Qed.

Lemma format_from_literal pre kwargs rest :
  brace_free pre = true ->
  format_from Literal kwargs (pre +:+ rest) = emit_text pre (format_from Literal kwargs rest).
Proof.
  induction pre as [|c pre IH]; intros H.
  - cbn. symmetry. apply emit_text_nil.
  - cbn in H. apply andb_true_iff in H as [Hc Hpre].
    change (String c pre +:+ rest) with (String c (pre +:+ rest)).
    cbn [format_from]. unfold is_brace in Hc.
    apply negb_true_iff, orb_false_iff in Hc as [-> ->].
    rewrite (IH Hpre). apply emit_text_cons.
Qed.

Lemma format_from_field name acc kwargs post :
  plain_name name = true ->
  format_from (Field acc) kwargs (name +:+ String "}" post) =
    match field_value kwargs (acc +:+ name) with
    | inl e => inl e
    | inr v => emit_text v (format_from Literal kwargs post)
    end.
Proof.
  revert acc. induction name as [|c name IH]; intros acc H.
  - cbn [String.append format_from]. cbn.
    replace (acc +:+ EmptyString) with acc; [reflexivity|].
    clear. induction acc as [|x acc IH]; [reflexivity|].
    change (String x acc +:+ EmptyString) with (String x (acc +:+ EmptyString)).
    rewrite <- IH. reflexivity.
  - cbn in H. apply andb_true_iff in H as [H Hname]. apply andb_true_iff in H as [Hb He].
    change (String c name +:+ String "}" post) with (String c (name +:+ String "}" post)).
    cbn [format_from]. unfold is_brace in Hb.
    apply negb_true_iff, orb_false_iff in Hb as [Ho Hc]. rewrite Ho, Hc.
    apply negb_true_iff in He. rewrite He.
    rewrite (IH _ Hname).
    replace ((acc +:+ String c EmptyString) +:+ name) with (acc +:+ String c name);
      [reflexivity|].
    rewrite string_app_assoc. reflexivity.
Qed.

(** A replacement field with a plain name between text without braces:
    the text before is kept, the field is replaced by the value of its
    name, and formatting goes on behind the closing brace.  The value is
    put in as it is; braces in it are not looked at. *)
Lemma format_placeholder pre c name post kwargs :
  brace_free pre = true ->
  plain_name (String c name) = true ->
  format (pre +:+ String "{" (String c name +:+ String "}" post)) kwargs =
    emit_text pre
      match field_value kwargs (String c name) with
      | inl e => inl e
      | inr v => emit_text v (format post kwargs)
      end.
Proof.
  intros Hpre Hname. unfold format. rewrite (format_from_literal _ _ _ Hpre). f_equal.
  change (String c name +:+ String "}" post) with (String c (name +:+ String "}" post)).
  cbn [format_from]. cbn in Hname.
  apply andb_true_iff in Hname as [H Hn]. apply andb_true_iff in H as [Hb He].
  unfold is_brace in Hb. apply negb_true_iff, orb_false_iff in Hb as [Ho Hc].
  apply negb_true_iff in He.
  change (Ascii.eqb "{" "{") with true. cbn iota.
  rewrite Ho, Hc, He. rewrite (format_from_field _ _ _ _ Hn). reflexivity.
Qed.

Example format_article (article : string) :
  format "Article: {article_content} end" {[ "article_content"%string := article ]}
  = inr ("Article: " +:+ article +:+ " end").
Proof.
  change "Article: {article_content} end"%string
    with ("Article: " +:+ String "{" ("article_content" +:+ String "}" " end")).
  rewrite format_placeholder by reflexivity.
  unfold field_value. change (all_digits "article_content") with false. cbn iota.
  rewrite lookup_singleton_eq. reflexivity.
Qed.

(** ** The monad *)

Lemma driver_ok c w :
  driver_fault w (length (driver_log w)) c = None ->
  driver c w = (Returned tt, logged (Done c) w).
Proof. intros H. unfold driver. rewrite H. reflexivity. Qed.

Lemma driver_fails c w msg :
  driver_fault w (length (driver_log w)) c = Some msg ->
  driver c w = (Raised (DatabaseError msg), logged (Failed c) w).
Proof. intros H. unfold driver. rewrite H. reflexivity. Qed.

Section Frames.
Context (R : relation World) `{!PreOrder R}.

Lemma frames_ret {A} (a : A) : frames R (ret a).
Proof. intros w. reflexivity. Qed.

Lemma frames_raise {A} e : frames R (@raise A e).
Proof. intros w. reflexivity. Qed.

Lemma frames_get {A} (f : World -> A) : frames R (get f).
Proof. intros w. reflexivity. Qed.

Lemma frames_modify f : (forall w, R w (f w)) -> frames R (modify f).
Proof. intros H w. apply H. Qed.

Lemma frames_bind {A B} (m : M A) (k : A -> M B) :
  frames R m -> (forall a, frames R (k a)) -> frames R (bind m k).
Proof.
  intros Hm Hk w. unfold bind. specialize (Hm w).
  destruct (m w) as [[a|e] w1]; cbn in *; [|assumption].
  etransitivity; [exact Hm | apply Hk].
Qed.

Lemma frames_try_except {A} (m : M A) h :
  frames R m -> (forall e, frames R (h e)) -> frames R (try_except m h).
Proof.
  intros Hm Hh w. unfold try_except. specialize (Hm w).
  destruct (m w) as [[a|e] w1]; cbn in *; [assumption|].
  destruct (is_Exception e); [|assumption].
  etransitivity; [exact Hm | apply Hh].
Qed.

Lemma frames_try_finally {A} (m : M A) c :
  frames R m -> frames R c -> frames R (try_finally m c).
Proof.
  intros Hm Hc w. unfold try_finally. specialize (Hm w).
  destruct (m w) as [r w1]; cbn in *. specialize (Hc w1).
  destruct (c w1) as [[u|e] w2]; cbn in *; etransitivity; eassumption.
Qed.
End Frames.

Section OnlyExceptions.

Lemma only_exceptions_ret {A} (a : A) : only_exceptions (ret a).
Proof. intros w e H. discriminate H. Qed.

Lemma only_exceptions_get {A} (f : World -> A) : only_exceptions (get f).
Proof. intros w e H. discriminate H. Qed.

Lemma only_exceptions_modify f : only_exceptions (modify f).
Proof. intros w e H. discriminate H. Qed.

Lemma only_exceptions_raise {A} e :
  is_Exception e = true -> only_exceptions (@raise A e).
Proof. intros He w e' H. injection H as <-. exact He. Qed.

Lemma only_exceptions_bind {A B} (m : M A) (k : A -> M B) :
  only_exceptions m -> (forall a, only_exceptions (k a)) -> only_exceptions (bind m k).
Proof.
  intros Hm Hk w e. unfold bind. specialize (Hm w).
  destruct (m w) as [[a|e'] w1]; cbn in *.
  - apply Hk.
  - intros H. injection H as <-. apply Hm. reflexivity.
Qed.

Lemma only_exceptions_try_except {A} (m : M A) h :
  (forall e, only_exceptions (h e)) -> only_exceptions m -> only_exceptions (try_except m h).
Proof.
  intros Hh Hm w e. unfold try_except. specialize (Hm w).
  destruct (m w) as [[a|e'] w1]; cbn in *; [discriminate|].
  rewrite (Hm e' eq_refl). apply Hh.
Qed.

Lemma only_exceptions_try_finally {A} (m : M A) c :
  only_exceptions m -> only_exceptions c -> only_exceptions (try_finally m c).
Proof.
  intros Hm Hc w e. unfold try_finally. specialize (Hm w).
  destruct (m w) as [r w1]; cbn in *. specialize (Hc w1).
  destruct (c w1) as [[u|e'] w2]; cbn in *.
  - apply Hm.
  - intros H. injection H as <-. apply Hc. reflexivity.
Qed.

Lemma only_exceptions_driver c : only_exceptions (driver c).
Proof.
  intros w e. unfold driver.
  destruct (driver_fault _ _ _); cbn; intros H; [|discriminate].
  injection H as <-. reflexivity.
Qed.

End OnlyExceptions.

#[global] Instance same_host_preorder : PreOrder same_host.
Proof.
  split.
  - intros w. unfold same_host. tauto.
  - intros w1 w2 w3 (?&?&?&?&?&?) (?&?&?&?&?&?). unfold same_host.
    repeat split; congruence.
Qed.

#[global] Instance within_transaction_preorder : PreOrder within_transaction.
Proof.
  split.
  - intros w. repeat split. exists []. split; [symmetry; apply app_nil_r | constructor].
  - intros w1 w2 w3 (Hh1&Hc1&Hi1&evs1&Hl1&Hf1) (Hh2&Hc2&Hi2&evs2&Hl2&Hf2).
    split; [etransitivity; eassumption|].
    split; [congruence|]. split; [congruence|].
    exists (evs1 ++ evs2). split.
    + rewrite Hl2, Hl1. symmetry. apply app_assoc.
    + apply Forall_app. split; assumption.
Qed.

Lemma within_transaction_same_host w w' : within_transaction w w' -> same_host w w'.
Proof. intros H. apply H. Qed.

(** ** The pool singleton *)

Lemma initialize_existing config w p :
  ConnectionPool_instance w = Some p ->
  ConnectionPool.initialize config w = (Returned tt, w).
Proof.
  intros H. unfold ConnectionPool.initialize, bind, get. rewrite H. reflexivity.
Qed.

Lemma get_pool_existing w p :
  ConnectionPool_instance w = Some p ->
  ConnectionPool.get_pool w = (Returned (Some p), w).
Proof.
  intros H. unfold ConnectionPool.get_pool, bind, get, ret. rewrite H. cbn.
  rewrite H. reflexivity.
Qed.

Lemma get_config_same_world w r w' :
  DatabaseConfig.get_config w = (r, w') -> w' = w.
Proof.
  unfold DatabaseConfig.get_config, bind, getenv, getenv_int, get, ret. cbn.
  repeat (match goal with
          | |- context [match ?x with _ => _ end] =>
              match x with
              | environ w !! _ => destruct x
              | int_of_str w _ => destruct x
              end
          end; cbn);
    intros H; injection H as _ <-; reflexivity.
Qed.

(** Constructing the pool: what [initialize] does when no instance exists
    and the configuration has been resolved to [cfg]. *)
Lemma initialize_construct w cfg r w' :
  ConnectionPool_instance w = None ->
  ConnectionPool.initialize (Some cfg) w = (r, w') ->
  (r = Returned tt /\
   driver_fault w (length (driver_log w)) (PoolCreate cfg) = None /\
   w' = set_instance (Some {| pool_id := length (driver_log w); pool_config := cfg |})
          (logged (Done (PoolCreate cfg)) (set_config (Some cfg) w)))
  \/ (exists msg, r = Raised (DatabaseError msg) /\
        driver_fault w (length (driver_log w)) (PoolCreate cfg) = Some msg /\
        ConnectionPool_instance w' = None /\
        driver_log w' = driver_log w ++ [Failed (PoolCreate cfg)]).
Proof.
  intros H. unfold ConnectionPool.initialize, bind, get. rewrite H.
  unfold try_except, ThreadedConnectionPool, bind, get, ret, modify, driver. cbn.
  destruct (driver_fault _ _ _) eqn:E; cbn; intros Hr; injection Hr as <- <-.
  - right. eexists. repeat split. cbn. exact H.
  - left. repeat split.
Qed.

Lemma initialize_default_config w :
  ConnectionPool_instance w = None ->
  ConnectionPool.initialize None w =
    match DatabaseConfig.get_config w with
    | (Returned cfg, _) => ConnectionPool.initialize (Some cfg) w
    | (Raised e, _) => (Raised e, w)
    end.
Proof.
  intros H. unfold ConnectionPool.initialize, bind, get. rewrite H.
  destruct (DatabaseConfig.get_config w) as [[cfg|e] w0] eqn:E;
    apply get_config_same_world in E; subst w0; reflexivity.
Qed.

(** Lazy construction by [get_pool] when no instance exists. *)
Lemma get_pool_construct w r w' :
  ConnectionPool_instance w = None ->
  ConnectionPool.get_pool w = (Returned r, w') ->
  exists cfg,
    DatabaseConfig.get_config w = (Returned cfg, w) /\
    driver_fault w (length (driver_log w)) (PoolCreate cfg) = None /\
    r = Some {| pool_id := length (driver_log w); pool_config := cfg |} /\
    w' = set_instance r (logged (Done (PoolCreate cfg)) (set_config (Some cfg) w)).
Proof.
  intros H. unfold ConnectionPool.get_pool. unfold bind at 1 2, get at 1. rewrite H.
  rewrite (initialize_default_config _ H).
  destruct (DatabaseConfig.get_config w) as [[cfg|e] w0] eqn:E; [|discriminate].
  pose proof (get_config_same_world _ _ _ E) as ->.
  destruct (ConnectionPool.initialize (Some cfg) w) as [ri wi] eqn:Ei.
  destruct (initialize_construct _ _ _ _ H Ei) as [(-> & Hf & ->)|(msg & -> & _)];
    [|discriminate].
  unfold get. cbn. intros Hr. injection Hr as <- <-.
  exists cfg. repeat split. exact Hf.
Qed.

Lemma get_pool_failed w e w' :
  ConnectionPool.get_pool w = (Raised e, w') ->
  is_Exception e = true /\
  ConnectionPool_instance w = None /\
  same_host w w' /\
  committed (db w') = committed (db w) /\
  Forall (fun ev => exists cfg, ev = Failed (PoolCreate cfg))
    (drop (length (driver_log w)) (driver_log w')).
Proof.
  destruct (ConnectionPool_instance w) as [p|] eqn:H.
  - rewrite (get_pool_existing _ _ H). discriminate.
  - unfold ConnectionPool.get_pool. unfold bind at 1 2, get at 1. rewrite H.
    rewrite (initialize_default_config _ H).
    destruct (DatabaseConfig.get_config w) as [[cfg|e0] w0] eqn:E.
    + destruct (ConnectionPool.initialize (Some cfg) w) as [ri wi] eqn:Ei.
      destruct (initialize_construct _ _ _ _ H Ei) as [(-> & Hf & ->)|(msg & -> & Hf & Hi & Hl)].
      * unfold get. cbn. discriminate.
      * intros Hr. injection Hr as <- <-. split; [reflexivity|]. split; [reflexivity|].
        revert Ei. unfold ConnectionPool.initialize, bind, get. rewrite H.
        unfold try_except, ThreadedConnectionPool, bind, get, ret, modify, driver. cbn.
        rewrite Hf. cbn. intros Hr. injection Hr as <-. cbn.
        repeat split.
        rewrite drop_app_length. constructor; [eauto | constructor].
    + intros Hr. injection Hr as <- <-.
      split.
      { revert E. unfold DatabaseConfig.get_config, bind, getenv, getenv_int, get, ret. cbn.
        repeat (match goal with
                | |- context [match ?x with _ => _ end] =>
                    match x with
                    | environ w !! _ => destruct x
                    | int_of_str w _ => destruct x
                    end
                end; cbn);
          intros Hr; try discriminate Hr; injection Hr as <- _; reflexivity. }
      split; [reflexivity|]. split; [reflexivity|]. split; [reflexivity|].
      rewrite drop_all. constructor.
Qed.

Lemma close_all_run w p :
  ConnectionPool_instance w = Some p ->
  ConnectionPool.close_all w =
    match driver_fault w (length (driver_log w)) (Closeall (pool_id p)) with
    | None => (Returned tt, set_instance None (logged (Done (Closeall (pool_id p))) w))
    | Some msg => (Raised (DatabaseError msg), logged (Failed (Closeall (pool_id p))) w)
    end.
Proof.
  intros H. unfold ConnectionPool.close_all, bind, get. rewrite H.
  unfold driver. destruct (driver_fault _ _ _); reflexivity.
Qed.

Lemma getenv_int_run name default w :
  getenv_int name default w =
    match env_int w name default with
    | Some n => (Returned n, w)
    | None => (Raised (ValueError "invalid literal for int() with base 10"), w)
    end.
Proof.
  unfold getenv_int, env_int. destruct (environ w !! name); [|reflexivity].
  destruct (int_of_str w s); reflexivity.
Qed.

Lemma get_config_depends_on_environ w w' :
  environ w' = environ w -> int_of_str w' = int_of_str w ->
  (DatabaseConfig.get_config w').1 = (DatabaseConfig.get_config w).1.
Proof.
  intros He Hi.
  unfold DatabaseConfig.get_config, bind, getenv, get, ret.
  rewrite !getenv_int_run. unfold env_int. rewrite He, Hi.
  destruct (match environ w !! "DB_PORT"%string with
            | Some s => int_of_str w s | None => Some 5432 end); [|reflexivity].
  rewrite !getenv_int_run. unfold env_int. rewrite He, Hi.
  destruct (match environ w !! "DB_POOL_MIN"%string with
            | Some s => int_of_str w s | None => Some 1 end); [|reflexivity].
  rewrite !getenv_int_run. unfold env_int. rewrite He, Hi.
  destruct (match environ w !! "DB_POOL_MAX"%string with
            | Some s => int_of_str w s | None => Some 10 end); reflexivity.
Qed.

(** Construction by [get_pool] does go through when the environment gives
    a configuration and the driver constructs the pool. *)
Lemma get_pool_reachable w cfg :
  ConnectionPool_instance w = None ->
  (DatabaseConfig.get_config w).1 = Returned cfg ->
  driver_fault w (length (driver_log w)) (PoolCreate cfg) = None ->
  ConnectionPool.get_pool w =
    (Returned (Some {| pool_id := length (driver_log w); pool_config := cfg |}),
     set_instance (Some {| pool_id := length (driver_log w); pool_config := cfg |})
       (logged (Done (PoolCreate cfg)) (set_config (Some cfg) w))).
Proof.
  intros Hi Hc Hf.
  assert (Heq : ConnectionPool.get_pool w =
                match ConnectionPool.initialize None w with
                | (Returned _, w') => (Returned (ConnectionPool_instance w'), w')
                | (Raised e, w') => (Raised e, w')
                end).
  { unfold ConnectionPool.get_pool. unfold bind at 1 2, get at 1. rewrite Hi.
    destruct (ConnectionPool.initialize None w) as [[[]|e] w']; reflexivity. }
  rewrite Heq, (initialize_default_config _ Hi). clear Heq.
  destruct (DatabaseConfig.get_config w) as [[c|e] w0]; cbn in Hc; [|discriminate Hc].
  injection Hc as ->.
  unfold ConnectionPool.initialize, bind, get. rewrite Hi.
  unfold try_except, ThreadedConnectionPool, bind, get, ret, modify, driver. cbn.
  rewrite Hf. reflexivity.
Qed.

(** C10. The pool is a singleton of the process.  Starting without an
    instance, [initialize] with a configuration constructs the pool with
    that configuration; from then on [initialize] with any configuration
    changes nothing and [get_pool] returns that same instance without
    touching the driver.  [get_pool] without an instance constructs one
    (lazily), and it does so whenever the environment gives a
    configuration and the driver constructs the pool.  When the driver
    closes the pool, [close_all] returns, the pool has been closed and no
    instance is left; a second [close_all] does nothing; and the next
    [get_pool] constructs a new pool from the environment, which then is
    the instance. *)
Theorem C10_pool_singleton (w w1 : World) (cfg : Config) :
  ConnectionPool_instance w = None ->
  ConnectionPool.initialize (Some cfg) w = (Returned tt, w1) ->
  (forall r w', ConnectionPool.get_pool w = (Returned r, w') ->
     exists q, r = Some q /\ ConnectionPool_instance w' = Some q /\
               driver_log w' = driver_log w ++ [Done (PoolCreate (pool_config q))]) /\
  (forall env_cfg,
     (DatabaseConfig.get_config w).1 = Returned env_cfg ->
     driver_fault w (length (driver_log w)) (PoolCreate env_cfg) = None ->
     exists q w',
       ConnectionPool.get_pool w = (Returned (Some q), w') /\
       pool_config q = env_cfg /\
       ConnectionPool_instance w' = Some q) /\
  exists p,
    ConnectionPool_instance w1 = Some p /\
    pool_config p = cfg /\
    driver_log w1 = driver_log w ++ [Done (PoolCreate cfg)] /\
    (forall cfg', ConnectionPool.initialize cfg' w1 = (Returned tt, w1)) /\
    ConnectionPool.get_pool w1 = (Returned (Some p), w1) /\
    (forall w2, ConnectionPool.close_all w1 = (Returned tt, w2) ->
      ConnectionPool_instance w2 = None /\
      forall r w3, ConnectionPool.get_pool w2 = (Returned r, w3) ->
        exists q, r = Some q /\
                  ConnectionPool_instance w3 = Some q /\
                  pool_id q <> pool_id p /\
                  driver_log w3 = driver_log w2 ++ [Done (PoolCreate (pool_config q))] /\
                  ConnectionPool.get_pool w3 = (Returned (Some q), w3)) /\
    (driver_fault w1 (length (driver_log w1)) (Closeall (pool_id p)) = None ->
     exists w2,
       ConnectionPool.close_all w1 = (Returned tt, w2) /\
       ConnectionPool_instance w2 = None /\
       driver_log w2 = driver_log w1 ++ [Done (Closeall (pool_id p))] /\
       ConnectionPool.close_all w2 = (Returned tt, w2) /\
       forall env_cfg,
         (DatabaseConfig.get_config w1).1 = Returned env_cfg ->
         driver_fault w1 (S (length (driver_log w1))) (PoolCreate env_cfg) = None ->
         exists q w3,
           ConnectionPool.get_pool w2 = (Returned (Some q), w3) /\
           ConnectionPool_instance w3 = Some q /\
           pool_config q = env_cfg /\
           pool_id q <> pool_id p /\
           driver_log w3 = driver_log w2 ++ [Done (PoolCreate env_cfg)]).
Proof.
  intros Hnone Hinit. split.
  { intros r w' Hg.
    destruct (get_pool_construct _ _ _ Hnone Hg) as (c & _ & _ & -> & ->).
    eexists. repeat split. }
  split.
  { intros env_cfg Hc Hf. eexists _, _.
    split; [apply (get_pool_reachable _ _ Hnone Hc Hf)|]. split; reflexivity. }
  destruct (initialize_construct _ _ _ _ Hnone Hinit) as [(_ & Hf & ->)|(msg & Hr & _)];
    [|discriminate].
  set (p := {| pool_id := length (driver_log w); pool_config := cfg |}).
  exists p. split; [reflexivity|]. split; [reflexivity|]. split; [reflexivity|].
  split.
  { intros cfg'. apply initialize_existing with p. reflexivity. }
  split.
  { apply get_pool_existing. reflexivity. }
  split.
  { intros w2. erewrite close_all_run by (cbn; reflexivity).
    destruct (driver_fault _ _ (Closeall _)) eqn:Ec; [discriminate|].
    intros Hr. injection Hr as <-. split; [reflexivity|].
    intros r w3 Hg.
    apply get_pool_construct in Hg; [|reflexivity].
    destruct Hg as (c & _ & _ & -> & ->).
    eexists. split; [reflexivity|]. split; [reflexivity|].
    split.
    { cbn. rewrite !length_app. cbn. lia. }
    split; [reflexivity|].
    apply get_pool_existing. reflexivity. }
  { intros Hc. eexists. split.
    { erewrite close_all_run by (cbn; reflexivity). rewrite Hc. reflexivity. }
    split; [reflexivity|]. split; [reflexivity|].
    split.
    { unfold ConnectionPool.close_all, bind, get. reflexivity. }
    intros env_cfg Hcfg Hpc. eexists _, _. split.
    { apply get_pool_reachable; [reflexivity | |].
      - rewrite <- Hcfg. apply get_config_depends_on_environ; reflexivity.
      - cbn. rewrite length_app. cbn.
        replace (length (driver_log w ++ [Done (PoolCreate cfg)]) + 1)%nat
          with (S (length (driver_log w ++ [Done (PoolCreate cfg)]))) by lia.
        exact Hpc. }
    split; [reflexivity|]. split; [reflexivity|].
    split; [cbn; rewrite !length_app; cbn; lia|]. reflexivity. }
Qed.

(** ** What the driver and the blocks leave alone *)

Lemma within_transaction_cursor_event ev w :
  cursor_level ev -> within_transaction w (logged ev w).
Proof.
  intros H. repeat split. exists [ev]. split; [reflexivity|].
  constructor; [exact H | constructor].
Qed.

Lemma frames_driver_same_host c : frames same_host (driver c).
Proof. intros w. unfold driver. destruct (driver_fault _ _ _); repeat split. Qed.

Lemma frames_driver_cursor c :
  cursor_level (Done c) -> frames within_transaction (driver c).
Proof.
  intros H w. unfold driver.
  destruct (driver_fault _ _ _); apply within_transaction_cursor_event.
  - destruct c; exact H.
  - exact H.
Qed.

Lemma frames_execute cur s : frames within_transaction (execute cur s).
Proof.
  unfold execute. apply frames_bind; [apply _ | |].
  - apply frames_driver_cursor. exact I.
  - intros _ w.
    destruct (run_statement s _ (db w)) as [[msg|[view' rs]] seq]; cbn;
      (repeat split; exists []; split; [symmetry; apply app_nil_r | constructor]).
Qed.

Lemma only_exceptions_execute cur s : only_exceptions (execute cur s).
Proof.
  unfold execute. apply only_exceptions_bind; [apply only_exceptions_driver|].
  intros _ w e.
  destruct (run_statement s _ (db w)) as [[msg|[view' rs]] seq]; cbn; intros H;
    [injection H as <-; reflexivity | discriminate].
Qed.

Lemma frames_fetchone : frames within_transaction fetchone.
Proof.
  intros w. unfold fetchone.
  destruct (result_set w) as [[|r rest]|]; cbn;
    (repeat split; exists []; split; [symmetry; apply app_nil_r | constructor]).
Qed.

Lemma only_exceptions_fetchone : only_exceptions fetchone.
Proof.
  intros w e. unfold fetchone.
  destruct (result_set w) as [[|r rest]|]; cbn; intros H;
    try discriminate; injection H as <-; reflexivity.
Qed.

Lemma frames_fetchall : frames within_transaction fetchall.
Proof.
  intros w. unfold fetchall.
  destruct (result_set w) as [rs|]; cbn;
    (repeat split; exists []; split; [symmetry; apply app_nil_r | constructor]).
Qed.

Lemma only_exceptions_fetchall : only_exceptions fetchall.
Proof.
  intros w e. unfold fetchall.
  destruct (result_set w) as [rs|]; cbn; intros H;
    try discriminate; injection H as <-; reflexivity.
Qed.

Lemma frames_getitem (R : relation World) `{!PreOrder R} row key : frames R (getitem row key).
Proof.
  unfold getitem. destruct row as [[r|n|n]|]; try destruct (String.eqb _ _);
    first [apply frames_ret | apply frames_raise]; apply _.
Qed.

Lemma only_exceptions_getitem row key : only_exceptions (getitem row key).
Proof.
  unfold getitem. destruct row as [[r|n|n]|]; try destruct (String.eqb _ _);
    first [apply only_exceptions_ret | apply only_exceptions_raise; reflexivity].
Qed.

Lemma operation_block_frames o cur : frames within_transaction (operation_block o cur).
Proof.
  destruct o; cbn;
    unfold OptimizationLogRepository.init_table_block,
      OptimizationLogRepository.insert_block,
      OptimizationLogRepository.find_by_id_block,
      OptimizationLogRepository.find_all_block,
      OptimizationLogRepository.count_block;
    repeat first
      [ apply frames_execute | apply frames_fetchone | apply frames_fetchall
      | apply frames_getitem; apply _ | apply frames_get; apply _
      | apply frames_bind; [apply _ | | intros ?] ].
Qed.

Lemma operation_block_only_exceptions o cur : only_exceptions (operation_block o cur).
Proof.
  destruct o; cbn;
    unfold OptimizationLogRepository.init_table_block,
      OptimizationLogRepository.insert_block,
      OptimizationLogRepository.find_by_id_block,
      OptimizationLogRepository.find_all_block,
      OptimizationLogRepository.count_block;
    repeat first
      [ apply only_exceptions_execute | apply only_exceptions_fetchone
      | apply only_exceptions_fetchall | apply only_exceptions_getitem
      | apply only_exceptions_get
      | apply only_exceptions_bind; [ | intros ?] ].
Qed.

Lemma run_operation_eq o : run_operation o = get_db_cursor (operation_block o).
Proof. destruct o; reflexivity. Qed.

Lemma with_cursor_frames {A} (body : nat -> M A) conn :
  frames within_transaction (body conn) ->
  frames within_transaction (with_cursor conn body).
Proof.
  intros Hb. unfold with_cursor.
  apply frames_bind; [apply _ | apply frames_driver_cursor; exact I |].
  intros _. apply frames_bind; [apply _ | |].
  - apply frames_modify. intros w. repeat split.
    exists []. split; [symmetry; apply app_nil_r | constructor].
  - intros _. apply frames_try_finally; [apply _ | exact Hb |].
    apply frames_modify. intros w. repeat split.
    exists []. split; [symmetry; apply app_nil_r | constructor].
Qed.

Lemma with_cursor_only_exceptions {A} (body : nat -> M A) conn :
  only_exceptions (body conn) -> only_exceptions (with_cursor conn body).
Proof.
  intros Hb. unfold with_cursor.
  apply only_exceptions_bind; [apply only_exceptions_driver|]. intros _.
  apply only_exceptions_bind; [apply only_exceptions_modify|]. intros _.
  apply only_exceptions_try_finally; [exact Hb | apply only_exceptions_modify].
Qed.

Lemma frames_same_host_of_block {A} (m : M A) :
  frames within_transaction m -> frames same_host m.
Proof. intros H w. apply within_transaction_same_host, H. Qed.

Lemma get_pool_same_host : frames same_host ConnectionPool.get_pool.
Proof.
  intros w. destruct (ConnectionPool.get_pool w) as [[r|e] w'] eqn:E; cbn.
  - destruct (ConnectionPool_instance w) as [p|] eqn:H.
    + rewrite (get_pool_existing _ _ H) in E. injection E as _ <-. reflexivity.
    + destruct (get_pool_construct _ _ _ H E) as (cfg & _ & _ & _ & ->). repeat split.
  - apply (get_pool_failed _ _ _ E).
Qed.

Lemma get_pool_only_exceptions : only_exceptions ConnectionPool.get_pool.
Proof.
  intros w e. destruct (ConnectionPool.get_pool w) as [[r|e'] w'] eqn:E; cbn;
    intros H; [discriminate|]. injection H as <-. apply (get_pool_failed _ _ _ E).
Qed.

Lemma get_db_cursor_same_host {A} (body : nat -> M A) :
  (forall conn, frames within_transaction (body conn)) ->
  frames same_host (get_db_cursor body).
Proof.
  intros Hb. unfold get_db_cursor.
  apply frames_bind; [apply _ | apply get_pool_same_host |]. intros pool.
  apply frames_bind; [apply _ | |].
  { unfold getconn. destruct pool; [|apply frames_raise; apply _].
    apply frames_bind; [apply _ | apply frames_get; apply _ |]. intros n.
    apply frames_bind; [apply _ | apply frames_driver_same_host |]. intros _.
    apply frames_ret; apply _. }
  intros conn. apply frames_try_finally; [apply _ | |].
  - apply frames_try_except; [apply _ | |].
    + apply frames_bind; [apply _ | |].
      * apply frames_same_host_of_block, with_cursor_frames, Hb.
      * intros x. apply frames_bind; [apply _ | | intros _; apply frames_ret; apply _].
        unfold commit. apply frames_bind; [apply _ | apply frames_driver_same_host |].
        intros _. apply frames_modify. intros w. unfold end_transaction.
        destruct (txn w); repeat split.
    + intros e. apply frames_bind; [apply _ | | intros _; apply frames_raise; apply _].
      unfold rollback. apply frames_bind; [apply _ | apply frames_driver_same_host |].
      intros _. apply frames_modify. intros w. repeat split.
  - unfold putconn. destruct pool; [|apply frames_raise; apply _].
    apply frames_bind; [apply _ | apply frames_driver_same_host |].
    intros _. apply frames_modify. intros w. repeat split.
Qed.

Lemma get_db_cursor_only_exceptions {A} (body : nat -> M A) :
  (forall conn, only_exceptions (body conn)) ->
  only_exceptions (get_db_cursor body).
Proof.
  intros Hb. unfold get_db_cursor.
  apply only_exceptions_bind; [apply get_pool_only_exceptions|]. intros pool.
  apply only_exceptions_bind.
  { unfold getconn. destruct pool; [|apply only_exceptions_raise; reflexivity].
    apply only_exceptions_bind; [apply only_exceptions_get|]. intros n.
    apply only_exceptions_bind; [apply only_exceptions_driver|]. intros _.
    apply only_exceptions_ret. }
  intros conn. apply only_exceptions_try_finally.
  - intros w e.
    unfold try_except.
    assert (Hblock : only_exceptions (x <- with_cursor conn body ;; commit conn >> ret x)).
    { apply only_exceptions_bind; [apply with_cursor_only_exceptions, Hb|]. intros x.
      apply only_exceptions_bind; [|intros _; apply only_exceptions_ret].
      unfold commit. apply only_exceptions_bind; [apply only_exceptions_driver|].
      intros _. apply only_exceptions_modify. }
    specialize (Hblock w).
    destruct ((x <- with_cursor conn body ;; commit conn >> ret x) w) as [[x|e'] w1];
      cbn in *; [discriminate|].
    rewrite (Hblock e' eq_refl).
    unfold rollback, bind, driver, modify, raise.
    destruct (driver_fault _ _ _); cbn; intros H; injection H as <-;
      [reflexivity | apply Hblock; reflexivity].
  - unfold putconn. destruct pool; [|apply only_exceptions_raise; reflexivity].
    apply only_exceptions_bind; [apply only_exceptions_driver|].
    intros _. apply only_exceptions_modify.
Qed.

Lemma run_operation_same_host o : frames same_host (run_operation o).
Proof.
  rewrite run_operation_eq. apply get_db_cursor_same_host.
  intros conn. apply operation_block_frames.
Qed.

Lemma run_operation_only_exceptions o : only_exceptions (run_operation o).
Proof.
  rewrite run_operation_eq. apply get_db_cursor_only_exceptions.
  intros conn. apply operation_block_only_exceptions.
Qed.

(** ** Acquisition, transaction and release *)

Lemma get_pool_returned w r w0 :
  ConnectionPool.get_pool w = (Returned r, w0) ->
  exists p, r = Some p /\
    ConnectionPool_instance w0 = Some p /\
    same_host w w0 /\
    db w0 = db w /\ txn w0 = txn w /\
    exists pre, driver_log w0 = driver_log w ++ pre /\
                Forall (fun ev => exists cfg, ev = Done (PoolCreate cfg)) pre.
Proof.
  intros E. destruct (ConnectionPool_instance w) as [p|] eqn:H.
  - rewrite (get_pool_existing _ _ H) in E. injection E as <- <-.
    exists p. repeat split; try assumption.
    exists []. split; [symmetry; apply app_nil_r | constructor].
  - destruct (get_pool_construct _ _ _ H E) as (cfg & _ & _ & -> & ->).
    eexists. split; [reflexivity|]. repeat split.
    eexists. split; [reflexivity|]. constructor; [eauto | constructor].
Qed.

(** Once the pool has handed out a connection, the rest of
    [get_db_cursor] is the guarded block between acquisition and release. *)
Lemma get_db_cursor_acquired {A} (body : nat -> M A) w p w0 :
  ConnectionPool.get_pool w = (Returned (Some p), w0) ->
  driver_fault w0 (length (driver_log w0)) (Getconn (pool_id p)) = None ->
  get_db_cursor body w =
    try_finally
      (try_except
         (x <- with_cursor (length (driver_log w0)) body ;;
          commit (length (driver_log w0)) >> ret x)
         (fun e => rollback (length (driver_log w0)) >> raise e))
      (putconn (Some p) (length (driver_log w0)))
      (logged (Done (Getconn (pool_id p))) w0).
Proof.
  intros Hp Hf. unfold get_db_cursor. unfold bind at 1. rewrite Hp.
  unfold bind at 1. unfold getconn. unfold bind at 1, get at 1.
  unfold bind at 1. rewrite (driver_ok _ _ Hf). reflexivity.
Qed.

Lemma get_db_cursor_not_acquired {A} (body : nat -> M A) w p w0 msg :
  ConnectionPool.get_pool w = (Returned (Some p), w0) ->
  driver_fault w0 (length (driver_log w0)) (Getconn (pool_id p)) = Some msg ->
  get_db_cursor body w =
    (Raised (DatabaseError msg), logged (Failed (Getconn (pool_id p))) w0).
Proof.
  intros Hp Hf. unfold get_db_cursor. unfold bind at 1. rewrite Hp.
  unfold bind at 1. unfold getconn. unfold bind at 1, get at 1.
  unfold bind at 1. rewrite (driver_fails _ _ _ Hf). reflexivity.
Qed.

Lemma with_cursor_run {A} (body : nat -> M A) conn w :
  with_cursor conn body w =
    match driver_fault w (length (driver_log w)) (Cursor conn) with
    | Some msg => (Raised (DatabaseError msg), logged (Failed (Cursor conn)) w)
    | None =>
        ((body conn (set_result_set None (logged (Done (Cursor conn)) w))).1,
         set_result_set None
           (body conn (set_result_set None (logged (Done (Cursor conn)) w))).2)
    end.
Proof.
  unfold with_cursor, bind, driver, modify, try_finally.
  destruct (driver_fault _ _ _); [reflexivity|].
  destruct (body conn _) as [r wb]. reflexivity.
Qed.

Lemma guarded_run {A} (block : M A) p conn w1 :
  try_finally
    (try_except (x <- block ;; commit conn >> ret x)
       (fun e => rollback conn >> raise e))
    (putconn (Some p) conn) w1 =
  match block w1 with
  | (Returned x, w2) =>
      match driver_fault w2 (length (driver_log w2)) (Commit conn) with
      | None => release p conn (Returned x) (end_transaction (logged (Done (Commit conn)) w2))
      | Some msg => roll_back p conn (DatabaseError msg) (logged (Failed (Commit conn)) w2)
      end
  | (Raised e, w2) =>
      if is_Exception e then roll_back p conn e w2 else release p conn (Raised e) w2
  end.
Proof.
  unfold try_finally, try_except, bind, commit, rollback, putconn, bind, roll_back, release,
    driver, modify, raise, ret.
  destruct (block w1) as [[x|e] w2].
  - destruct (driver_fault w2 _ (Commit conn)); cbn.
    + destruct (driver_fault w2 _ (Rollback conn)); cbn;
        destruct (driver_fault w2 _ (Putconn _ _)); reflexivity.
    + destruct (driver_fault _ _ (Putconn _ _)); reflexivity.
  - destruct (is_Exception e); cbn.
    + destruct (driver_fault w2 _ (Rollback conn)); cbn;
        destruct (driver_fault w2 _ (Putconn _ _)); reflexivity.
    + destruct (driver_fault w2 _ (Putconn _ _)); reflexivity.
Qed.

Lemma release_spec {A} p conn (r : outcome A) w :
  same_host w (release p conn r w).2 /\
  ConnectionPool_instance (release p conn r w).2 = ConnectionPool_instance w /\
  db (release p conn r w).2 = db w /\
  exists ev,
    driver_log (release p conn r w).2 = driver_log w ++ [ev] /\
    attempted (Putconn (pool_id p) conn) ev /\
    (forall x, (release p conn r w).1 = Returned x ->
       r = Returned x /\ ev = Done (Putconn (pool_id p) conn) /\
       (release p conn r w).2 = set_txn None (logged (Done (Putconn (pool_id p) conn)) w)) /\
    (forall e, r = Raised e -> exists e', (release p conn r w).1 = Raised e').
Proof.
  unfold release. destruct (driver_fault _ _ _); cbn.
  - repeat split. eexists. split; [reflexivity|]. split; [right; reflexivity|].
    split; [discriminate | eauto].
  - repeat split. eexists. split; [reflexivity|]. split; [left; reflexivity|].
    split; [intros x ->; repeat split | intros e ->; eauto].
Qed.

Lemma roll_back_spec {A} p conn e w :
  same_host w (@roll_back A p conn e w).2 /\
  ConnectionPool_instance (@roll_back A p conn e w).2 = ConnectionPool_instance w /\
  db (@roll_back A p conn e w).2 = db w /\
  exists ev1 ev2,
    driver_log (@roll_back A p conn e w).2 = driver_log w ++ [ev1; ev2] /\
    attempted (Rollback conn) ev1 /\
    attempted (Putconn (pool_id p) conn) ev2 /\
    exists e', (@roll_back A p conn e w).1 = Raised e'.
Proof.
  unfold roll_back.
  destruct (driver_fault _ _ _);
    match goal with
    | |- context [release p conn ?r ?w'] =>
        destruct (release_spec (A:=A) p conn r w') as (Hh & Hi & Hd & ev & Hl & Ha & _ & Hr)
    end;
    (split; [etransitivity; [|exact Hh]; repeat split|]);
    (split; [rewrite Hi; reflexivity|]);
    (split; [rewrite Hd; reflexivity|]);
    eexists _, ev; (split; [rewrite Hl; cbn; rewrite <- app_assoc; reflexivity|]).
  - split; [right; reflexivity|]. split; [exact Ha|]. eapply Hr. reflexivity.
  - split; [left; reflexivity|]. split; [exact Ha|]. eapply Hr. reflexivity.
Qed.

Lemma driver_log_end_transaction w : driver_log (end_transaction w) = driver_log w.
Proof. unfold end_transaction. destruct (txn w); reflexivity. Qed.

Lemma filter_getconn_none l :
  Forall (fun ev => is_getconn ev = false) l -> List.filter is_getconn l = [].
Proof.
  induction 1 as [|ev l Hev _ IH]; [reflexivity|]. cbn. rewrite Hev. exact IH.
Qed.

Lemma attempted_not_getconn c ev :
  attempted c ev -> is_getconn (Done c) = false -> is_getconn ev = false.
Proof. intros [-> | ->] H; [exact H | destruct c; first [discriminate H | reflexivity]]. Qed.

Lemma cursor_level_not_getconn ev : cursor_level ev -> is_getconn ev = false.
Proof. destruct ev as [[]|[]]; cbn; intros H; first [reflexivity | destruct H]. Qed.

Lemma one_getconn (l pre evs closing : list driver_event) pid :
  Forall (fun ev => exists cfg, ev = Done (PoolCreate cfg)) pre ->
  Forall cursor_level evs ->
  Forall (fun ev => is_getconn ev = false) closing ->
  List.filter is_getconn
    (drop (length l) ((((l ++ pre) ++ [Done (Getconn pid)]) ++ evs) ++ closing))
  = [Done (Getconn pid)].
Proof.
  intros Hpre Hevs Hcl.
  rewrite <- !app_assoc. rewrite drop_app_length.
  rewrite !List.filter_app.
  rewrite (filter_getconn_none pre), (filter_getconn_none evs), (filter_getconn_none closing).
  - reflexivity.
  - exact Hcl.
  - eapply Forall_impl; [exact Hevs | apply cursor_level_not_getconn].
  - eapply Forall_impl; [exact Hpre|]. intros ev [cfg ->]. reflexivity.
Qed.

(** C8. Every operation of the repository, once the pool has handed out
    a connection: that is the only connection it asks for; the last call
    into the driver returns that connection to that pool, whatever
    happened before; when the block of the operation completes, [commit]
    is the next call; an operation that returns has committed and released
    and nothing else; and when the block raises, or [commit] fails,
    [rollback] is called, the operation raises, and the committed catalog
    is what it was before the operation. *)
Theorem C8_connection_discipline (o : operation) (w w0 : World) (p : Pool) :
  ConnectionPool.get_pool w = (Returned (Some p), w0) ->
  driver_fault w0 (length (driver_log w0)) (Getconn (pool_id p)) = None ->
  let conn := length (driver_log w0) in
  let block := with_cursor conn (operation_block o) (logged (Done (Getconn (pool_id p))) w0) in
  let r := (run_operation o w).1 in
  let w' := (run_operation o w).2 in
  exists closing,
    driver_log w' = driver_log block.2 ++ closing /\
    List.filter is_getconn (drop (length (driver_log w)) (driver_log w'))
      = [Done (Getconn (pool_id p))] /\
    (exists init ev, closing = init ++ [ev] /\ attempted (Putconn (pool_id p) conn) ev) /\
    (forall x, block.1 = Returned x ->
       exists ev rest, closing = ev :: rest /\ attempted (Commit conn) ev) /\
    (forall x, r = Returned x ->
       block.1 = Returned x /\
       closing = [Done (Commit conn); Done (Putconn (pool_id p) conn)] /\
       committed (db w') = committed (db (end_transaction block.2))) /\
    ((exists e, block.1 = Raised e) \/ In (Failed (Commit conn)) closing ->
       (exists ev, In ev closing /\ attempted (Rollback conn) ev) /\
       (exists e, r = Raised e) /\
       committed (db w') = committed (db w)).
Proof.
  intros Hp Hf conn block r w'. subst r w'.
  rewrite run_operation_eq, (get_db_cursor_acquired _ _ _ _ Hp Hf), guarded_run.
  fold conn.
  destruct (get_pool_returned _ _ _ Hp) as (p' & _ & _ & _ & Hdb0 & _ & pre & Hlog0 & Hpre).
  pose proof (with_cursor_frames (operation_block o) conn
                (operation_block_frames o conn)
                (logged (Done (Getconn (pool_id p))) w0)) as Hfr.
  pose proof (with_cursor_only_exceptions (operation_block o) conn
                (operation_block_only_exceptions o conn)
                (logged (Done (Getconn (pool_id p))) w0)) as Hex.
  fold block in Hfr, Hex |- *.
  destruct block as [rb w2]. cbn [fst snd] in *.
  destruct Hfr as (_ & Hcom & _ & evs & Hlog2 & Hevs).
  cbn in Hcom, Hlog2. rewrite Hdb0 in Hcom. rewrite Hlog0 in Hlog2.
  destruct rb as [x|e].
  - destruct (driver_fault w2 _ (Commit conn)) as [m|] eqn:Fc.
    + destruct (roll_back_spec (A:=operation_result o) p conn (DatabaseError m)
                  (logged (Failed (Commit conn)) w2))
        as (_ & _ & Hd & ev1 & ev2 & Hl & Ha1 & Ha2 & e' & He').
      exists [Failed (Commit conn); ev1; ev2]. cbn in Hl.
      split; [rewrite Hl, <- app_assoc; reflexivity|].
      split.
      { rewrite Hl, Hlog2, <- (app_assoc _ [_] [_; _]). apply one_getconn; try assumption.
        repeat constructor.
        - eapply attempted_not_getconn; [exact Ha1 | reflexivity].
        - eapply attempted_not_getconn; [exact Ha2 | reflexivity]. }
      split; [exists [Failed (Commit conn); ev1], ev2; split; [reflexivity | exact Ha2]|].
      split; [intros y _; eexists _, _; split; [reflexivity | right; reflexivity]|].
      split; [intros y Hy; rewrite He' in Hy; discriminate Hy|].
      intros _. split; [exists ev1; split; [right; left; reflexivity | exact Ha1]|].
      split; [eauto|]. rewrite Hd. cbn. exact Hcom.
    + destruct (release_spec p conn (Returned x)
                  (end_transaction (logged (Done (Commit conn)) w2)))
        as (_ & _ & Hd & ev & Hl & Ha & Hret & _).
      rewrite driver_log_end_transaction in Hl. cbn in Hl.
      exists [Done (Commit conn); ev].
      split; [rewrite Hl, <- app_assoc; reflexivity|].
      split.
      { rewrite Hl, Hlog2, <- (app_assoc _ [_] [_]). apply one_getconn; try assumption.
        repeat constructor.
        eapply attempted_not_getconn; [exact Ha | reflexivity]. }
      split; [exists [Done (Commit conn)], ev; split; [reflexivity | exact Ha]|].
      split; [intros y _; eexists _, _; split; [reflexivity | left; reflexivity]|].
      split.
      { intros y Hy. destruct (Hret y Hy) as (Hx & -> & _).
        split; [exact Hx|]. split; [reflexivity|].
        rewrite Hd. unfold end_transaction. cbn. destruct (txn w2); reflexivity. }
      intros [[e He]|Hin]; [discriminate He|].
      exfalso. cbn in Hin. destruct Hin as [Hin|[Hin|[]]]; [discriminate Hin|].
      destruct Ha as [-> | ->]; discriminate Hin.
  - rewrite (Hex e eq_refl).
    destruct (roll_back_spec (A:=operation_result o) p conn e w2)
      as (_ & _ & Hd & ev1 & ev2 & Hl & Ha1 & Ha2 & e' & He').
    exists [ev1; ev2].
    split; [exact Hl|].
    split.
    { rewrite Hl, Hlog2. apply one_getconn; try assumption.
      repeat constructor.
      - eapply attempted_not_getconn; [exact Ha1 | reflexivity].
      - eapply attempted_not_getconn; [exact Ha2 | reflexivity]. }
    split; [exists [ev1], ev2; split; [reflexivity | exact Ha2]|].
    split; [intros y Hy; discriminate Hy|].
    split; [intros y Hy; rewrite He' in Hy; discriminate Hy|].
    intros _. split; [exists ev1; split; [left; reflexivity | exact Ha1]|].
    split; [eauto|]. rewrite Hd. exact Hcom.
Qed.

(** When the pool cannot be constructed or does not hand out a
    connection, the operation raises before any transaction starts: no
    connection is acquired, nothing is executed and the committed catalog
    is unchanged. *)
Lemma run_operation_without_connection o w :
  (forall p w0, ConnectionPool.get_pool w = (Returned (Some p), w0) ->
     driver_fault w0 (length (driver_log w0)) (Getconn (pool_id p)) <> None) ->
  (exists e, (run_operation o w).1 = Raised e) /\
  committed (db (run_operation o w).2) = committed (db w) /\
  Forall (fun ev => (exists cfg, attempted (PoolCreate cfg) ev) \/
                    (exists pid, ev = Failed (Getconn pid)))
    (drop (length (driver_log w)) (driver_log (run_operation o w).2)).
Proof.
  intros H. rewrite run_operation_eq.
  destruct (ConnectionPool.get_pool w) as [[pool|e] w0] eqn:Hp.
  - destruct (get_pool_returned _ _ _ Hp) as (p & -> & _ & _ & Hdb & _ & pre & Hlog & Hpre).
    specialize (H p w0 eq_refl).
    destruct (driver_fault w0 (length (driver_log w0)) (Getconn (pool_id p))) as [msg|] eqn:F;
      [|congruence].
    rewrite (get_db_cursor_not_acquired _ _ _ _ _ Hp F). cbn.
    split; [eauto|]. split; [congruence|].
    rewrite Hlog, <- app_assoc, drop_app_length.
    apply Forall_app. split.
    + eapply Forall_impl; [exact Hpre|]. intros ev [cfg ->]. left. exists cfg. left. reflexivity.
    + constructor; [right; eauto | constructor].
  - unfold get_db_cursor, bind. rewrite Hp. cbn.
    destruct (get_pool_failed _ _ _ Hp) as (_ & _ & _ & Hdb & Hev).
    split; [eauto|]. split; [exact Hdb|].
    eapply Forall_impl; [exact Hev|]. intros ev [cfg ->]. left. exists cfg. right. reflexivity.
Qed.

(** Whatever the guarded block does, what follows it in the driver log are
    calls of [commit], [rollback] and [putconn] on the connection. *)
Lemma guarded_closing {A} (block : M A) p conn w1 :
  only_exceptions block ->
  exists closing,
    driver_log
      (try_finally
         (try_except (x <- block ;; commit conn >> ret x)
            (fun e => rollback conn >> raise e))
         (putconn (Some p) conn) w1).2
    = driver_log (block w1).2 ++ closing /\
    Forall (fun ev => exists c, closing_call (pool_id p) conn c /\ attempted c ev) closing.
Proof.
  intros Hex. rewrite guarded_run. specialize (Hex w1).
  destruct (block w1) as [[x|e] w2]; cbn [fst snd] in *.
  - destruct (driver_fault w2 _ (Commit conn)) as [m|].
    + destruct (roll_back_spec (A:=A) p conn (DatabaseError m) (logged (Failed (Commit conn)) w2))
        as (_ & _ & _ & ev1 & ev2 & Hl & Ha1 & Ha2 & _).
      exists [Failed (Commit conn); ev1; ev2]. split.
      * rewrite Hl. cbn. rewrite <- app_assoc. reflexivity.
      * repeat constructor; eexists; (split; [|first [eassumption | right; reflexivity]]);
          unfold closing_call; auto.
    + destruct (release_spec p conn (Returned x)
                  (end_transaction (logged (Done (Commit conn)) w2)))
        as (_ & _ & _ & ev & Hl & Ha & _).
      rewrite driver_log_end_transaction in Hl.
      exists [Done (Commit conn); ev]. split.
      * rewrite Hl. cbn. rewrite <- app_assoc. reflexivity.
      * repeat constructor; eexists; (split; [|first [eassumption | left; reflexivity]]);
          unfold closing_call; auto.
  - rewrite (Hex e eq_refl).
    destruct (roll_back_spec (A:=A) p conn e w2)
      as (_ & _ & _ & ev1 & ev2 & Hl & Ha1 & Ha2 & _).
    exists [ev1; ev2]. split; [exact Hl|].
    repeat constructor; eexists; (split; [|eassumption]); unfold closing_call; auto.
Qed.

Lemma attempted_inj c c' ev : attempted c ev -> attempted c' ev -> c = c'.
Proof. intros [-> | ->] [H | H]; congruence. Qed.

(** ** Running an operation to its end *)

Lemma get_db_cursor_returned {A} (body : nat -> M A) w x w' :
  get_db_cursor body w = (Returned x, w') ->
  exists p w0 wb,
    ConnectionPool.get_pool w = (Returned (Some p), w0) /\
    body (length (driver_log w0))
      (set_result_set None
         (logged (Done (Cursor (length (driver_log w0))))
            (logged (Done (Getconn (pool_id p))) w0))) = (Returned x, wb) /\
    w' = set_txn None
           (logged (Done (Putconn (pool_id p) (length (driver_log w0))))
              (end_transaction
                 (logged (Done (Commit (length (driver_log w0))))
                    (set_result_set None wb)))).
Proof.
  intros E.
  destruct (ConnectionPool.get_pool w) as [[pool|e] w0] eqn:Hp.
  2:{ unfold get_db_cursor, bind in E. rewrite Hp in E. discriminate E. }
  destruct (get_pool_returned _ _ _ Hp) as (p & -> & _).
  destruct (driver_fault w0 (length (driver_log w0)) (Getconn (pool_id p))) as [m|] eqn:Fg.
  { rewrite (get_db_cursor_not_acquired _ _ _ _ _ Hp Fg) in E. discriminate E. }
  rewrite (get_db_cursor_acquired _ _ _ _ Hp Fg), guarded_run, with_cursor_run in E.
  destruct (driver_fault _ _ (Cursor _)) as [m|] eqn:Fcur.
  { cbn in E. unfold roll_back, release in E.
    repeat (destruct (driver_fault _ _ _) in E; try discriminate E). }
  destruct (body _ _) as [rb wb] eqn:Eb. cbn [fst snd] in E.
  destruct rb as [y|e].
  2:{ unfold roll_back, release in E.
      destruct (is_Exception e);
        repeat (destruct (driver_fault _ _ _) in E; try discriminate E). }
  destruct (driver_fault _ _ (Commit _)) as [m|] eqn:Fc.
  { unfold roll_back, release in E.
    repeat (destruct (driver_fault _ _ _) in E; try discriminate E). }
  unfold release in E.
  destruct (driver_fault _ _ (Putconn _ _)) as [m|] eqn:Fp; [discriminate E|].
  injection E as <- <-.
  exists p, w0, wb. repeat split; assumption.
Qed.

Lemma run_operation_returns o w p w0 x wb :
  ConnectionPool.get_pool w = (Returned (Some p), w0) ->
  (forall n c, (length (driver_log w0) <= n)%nat -> driver_fault w0 n c = None) ->
  operation_block o (length (driver_log w0))
    (set_result_set None
       (logged (Done (Cursor (length (driver_log w0))))
          (logged (Done (Getconn (pool_id p))) w0))) = (Returned x, wb) ->
  run_operation o w =
    (Returned x,
     set_txn None
       (logged (Done (Putconn (pool_id p) (length (driver_log w0))))
          (end_transaction
             (logged (Done (Commit (length (driver_log w0))))
                (set_result_set None wb))))).
Proof.
  intros Hp Hnf Eb.
  rewrite run_operation_eq.
  rewrite (get_db_cursor_acquired _ _ _ _ Hp) by (apply Hnf; lia).
  rewrite guarded_run, with_cursor_run.
  cbn [driver_fault driver_log logged set_driver_log].
  rewrite Hnf by (rewrite length_app; lia).
  pose proof (operation_block_frames o (length (driver_log w0))
                (set_result_set None
                   (logged (Done (Cursor (length (driver_log w0))))
                      (logged (Done (Getconn (pool_id p))) w0)))) as Hfr.
  cbn [driver_fault driver_log logged set_driver_log] in *.
  rewrite Eb in Hfr |- *.
  cbn [fst snd driver_fault driver_log set_result_set] in *.
  destruct Hfr as ((_&_&_&_&_&Hdf) & _ & _ & evs & Hlog & _).
  cbn in Hdf, Hlog.
  rewrite Hdf, Hnf by (rewrite Hlog, !length_app; lia).
  unfold release.
  rewrite driver_log_end_transaction.
  assert (Hdf' : driver_fault (end_transaction
             (logged (Done (Commit (length (driver_log w0)))) (set_result_set None wb)))
           = driver_fault w0).
  { unfold end_transaction. cbn. destruct (txn wb); cbn; exact Hdf. }
  rewrite Hdf', Hnf by (cbn; rewrite Hlog, !length_app; lia).
  reflexivity.
Qed.

(** ** The blocks of [insert], [find_by_id] and [find_all] *)

Lemma execute_run cur s w :
  driver_fault w (length (driver_log w)) (Execute cur s) = None ->
  execute cur s w =
    match run_statement s (transaction_view w) (db w) with
    | (inl msg, seq) =>
        (Raised (DatabaseError msg),
         set_txn (Some (transaction_view w))
           (set_db (set_id_seq seq (db w)) (logged (Done (Execute cur s)) w)))
    | (inr (view', rs), seq) =>
        (Returned tt,
         set_result_set rs
           (set_txn (Some view')
              (set_db (set_id_seq seq (db w)) (logged (Done (Execute cur s)) w))))
    end.
Proof.
  intros H. unfold execute, bind. rewrite (driver_ok _ _ H). reflexivity.
Qed.

Lemma execute_returned cur s w wb :
  execute cur s w = (Returned tt, wb) ->
  exists view' rs seq,
    run_statement s (transaction_view w) (db w) = (inr (view', rs), seq) /\
    wb = set_result_set rs
           (set_txn (Some view')
              (set_db (set_id_seq seq (db w)) (logged (Done (Execute cur s)) w))).
Proof.
  destruct (driver_fault w (length (driver_log w)) (Execute cur s)) as [m|] eqn:F.
  - unfold execute, bind. rewrite (driver_fails _ _ _ F). discriminate.
  - rewrite (execute_run _ _ _ F).
    destruct (run_statement s _ _) as [[msg|[view' rs]] seq]; [discriminate|].
    intros E. injection E as <-. eauto.
Qed.

Lemma insert_block_returned oc ap ar rp rr wp wr ev cur w id wb :
  OptimizationLogRepository.insert_block oc ap ar rp rr wp wr ev cur w = (Returned id, wb) ->
  exists rows,
    log_table (transaction_view w) = Some rows /\
    id = id_seq (db w) + 1 /\
    existsb (fun r => col_id r =? id) rows = false /\
    txn wb =
      Some {| log_table :=
                Some (rows ++
                        [{| col_id := id;
                            col_original_content := oc;
                            col_analyst_prompt := Some ap;
                            col_analyst_result := Some ar;
                            col_architect_prompt := Some rp;
                            col_architect_result := Some rr;
                            col_writer_prompt := Some wp;
                            col_writer_result := Some wr;
                            col_evaluation := ev;
                            col_created_at := Some (utcnow w - session_utc_offset (db w)) |}]);
              created_at_index := created_at_index (transaction_view w) |} /\
    driver_log wb =
      driver_log w ++ [Done (Execute cur (INSERT_RETURNING_ID oc ap ar rp rr wp wr ev (utcnow w)))].
Proof.
  unfold OptimizationLogRepository.insert_block. unfold bind at 1, get at 1. unfold bind at 1.
  destruct (execute _ _ w) as [[[]|e] w1] eqn:Ex; [|discriminate].
  destruct (execute_returned _ _ _ _ Ex) as (view' & rs & seq & Hrun & ->).
  cbn [run_statement] in Hrun.
  destruct (log_table (transaction_view w)) as [rows|]; [|discriminate Hrun].
  destruct (existsb _ rows) eqn:Hex; [discriminate Hrun|].
  injection Hrun as <- <- <-.
  unfold bind, fetchone, getitem. cbn.
  intros E. injection E as <- <-. exists rows. repeat split. exact Hex.
Qed.

Lemma filter_id_fresh rows id :
  existsb (fun r => col_id r =? id) rows = false ->
  List.filter (fun r => col_id r =? id) rows = [].
Proof.
  induction rows as [|r rows IH]; [reflexivity|]. cbn.
  destruct (col_id r =? id); [discriminate|]. exact IH.
Qed.

Lemma committed_world p conn wb :
  let w' := set_txn None
              (logged (Done (Putconn (pool_id p) conn))
                 (end_transaction (logged (Done (Commit conn)) (set_result_set None wb)))) in
  ConnectionPool_instance w' = ConnectionPool_instance wb /\
  txn w' = None /\
  same_host wb w' /\
  committed (db w') = transaction_view wb /\
  driver_log w' = driver_log wb ++ [Done (Commit conn); Done (Putconn (pool_id p) conn)].
Proof.
  unfold end_transaction, transaction_view. cbn.
  destruct (txn wb); cbn; rewrite <- app_assoc; repeat split.
Qed.

Lemma insert_returned oc ap ar rp rr wp wr ev w id w1 :
  OptimizationLogRepository.insert oc ap ar rp rr wp wr ev w = (Returned id, w1) ->
  exists p rows index conn,
    ConnectionPool_instance w1 = Some p /\
    txn w1 = None /\
    same_host w w1 /\
    existsb (fun r => col_id r =? id) rows = false /\
    committed (db w1) =
      {| log_table :=
           Some (rows ++
                   [{| col_id := id;
                       col_original_content := oc;
                       col_analyst_prompt := Some ap;
                       col_analyst_result := Some ar;
                       col_architect_prompt := Some rp;
                       col_architect_result := Some rr;
                       col_writer_prompt := Some wp;
                       col_writer_result := Some wr;
                       col_evaluation := ev;
                       col_created_at := Some (utcnow w - session_utc_offset (db w)) |}]);
         created_at_index := index |} /\
    In (Done (Execute conn (INSERT_RETURNING_ID oc ap ar rp rr wp wr ev (utcnow w))))
       (driver_log w1).
Proof.
  intros E. unfold OptimizationLogRepository.insert in E.
  destruct (get_db_cursor_returned _ _ _ _ E) as (p & w0 & wb & Hp & Hb & ->).
  destruct (get_pool_returned _ _ _ Hp) as (p' & Hpp & Hi0 & Hh0 & Hdb0 & Htx0 & _).
  injection Hpp as <-.
  pose proof (operation_block_frames (Insert oc ap ar rp rr wp wr ev) (length (driver_log w0))
                (set_result_set None
                   (logged (Done (Cursor (length (driver_log w0))))
                      (logged (Done (Getconn (pool_id p))) w0)))) as Hfr.
  cbn [operation_block] in Hfr. rewrite Hb in Hfr. cbn [fst snd] in Hfr.
  destruct Hfr as (Hh & _ & Hi & _). cbn in Hi.
  destruct (insert_block_returned _ _ _ _ _ _ _ _ _ _ _ _ Hb)
    as (rows & Hrows & Hid & Hex & Htxn & Hlog).
  cbn in Hid, Htxn, Hlog. unfold transaction_view in Hrows, Htxn. cbn in Hrows, Htxn.
  destruct Hh0 as (Hf0 & Hc0 & Hr0 & He0 & Hu0 & Hd0).
  rewrite Hu0, Hdb0 in Htxn. rewrite Hu0 in Hlog.
  destruct (committed_world p (length (driver_log w0)) wb)
    as (Hi1 & Ht1 & Hh1 & Hc1 & Hl1).
  cbn zeta in Hi1, Ht1, Hh1, Hc1, Hl1.
  exists p, rows; eexists _, (length (driver_log w0)).
  split; [congruence|].
  split; [exact Ht1|].
  split.
  { transitivity w0; [repeat split; assumption|].
    transitivity wb; [|exact Hh1].
    etransitivity; [|exact Hh]. repeat split. }
  split; [exact Hex|].
  split.
  { rewrite Hc1. unfold transaction_view. rewrite Htxn. reflexivity. }
  rewrite Hl1, Hlog. rewrite !in_app_iff. cbn. tauto.
Qed.

(** C6. When [insert] has returned an identifier and the driver does not
    fail afterwards, [find_by_id] with that identifier returns a record
    whose columns are the inserted values, with that identifier and with
    [created_at] not null. *)
Theorem C6_insert_then_find_by_id
    (original_content analyst_prompt analyst_result architect_prompt
       architect_result writer_prompt writer_result : string)
    (evaluation : option string) (w w1 : World) (record_id : Z) :
  OptimizationLogRepository.insert original_content analyst_prompt analyst_result
    architect_prompt architect_result writer_prompt writer_result evaluation w
    = (Returned record_id, w1) ->
  (forall n c, (length (driver_log w1) <= n)%nat -> driver_fault w1 n c = None) ->
  exists r w2,
    OptimizationLogRepository.find_by_id record_id w1 = (Returned (Some (LogRow r)), w2) /\
    col_id r = record_id /\
    col_original_content r = original_content /\
    col_analyst_prompt r = Some analyst_prompt /\
    col_analyst_result r = Some analyst_result /\
    col_architect_prompt r = Some architect_prompt /\
    col_architect_result r = Some architect_result /\
    col_writer_prompt r = Some writer_prompt /\
    col_writer_result r = Some writer_result /\
    col_evaluation r = evaluation /\
    is_Some (col_created_at r).
Proof.
  intros Hins Hnf.
  destruct (insert_returned _ _ _ _ _ _ _ _ _ _ _ Hins)
    as (p & rows & index & conn & Hi & Ht & _ & Hex & Hc & _).
  pose proof (get_pool_existing _ _ Hi) as Hp.
  eexists _, _. split.
  - change (OptimizationLogRepository.find_by_id record_id w1)
      with (run_operation (Find_by_id record_id) w1).
    etransitivity; [|reflexivity].
    eapply (run_operation_returns (Find_by_id record_id) w1 p w1); [exact Hp | exact Hnf |].
    cbn [operation_block]. unfold OptimizationLogRepository.find_by_id_block, bind.
    rewrite execute_run by (cbn; apply Hnf; rewrite !length_app; lia).
    unfold transaction_view. cbn. rewrite Ht, Hc. cbn.
    rewrite List.filter_app, (filter_id_fresh _ _ Hex). cbn.
    rewrite Z.eqb_refl. cbn. reflexivity.
  - cbn. repeat split. eexists. reflexivity.
Qed.

Lemma insert_block_events oc ap ar rp rr wp wr ev cur w :
  exists e,
    driver_log (OptimizationLogRepository.insert_block oc ap ar rp rr wp wr ev cur w).2
      = driver_log w ++ [e] /\
    attempted (Execute cur (INSERT_RETURNING_ID oc ap ar rp rr wp wr ev (utcnow w))) e.
Proof.
  unfold OptimizationLogRepository.insert_block. unfold bind at 1, get at 1. unfold bind at 1.
  destruct (driver_fault w (length (driver_log w))
              (Execute cur (INSERT_RETURNING_ID oc ap ar rp rr wp wr ev (utcnow w))))
    as [msg|] eqn:F.
  - unfold execute, bind. rewrite (driver_fails _ _ _ F). cbn.
    eexists. split; [reflexivity | right; reflexivity].
  - rewrite (execute_run _ _ _ F).
    destruct (run_statement _ (transaction_view w) (db w)) as [[msg|[view' rs]] seq]; cbn.
    + eexists. split; [reflexivity | left; reflexivity].
    + unfold bind, fetchone. cbn.
      destruct rs as [[|r rest]|]; cbn;
        try (eexists; split; [reflexivity | left; reflexivity]).
      all: unfold getitem; try destruct r; cbn;
        eexists; (split; [reflexivity | left; reflexivity]).
Qed.

(** Every INSERT that [insert] hands to the driver, whether the call then
    succeeds or not, binds [created_at] to the [utcnow] of the caller. *)
Lemma insert_statement_parameters oc ap ar rp rr wp wr evaluation w ev conn s :
  In ev (drop (length (driver_log w))
           (driver_log (OptimizationLogRepository.insert oc ap ar rp rr wp wr evaluation w).2)) ->
  attempted (Execute conn s) ev ->
  s = INSERT_RETURNING_ID oc ap ar rp rr wp wr evaluation (utcnow w).
Proof.
  intros Hin Hat. unfold OptimizationLogRepository.insert in Hin.
  destruct (ConnectionPool.get_pool w) as [[pool|e] w0] eqn:Hp.
  2:{ unfold get_db_cursor, bind in Hin. rewrite Hp in Hin. cbn in Hin.
      destruct (get_pool_failed _ _ _ Hp) as (_ & _ & _ & _ & Hev).
      rewrite Forall_forall in Hev. apply list_elem_of_In, Hev in Hin as [cfg ->].
      destruct Hat as [H | H]; discriminate H. }
  destruct (get_pool_returned _ _ _ Hp)
    as (p & -> & _ & (_ & _ & _ & _ & Hu & _) & _ & _ & pre & Hlog & Hpre).
  assert (Hpre' : forall x, In x pre -> x = ev -> False).
  { intros x Hx ->. rewrite Forall_forall in Hpre.
    apply list_elem_of_In, Hpre in Hx as [cfg ->]. destruct Hat as [H | H]; discriminate H. }
  destruct (driver_fault w0 (length (driver_log w0)) (Getconn (pool_id p))) as [msg|] eqn:F.
  { rewrite (get_db_cursor_not_acquired _ _ _ _ _ Hp F) in Hin. cbn in Hin.
    rewrite Hlog, <- app_assoc, drop_app_length in Hin.
    apply in_app_or in Hin as [Hin | [<- | []]]; [destruct (Hpre' _ Hin eq_refl)|].
    destruct Hat as [H | H]; discriminate H. }
  rewrite (get_db_cursor_acquired _ _ _ _ Hp F) in Hin.
  destruct (guarded_closing
              (with_cursor (length (driver_log w0))
                 (OptimizationLogRepository.insert_block oc ap ar rp rr wp wr evaluation))
              p (length (driver_log w0)) (logged (Done (Getconn (pool_id p))) w0))
    as (closing & Hl & Hcl).
  { apply with_cursor_only_exceptions.
    apply (operation_block_only_exceptions (Insert oc ap ar rp rr wp wr evaluation)). }
  rewrite Hl in Hin. clear Hl.
  assert (Hcl' : forall x, In x closing -> x = ev -> False).
  { intros x Hx ->. rewrite Forall_forall in Hcl.
    apply list_elem_of_In, Hcl in Hx as (c & Hc & Hx).
    pose proof (attempted_inj _ _ _ Hat Hx) as <-.
    destruct Hc as [H | [H | H]]; discriminate H. }
  rewrite with_cursor_run in Hin.
  destruct (driver_fault _ _ (Cursor _)) as [m|] eqn:Fc; cbn [snd] in Hin.
  - cbn in Hin. rewrite Hlog, <- !app_assoc, drop_app_length in Hin.
    apply in_app_or in Hin as [Hin | Hin]; [destruct (Hpre' _ Hin eq_refl)|].
    cbn in Hin. destruct Hin as [<- | [<- | Hin]];
      [destruct Hat as [H | H]; discriminate H
      |destruct Hat as [H | H]; discriminate H
      |destruct (Hcl' _ Hin eq_refl)].
  - destruct (insert_block_events oc ap ar rp rr wp wr evaluation (length (driver_log w0))
                (set_result_set None
                   (logged (Done (Cursor (length (driver_log w0))))
                      (logged (Done (Getconn (pool_id p))) w0))))
      as (e & He & Hae).
    cbn [driver_log set_result_set] in Hin. rewrite He in Hin. cbn in Hin, Hae.
    rewrite Hu in Hae.
    rewrite Hlog, <- !app_assoc, drop_app_length in Hin.
    apply in_app_or in Hin as [Hin | Hin]; [destruct (Hpre' _ Hin eq_refl)|].
    cbn in Hin. destruct Hin as [<- | [<- | [<- | Hin]]];
      [destruct Hat as [H | H]; discriminate H
      |destruct Hat as [H | H]; discriminate H
      |
      |destruct (Hcl' _ Hin eq_refl)].
    pose proof (attempted_inj _ _ _ Hat Hae) as H. injection H as _ ->. reflexivity.
Qed.

(** C9. Every INSERT that [insert] hands to the driver, whether the call
    then succeeds or not, binds [created_at] to the [utcnow] of the caller;
    and an [insert] that returns has stored a row whose [created_at] is
    that time (read in the session time zone): the value of the column for
    a supplied timestamp, in which the server clock of the column default
    does not occur. *)
Theorem C9_created_at_is_the_client_clock
    (original_content analyst_prompt analyst_result architect_prompt
       architect_result writer_prompt writer_result : string)
    (evaluation : option string) (w : World) :
  let run := OptimizationLogRepository.insert original_content analyst_prompt analyst_result
               architect_prompt architect_result writer_prompt writer_result evaluation w in
  (forall ev conn s,
     In ev (drop (length (driver_log w)) (driver_log run.2)) ->
     attempted (Execute conn s) ev ->
     s = INSERT_RETURNING_ID original_content analyst_prompt analyst_result
           architect_prompt architect_result writer_prompt writer_result
           evaluation (utcnow w)) /\
  (forall record_id, run.1 = Returned record_id ->
     exists rows r,
       log_table (committed (db run.2)) = Some (rows ++ [r]) /\
       col_id r = record_id /\
       col_created_at r = Some (utcnow w - session_utc_offset (db w)) /\
       col_created_at r = Some (created_at_value (db w) (Some (utcnow w)))).
Proof.
  intros run. subst run. split.
  - intros ev conn s. apply insert_statement_parameters.
  - intros record_id Hr.
    destruct (OptimizationLogRepository.insert _ _ _ _ _ _ _ _ w) as [r w1] eqn:Hins.
    cbn [fst snd] in *. subst r.
    destruct (insert_returned _ _ _ _ _ _ _ _ _ _ _ Hins)
      as (p & rows & index & conn & _ & _ & _ & _ & Hc & _).
    eexists rows, _. rewrite Hc. cbn. repeat split.
Qed.

(** What the column default would store instead: the server clock. *)
Lemma created_at_default d : created_at_value d None = server_now d.
Proof. reflexivity. Qed.

#[global] Instance newest_first_total : Total newest_first.
Proof.
  intros a b. unfold newest_first.
  destruct (col_created_at a), (col_created_at b); try tauto. lia.
Qed.

#[global] Instance newest_first_transitive : Transitive newest_first.
Proof.
  intros a b c. unfold newest_first.
  destruct (col_created_at a), (col_created_at b), (col_created_at c); try tauto. lia.
Qed.

Lemma StronglySorted_take_drop {A} (R : relation A) (l : list A) n m :
  StronglySorted R l -> StronglySorted R (take n (drop m l)).
Proof.
  intros H.
  assert (Hd : StronglySorted R (drop m l)).
  { rewrite <- (take_drop m l) in H. apply StronglySorted_app_1_r in H. exact H. }
  rewrite <- (take_drop n (drop m l)) in Hd. apply StronglySorted_app_1_l in Hd. exact Hd.
Qed.

Lemma find_all_block_returned limit offset cur w rows wb :
  OptimizationLogRepository.find_all_block limit offset cur w = (Returned rows, wb) ->
  exists table,
    log_table (transaction_view w) = Some table /\
    0 <= limit /\ 0 <= offset /\
    rows = map LogRow
             (take (Z.to_nat limit) (drop (Z.to_nat offset) (merge_sort newest_first table))).
Proof.
  unfold OptimizationLogRepository.find_all_block. unfold bind at 1.
  destruct (execute _ _ w) as [[[]|e] w1] eqn:Ex; [|discriminate].
  destruct (execute_returned _ _ _ _ Ex) as (view' & rs & seq & Hrun & ->).
  cbn [run_statement] in Hrun.
  destruct (log_table (transaction_view w)) as [table|]; [|discriminate Hrun].
  destruct (limit <? 0) eqn:Hl; [discriminate Hrun|].
  destruct (offset <? 0) eqn:Ho; [discriminate Hrun|].
  injection Hrun as <- <- <-.
  unfold fetchall. cbn. intros E. injection E as <- <-.
  exists table. repeat split; lia.
Qed.

(** C7. For every limit and offset, the records returned by [find_all]
    are rows of the table, at most [limit] of them, each one at least as
    new as all that follow it. *)
Theorem C7_find_all_limit_and_order (limit offset : Z) (w w' : World)
    (records : list result_row) :
  OptimizationLogRepository.find_all limit offset w = (Returned records, w') ->
  exists rows,
    records = map LogRow rows /\
    Z.of_nat (length records) <= limit /\
    StronglySorted newest_first rows.
Proof.
  intros E. unfold OptimizationLogRepository.find_all in E.
  destruct (get_db_cursor_returned _ _ _ _ E) as (p & w0 & wb & _ & Hb & _).
  destruct (find_all_block_returned _ _ _ _ _ _ Hb) as (table & _ & Hl & _ & ->).
  eexists. split; [reflexivity|]. split.
  - rewrite length_map, length_take. lia.
  - apply StronglySorted_take_drop, StronglySorted_merge_sort; apply _.
Qed.

(** [find_all] does return when the pool exists, the table exists, no
    transaction is open, the bounds are not negative and in the range of
    [bigint], and the driver does not fail. *)
Lemma find_all_returns limit offset w p table :
  ConnectionPool_instance w = Some p ->
  txn w = None ->
  log_table (committed (db w)) = Some table ->
  0 <= limit < 2 ^ 63 -> 0 <= offset < 2 ^ 63 ->
  (forall n c, (length (driver_log w) <= n)%nat -> driver_fault w n c = None) ->
  exists w',
    OptimizationLogRepository.find_all limit offset w =
      (Returned (map LogRow
                   (take (Z.to_nat limit)
                      (drop (Z.to_nat offset) (merge_sort newest_first table)))), w').
Proof.
  intros Hi Ht Htab Hl Ho Hnf.
  pose proof (get_pool_existing _ _ Hi) as Hp.
  eexists.
  change (OptimizationLogRepository.find_all limit offset w)
    with (run_operation (Find_all limit offset) w).
  eapply (run_operation_returns (Find_all limit offset) w p w); [exact Hp | exact Hnf |].
  cbn [operation_block]. unfold OptimizationLogRepository.find_all_block, bind.
  rewrite execute_run by (cbn; apply Hnf; rewrite !length_app; lia).
  unfold transaction_view. cbn. rewrite Ht, Htab.
  destruct (Z.ltb_spec limit 0); [lia|]. destruct (Z.ltb_spec offset 0); [lia|].
  reflexivity.
Qed.

(** ** The three stages *)

#[global] Instance same_store_preorder : PreOrder same_store.
Proof.
  split.
  - intros w. unfold same_store. tauto.
  - intros w1 w2 w3 (?&?&?&?&?&?&?&?&?&?) (?&?&?&?&?&?&?&?&?&?). unfold same_store.
    repeat split; congruence.
Qed.

(** Symbolic run of the stage block: which calls are made, what comes
    back, and what is on disk afterwards, by the answers of [format] and of
    the generation service. *)
Lemma run_stages_cases prompts self article_path article output_path w :
  let k := length (llm_calls w) in
  let r := (TechnicalWriterAgent.run_stages prompts self article_path article output_path w).1 in
  let w1 := (TechnicalWriterAgent.run_stages prompts self article_path article output_path w).2 in
  same_store w w1 /\
  match format (ANALYST_USER_PROMPT_TEMPLATE prompts)
          {[ "article_content"%string := article ]} with
  | inl e => r = Raised e /\ llm_calls w1 = llm_calls w /\ filesystem w1 = filesystem w
  | inr p1 =>
  match llm_reply w k (model_name self) (ANALYST_SYSTEM_PROMPT prompts) p1 with
  | inl msg =>
      r = Raised (SystemExit 1) /\
      llm_calls w1 = llm_calls w ++ [analyst_call prompts self p1] /\
      filesystem w1 = filesystem w
  | inr a =>
  match format (ARCHITECT_USER_PROMPT_TEMPLATE prompts)
          (<[ "article_content"%string := article ]>
             {[ "analysis_content"%string := a ]}) with
  | inl e =>
      r = Raised e /\
      llm_calls w1 = llm_calls w ++ [analyst_call prompts self p1] /\
      filesystem w1 = filesystem w
  | inr p2 =>
  match llm_reply w (k + 1) (model_name self) (ARCHITECT_SYSTEM_PROMPT prompts) p2 with
  | inl msg =>
      r = Raised (SystemExit 1) /\
      llm_calls w1 =
        llm_calls w ++ [analyst_call prompts self p1; architect_call prompts self p2] /\
      filesystem w1 = filesystem w
  | inr b =>
  match format (WRITER_USER_PROMPT_TEMPLATE prompts)
          (<[ "article_content"%string := article ]>
             (<[ "analysis_content"%string := a ]>
                {[ "blueprint_content"%string := b ]})) with
  | inl e =>
      r = Raised e /\
      llm_calls w1 =
        llm_calls w ++ [analyst_call prompts self p1; architect_call prompts self p2] /\
      filesystem w1 = filesystem w
  | inr p3 =>
  match llm_reply w (k + 2) (model_name self) (WRITER_SYSTEM_PROMPT prompts) p3 with
  | inl msg =>
      r = Raised (SystemExit 1) /\
      llm_calls w1 =
        llm_calls w ++ [analyst_call prompts self p1; architect_call prompts self p2;
                        writer_call prompts self p3] /\
      filesystem w1 = filesystem w
  | inr c =>
      r = Returned {| article_content := article;
                      analyst_user_prompt := p1; analysis := a;
                      architect_user_prompt := p2; blueprint := b;
                      writer_user_prompt := p3; rewritten_article := c |} /\
      llm_calls w1 =
        llm_calls w ++ [analyst_call prompts self p1; architect_call prompts self p2;
                        writer_call prompts self p3] /\
      filesystem w1 =
        <[ output_path :=
             ((EmptyString +:+ step1_section a) +:+ step2_section b) +:+ step3_section c ]>
          (filesystem w)
  end end end end end end.
Proof.
  unfold TechnicalWriterAgent.run_stages, TechnicalWriterAgent._call_llm,
    generate_content, try_except, bind, lift_format,
    console_print, emit_console, write_text, modify, ret, raise, sys_exit.
  unfold analyst_call, architect_call, writer_call.
  cbn.
  destruct (format (ANALYST_USER_PROMPT_TEMPLATE prompts) _) as [e1|p1]; cbn;
    [repeat split|].
  destruct (llm_reply w _ _ _ p1) as [msg1|a]; cbn; [repeat split|].
  destruct (format (ARCHITECT_USER_PROMPT_TEMPLATE prompts) _) as [e2|p2]; cbn;
    [repeat split|].
  rewrite !length_app. cbn [length].
  destruct (llm_reply w _ _ _ p2) as [msg2|b]; cbn;
    [repeat split; rewrite <- app_assoc; reflexivity|].
  destruct (format (WRITER_USER_PROMPT_TEMPLATE prompts) _) as [e3|p3]; cbn;
    [repeat split; rewrite <- app_assoc; reflexivity|].
  rewrite !length_app. cbn [length].
  replace (length (llm_calls w) + 1 + 1)%nat with (length (llm_calls w) + 2)%nat by lia.
  destruct (llm_reply w _ _ _ p3) as [msg3|c]; cbn;
    repeat split; rewrite <- !app_assoc; reflexivity.
Qed.

Import TechnicalWriterAgent.

Lemma insert_run_same_host prompts s : frames same_host (insert_run prompts s).
Proof. unfold insert_run. cbn zeta. apply (run_operation_same_host (Insert _ _ _ _ _ _ _ _)). Qed.

Lemma insert_run_only_exceptions prompts s : only_exceptions (insert_run prompts s).
Proof.
  unfold insert_run. cbn zeta. apply (run_operation_only_exceptions (Insert _ _ _ _ _ _ _ _)).
Qed.

Lemma record_run_returns prompts s w :
  (record_run prompts s w).1 = Returned tt /\
  same_host w (record_run prompts s w).2.
Proof.
  unfold record_run, try_except, bind.
  pose proof (insert_run_same_host prompts s w) as Hf.
  pose proof (insert_run_only_exceptions prompts s w) as He.
  destruct (insert_run prompts s w) as [[n|e] w1]; cbn in *.
  - split; [reflexivity|]. exact Hf.
  - rewrite (He e eq_refl). cbn. split; [reflexivity|]. exact Hf.
Qed.

Lemma process_with_input prompts self ap op w raw :
  filesystem w !! ap = Some raw ->
  process prompts self ap op w =
    (s <- run_stages prompts self ap (universal_newlines raw) op ;; record_run prompts s) w.
Proof.
  intros H. unfold process, try_except_FileNotFoundError, read_text.
  unfold bind at 1 2. rewrite H. reflexivity.
Qed.

Lemma process_missing_input prompts self ap op w :
  filesystem w !! ap = None ->
  process prompts self ap op w =
    (Returned tt,
     set_console (console w ++ [Markup ("[bold red]错误:[/bold red] 找不到文件: " +:+ ap)]) w).
Proof.
  intros H. unfold process, try_except_FileNotFoundError, read_text.
  unfold bind at 1 2. rewrite H. reflexivity.
Qed.

Lemma import_db_returns w :
  (import_db w).1 = Returned tt /\ same_host w (import_db w).2.
Proof.
  unfold import_db, try_except.
  pose proof (run_operation_same_host Init_table w) as Hf.
  pose proof (run_operation_only_exceptions Init_table w) as He.
  cbn [run_operation] in Hf, He.
  destruct (OptimizationLogRepository.init_table w) as [[[]|e] w1]; cbn in *.
  - split; [reflexivity | exact Hf].
  - rewrite (He e eq_refl). cbn. split; [reflexivity | exact Hf].
Qed.

Lemma init_cases w :
  (exists self, __init__ None None w = (Returned self, w)) \/
  (exists w', __init__ None None w = (Raised (SystemExit 1), w') /\
     filesystem w' = filesystem w /\ llm_calls w' = llm_calls w).
Proof.
  unfold __init__, bind, getenv, get, ret, console_print, emit_console, modify, sys_exit, raise.
  cbn. destruct (truthy _); cbn; eauto.
Qed.

Lemma run_stages_success prompts self ap article op w p1 a p2 b p3 c :
  format (ANALYST_USER_PROMPT_TEMPLATE prompts)
    {[ "article_content"%string := article ]} = inr p1 ->
  llm_reply w (length (llm_calls w)) (model_name self)
    (ANALYST_SYSTEM_PROMPT prompts) p1 = inr a ->
  format (ARCHITECT_USER_PROMPT_TEMPLATE prompts)
    (<[ "article_content"%string := article ]>
       {[ "analysis_content"%string := a ]}) = inr p2 ->
  llm_reply w (length (llm_calls w) + 1) (model_name self)
    (ARCHITECT_SYSTEM_PROMPT prompts) p2 = inr b ->
  format (WRITER_USER_PROMPT_TEMPLATE prompts)
    (<[ "article_content"%string := article ]>
       (<[ "analysis_content"%string := a ]>
          {[ "blueprint_content"%string := b ]})) = inr p3 ->
  llm_reply w (length (llm_calls w) + 2) (model_name self)
    (WRITER_SYSTEM_PROMPT prompts) p3 = inr c ->
  exists w1,
    run_stages prompts self ap article op w =
      (Returned {| article_content := article;
                   analyst_user_prompt := p1; analysis := a;
                   architect_user_prompt := p2; blueprint := b;
                   writer_user_prompt := p3; rewritten_article := c |}, w1) /\
    same_store w w1 /\
    llm_calls w1 =
      llm_calls w ++ [analyst_call prompts self p1; architect_call prompts self p2;
                      writer_call prompts self p3] /\
    filesystem w1 =
      <[ op := ((EmptyString +:+ step1_section a) +:+ step2_section b) +:+ step3_section c ]>
        (filesystem w).
Proof.
  intros F1 L1 F2 L2 F3 L3.
  pose proof (run_stages_cases prompts self ap article op w) as H. cbn zeta in H.
  rewrite F1, L1, F2, L2, F3, L3 in H.
  destruct (run_stages prompts self ap article op w) as [r w1]. cbn in H.
  destruct H as (Hs & -> & Hc & Hf). exists w1. auto.
Qed.

(** The stage block returns only on the path where the three calls
    answered. *)
Lemma run_stages_returned prompts self ap article op w s w1 :
  run_stages prompts self ap article op w = (Returned s, w1) ->
  same_store w w1 /\
  article_content s = article /\
  format (ANALYST_USER_PROMPT_TEMPLATE prompts)
    {[ "article_content"%string := article ]} = inr (analyst_user_prompt s) /\
  llm_reply w (length (llm_calls w)) (model_name self)
    (ANALYST_SYSTEM_PROMPT prompts) (analyst_user_prompt s) = inr (analysis s) /\
  format (ARCHITECT_USER_PROMPT_TEMPLATE prompts)
    (<[ "article_content"%string := article ]>
       {[ "analysis_content"%string := analysis s ]}) = inr (architect_user_prompt s) /\
  llm_reply w (length (llm_calls w) + 1) (model_name self)
    (ARCHITECT_SYSTEM_PROMPT prompts) (architect_user_prompt s) = inr (blueprint s) /\
  format (WRITER_USER_PROMPT_TEMPLATE prompts)
    (<[ "article_content"%string := article ]>
       (<[ "analysis_content"%string := analysis s ]>
          {[ "blueprint_content"%string := blueprint s ]})) = inr (writer_user_prompt s) /\
  llm_reply w (length (llm_calls w) + 2) (model_name self)
    (WRITER_SYSTEM_PROMPT prompts) (writer_user_prompt s) = inr (rewritten_article s) /\
  llm_calls w1 =
    llm_calls w ++ [analyst_call prompts self (analyst_user_prompt s);
                    architect_call prompts self (architect_user_prompt s);
                    writer_call prompts self (writer_user_prompt s)] /\
  filesystem w1 =
    <[ op := ((EmptyString +:+ step1_section (analysis s)) +:+ step2_section (blueprint s))
             +:+ step3_section (rewritten_article s) ]> (filesystem w).
Proof.
  intros E.
  pose proof (run_stages_cases prompts self ap article op w) as H. cbn zeta in H.
  rewrite E in H. cbn [fst snd] in H. destruct H as [Hs H].
  destruct (format (ANALYST_USER_PROMPT_TEMPLATE prompts) _) as [e1|p1] eqn:F1;
    [destruct H as [H _]; discriminate|].
  destruct (llm_reply w _ _ _ p1) as [m1|a] eqn:L1; [destruct H as [H _]; discriminate|].
  destruct (format (ARCHITECT_USER_PROMPT_TEMPLATE prompts) _) as [e2|p2] eqn:F2;
    [destruct H as [H _]; discriminate|].
  destruct (llm_reply w _ _ _ p2) as [m2|b] eqn:L2; [destruct H as [H _]; discriminate|].
  destruct (format (WRITER_USER_PROMPT_TEMPLATE prompts) _) as [e3|p3] eqn:F3;
    [destruct H as [H _]; discriminate|].
  destruct (llm_reply w _ _ _ p3) as [m3|c] eqn:L3; [destruct H as [H _]; discriminate|].
  destruct H as (Hr & Hc & Hf). injection Hr as ->. cbn.
  split; [exact Hs|]. repeat split; assumption.
Qed.

(** C1. Whatever the article file holds, when each rendering and each
    call answers, [process] returns and the calls it has added to the
    record of the generation service are exactly three, in this order: the
    Analyst system prompt with the Analyst template rendered on the
    article text; the Architect system prompt with the Architect template
    rendered on the article text and the Analyst's answer; the Writer
    system prompt with the Writer template rendered on the article text,
    the Analyst's answer and the Architect's answer. *)
Theorem C1_three_stages_in_order prompts self article_path output_path w raw
    p1 a p2 b p3 c :
  filesystem w !! article_path = Some raw ->
  format (ANALYST_USER_PROMPT_TEMPLATE prompts)
    {[ "article_content"%string := universal_newlines raw ]} = inr p1 ->
  llm_reply w (length (llm_calls w)) (model_name self)
    (ANALYST_SYSTEM_PROMPT prompts) p1 = inr a ->
  format (ARCHITECT_USER_PROMPT_TEMPLATE prompts)
    (<[ "article_content"%string := universal_newlines raw ]>
       {[ "analysis_content"%string := a ]}) = inr p2 ->
  llm_reply w (length (llm_calls w) + 1) (model_name self)
    (ARCHITECT_SYSTEM_PROMPT prompts) p2 = inr b ->
  format (WRITER_USER_PROMPT_TEMPLATE prompts)
    (<[ "article_content"%string := universal_newlines raw ]>
       (<[ "analysis_content"%string := a ]>
          {[ "blueprint_content"%string := b ]})) = inr p3 ->
  llm_reply w (length (llm_calls w) + 2) (model_name self)
    (WRITER_SYSTEM_PROMPT prompts) p3 = inr c ->
  (process prompts self article_path output_path w).1 = Returned tt /\
  llm_calls (process prompts self article_path output_path w).2 =
    llm_calls w ++
      [ (model_name self, ANALYST_SYSTEM_PROMPT prompts, p1);
        (model_name self, ARCHITECT_SYSTEM_PROMPT prompts, p2);
        (model_name self, WRITER_SYSTEM_PROMPT prompts, p3) ].
Proof.
  intros Hfile F1 L1 F2 L2 F3 L3.
  rewrite (process_with_input _ _ _ _ _ _ Hfile).
  destruct (run_stages_success prompts self article_path _ output_path w
              _ _ _ _ _ _ F1 L1 F2 L2 F3 L3) as (w1 & Hrun & _ & Hcalls & _).
  unfold bind. rewrite Hrun.
  destruct (record_run_returns prompts
              {| article_content := universal_newlines raw;
                 analyst_user_prompt := p1; analysis := a;
                 architect_user_prompt := p2; blueprint := b;
                 writer_user_prompt := p3; rewritten_article := c |} w1)
    as (Hr & _ & Hc & _).
  split; [exact Hr|]. rewrite Hc, Hcalls. reflexivity.
Qed.

Lemma process_log_layout a b c :
  ((EmptyString +:+ step1_section a) +:+ step2_section b) +:+ step3_section c =
  "# 步骤 1: 诊断报告 (Analyst)" +:+ nl +:+ nl +:+ a +:+ nl +:+ nl +:+ "---" +:+ nl +:+ nl +:+
  "# 步骤 2: 重构蓝图 (Architect)" +:+ nl +:+ nl +:+ b +:+ nl +:+ nl +:+ "---" +:+ nl +:+ nl +:+
  "# 步骤 3: 最终文章 (Article)" +:+ nl +:+ nl +:+ c +:+ nl +:+ nl.
Proof.
  unfold step1_section, step2_section, step3_section.
  change (EmptyString +:+ ?x) with x.
  rewrite !string_app_assoc. reflexivity.
Qed.

Lemma lookup_recorded_call {A} (l calls : list A) i x :
  (length l <= i)%nat ->
  (l ++ calls) !! i = Some x ->
  exists j, i = (length l + j)%nat /\ calls !! j = Some x.
Proof.
  intros Hle H. exists (i - length l)%nat. split; [lia|].
  rewrite lookup_app_r in H by exact Hle. exact H.
Qed.

Lemma no_recorded_call {A} (l : list A) i x :
  (length l <= i)%nat -> l !! i = Some x -> False.
Proof.
  intros Hle H. apply lookup_lt_Some in H. lia.
Qed.

Lemma process_generation_failure prompts self ap op w i model system user msg :
  (length (llm_calls w) <= i)%nat ->
  llm_calls (process prompts self ap op w).2 !! i = Some (model, system, user) ->
  llm_reply w i model system user = inl msg ->
  (process prompts self ap op w).1 = Raised (SystemExit 1) /\
  filesystem (process prompts self ap op w).2 = filesystem w /\
  length (llm_calls (process prompts self ap op w).2) = S i /\
  same_store w (process prompts self ap op w).2.
Proof.
  intros Hle Hcall Hreply.
  destruct (filesystem w !! ap) as [raw|] eqn:Hfile.
  2:{ rewrite (process_missing_input _ _ _ _ _ Hfile) in Hcall. cbn in Hcall.
      destruct (no_recorded_call _ _ _ Hle Hcall). }
  rewrite (process_with_input _ _ _ _ _ _ Hfile) in *.
  pose proof (run_stages_cases prompts self ap (universal_newlines raw) op w) as H.
  cbn zeta in H. unfold bind in *.
  destruct (run_stages prompts self ap (universal_newlines raw) op w) as [r w1].
  cbn [fst snd] in H. destruct H as [Hs H].
  assert (Hrec : forall s, llm_calls (record_run prompts s w1).2 = llm_calls w1).
  { intros s. apply (record_run_returns prompts s w1). }
  unfold analyst_call, architect_call, writer_call in H.
  destruct (format (ANALYST_USER_PROMPT_TEMPLATE prompts) _) as [e1|p1].
  { destruct H as (-> & Hc & Hf). cbn in Hcall. rewrite Hc in Hcall.
    destruct (no_recorded_call _ _ _ Hle Hcall). }
  destruct (llm_reply w _ _ _ p1) as [m1|a] eqn:L1.
  { destruct H as (-> & Hc & Hf). cbn in *. rewrite Hc in Hcall |- *.
    destruct (lookup_recorded_call _ _ _ _ Hle Hcall) as (j & -> & Hj).
    destruct j as [|j]; [|discriminate Hj].
    rewrite length_app. cbn. split; [reflexivity|]. split; [exact Hf|]. split; [lia|]. exact Hs. }
  destruct (format (ARCHITECT_USER_PROMPT_TEMPLATE prompts) _) as [e2|p2].
  { destruct H as (-> & Hc & Hf). cbn in *. rewrite Hc in Hcall.
    destruct (lookup_recorded_call _ _ _ _ Hle Hcall) as (j & -> & Hj).
    destruct j as [|j]; [|discriminate Hj]. injection Hj as <- <- <-.
    rewrite Nat.add_0_r in Hreply. congruence. }
  destruct (llm_reply w _ _ _ p2) as [m2|b] eqn:L2.
  { destruct H as (-> & Hc & Hf). cbn in *. rewrite Hc in Hcall |- *.
    destruct (lookup_recorded_call _ _ _ _ Hle Hcall) as (j & -> & Hj).
    destruct j as [|[|j]]; [| |discriminate Hj].
    - injection Hj as <- <- <-. rewrite Nat.add_0_r in Hreply. congruence.
    - rewrite length_app. cbn. split; [reflexivity|]. split; [exact Hf|]. split; [lia|]. exact Hs. }
  destruct (format (WRITER_USER_PROMPT_TEMPLATE prompts) _) as [e3|p3].
  { destruct H as (-> & Hc & Hf). cbn in *. rewrite Hc in Hcall.
    destruct (lookup_recorded_call _ _ _ _ Hle Hcall) as (j & -> & Hj).
    destruct j as [|[|j]]; [| |discriminate Hj]; injection Hj as <- <- <-.
    - rewrite Nat.add_0_r in Hreply. congruence.
    - congruence. }
  destruct (llm_reply w _ _ _ p3) as [m3|c] eqn:L3.
  { destruct H as (-> & Hc & Hf). cbn in *. rewrite Hc in Hcall |- *.
    destruct (lookup_recorded_call _ _ _ _ Hle Hcall) as (j & -> & Hj).
    destruct j as [|[|[|j]]]; [| | |discriminate Hj].
    - injection Hj as <- <- <-. rewrite Nat.add_0_r in Hreply. congruence.
    - injection Hj as <- <- <-. congruence.
    - rewrite length_app. cbn. split; [reflexivity|]. split; [exact Hf|]. split; [lia|]. exact Hs. }
  destruct H as (-> & Hc & Hf). cbn [fst snd] in Hcall.
  rewrite Hrec, Hc in Hcall.
  destruct (lookup_recorded_call _ _ _ _ Hle Hcall) as (j & -> & Hj).
  destruct j as [|[|[|j]]]; [| | |discriminate Hj]; injection Hj as <- <- <-.
  - rewrite Nat.add_0_r in Hreply. congruence.
  - congruence.
  - congruence.
Qed.

Lemma run_script_process prompts script ap op w self :
  __init__ None None (import_db w).2 = (Returned self, (import_db w).2) ->
  run_script prompts [script; ap; op] w =
    (exit_status (process prompts self ap op (import_db w).2).1,
     (process prompts self ap op (import_db w).2).2).
Proof.
  intros Hinit. unfold run_script, bind.
  destruct (import_db_returns w) as [Hr _].
  destruct (import_db w) as [r0 w0]. cbn [fst snd] in Hr, Hinit |- *. subst r0.
  unfold main. cbn [length Nat.ltb Nat.leb]. unfold bind. rewrite Hinit. cbn [nth].
  destruct (process prompts self ap op w0) as [[[]|e] w']; [reflexivity|].
  destruct e; reflexivity.
Qed.

(** C3. If a call to the generation service made during the run of the
    script answers with an exception, the exit status is 1, that call is
    the last one made (no retry, no later stage), the file system is what
    it was before the run (nothing is written to the output path), and
    the record store is not called after the import of [db]. *)
Theorem C3_generation_failure_aborts prompts argv w i model system user msg :
  (length (llm_calls w) <= i)%nat ->
  llm_calls (run_script prompts argv w).2 !! i = Some (model, system, user) ->
  llm_reply w i model system user = inl msg ->
  (run_script prompts argv w).1 = 1 /\
  filesystem (run_script prompts argv w).2 = filesystem w /\
  length (llm_calls (run_script prompts argv w).2) = S i /\
  driver_log (run_script prompts argv w).2 = driver_log (import_db w).2 /\
  db (run_script prompts argv w).2 = db (import_db w).2.
Proof.
  intros Hle Hcall Hreply.
  destruct (import_db_returns w) as [Hr (Hfs & Hcalls & Hrep & _)].
  unfold run_script, bind in *.
  destruct (import_db w) as [r0 w0]. cbn in Hr, Hfs, Hcalls, Hrep. subst r0.
  cbn [snd]. rewrite <- Hcalls in Hle. rewrite <- Hrep in Hreply.
  unfold main in *.
  destruct (length argv <? 3)%nat.
  { cbn in Hcall. destruct (no_recorded_call _ _ _ Hle Hcall). }
  unfold bind in *.
  destruct (init_cases w0) as [[self Hi]|(w' & Hi & _ & Hc)]; rewrite Hi in *.
  2:{ cbn in Hcall. rewrite Hc in Hcall. destruct (no_recorded_call _ _ _ Hle Hcall). }
  pose proof (process_generation_failure prompts self (nth 1 argv EmptyString)
                (nth 2 argv EmptyString) w0 i model system user msg Hle) as H.
  destruct (process prompts self (nth 1 argv EmptyString) (nth 2 argv EmptyString) w0)
    as [r w'] eqn:Ep.
  cbn [fst snd] in H.
  assert (Hcall' : llm_calls w' !! i = Some (model, system, user)).
  { destruct r as [[]|[]]; exact Hcall. }
  destruct (H Hcall' Hreply) as (-> & Hf & Hlen & Hs). cbn.
  split; [reflexivity|]. split; [congruence|]. split; [exact Hlen|].
  destruct Hs as (Hdb & _ & _ & Hlog & _). split; assumption.
Qed.



(** C5, as amended. On a run where the three stages answer, the output
    path holds: the heading line of step 1 (the diagnostic report), a
    blank line, the Analyst's answer, the separator (blank line, three
    dashes, blank line), the heading line of step 2 (the refactor
    blueprint), a blank line, the Architect's answer, the separator, the
    heading line of step 3 (the final article), a blank line, the Writer's
    answer and two line feeds.  No other file changes. *)
Theorem C5_output_layout prompts self article_path output_path w raw p1 a p2 b p3 c :
  filesystem w !! article_path = Some raw ->
  format (ANALYST_USER_PROMPT_TEMPLATE prompts)
    {[ "article_content"%string := universal_newlines raw ]} = inr p1 ->
  llm_reply w (length (llm_calls w)) (model_name self)
    (ANALYST_SYSTEM_PROMPT prompts) p1 = inr a ->
  format (ARCHITECT_USER_PROMPT_TEMPLATE prompts)
    (<[ "article_content"%string := universal_newlines raw ]>
       {[ "analysis_content"%string := a ]}) = inr p2 ->
  llm_reply w (length (llm_calls w) + 1) (model_name self)
    (ARCHITECT_SYSTEM_PROMPT prompts) p2 = inr b ->
  format (WRITER_USER_PROMPT_TEMPLATE prompts)
    (<[ "article_content"%string := universal_newlines raw ]>
       (<[ "analysis_content"%string := a ]>
          {[ "blueprint_content"%string := b ]})) = inr p3 ->
  llm_reply w (length (llm_calls w) + 2) (model_name self)
    (WRITER_SYSTEM_PROMPT prompts) p3 = inr c ->
  filesystem (process prompts self article_path output_path w).2 =
    <[ output_path :=
         "# 步骤 1: 诊断报告 (Analyst)" +:+ nl +:+ nl +:+ a +:+ nl +:+ nl +:+
         "---" +:+ nl +:+ nl +:+
         "# 步骤 2: 重构蓝图 (Architect)" +:+ nl +:+ nl +:+ b +:+ nl +:+ nl +:+
         "---" +:+ nl +:+ nl +:+
         "# 步骤 3: 最终文章 (Article)" +:+ nl +:+ nl +:+ c +:+ nl +:+ nl ]>
      (filesystem w).
Proof.
  intros Hfile F1 L1 F2 L2 F3 L3.
  rewrite (process_with_input _ _ _ _ _ _ Hfile).
  destruct (run_stages_success prompts self article_path _ output_path w
              _ _ _ _ _ _ F1 L1 F2 L2 F3 L3) as (w1 & Hrun & _ & _ & Hout).
  unfold bind. rewrite Hrun.
  destruct (record_run_returns prompts
              {| article_content := universal_newlines raw;
                 analyst_user_prompt := p1; analysis := a;
                 architect_user_prompt := p2; blueprint := b;
                 writer_user_prompt := p3; rewritten_article := c |} w1)
    as (_ & Hfs & _).
  rewrite Hfs, Hout, process_log_layout. reflexivity.
Qed.

(** ** The claims on sample worlds *)

Lemma C1_witness :
  llm_calls (process sample_prompts sample_agent "in.md" "out.md" sample_world).2 =
    [ ("gemini-3-flash-preview", "You diagnose articles.", "Article: # Intro");
      ("gemini-3-flash-preview", "You design blueprints.",
       "Article: # Intro Report: diagnosis");
      ("gemini-3-flash-preview", "You rewrite articles.",
       "Article: # Intro Report: diagnosis Blueprint: plan") ]%string.
Proof.
  apply (C1_three_stages_in_order sample_prompts sample_agent "in.md" "out.md" sample_world
           "# Intro" "Article: # Intro" "diagnosis"
           "Article: # Intro Report: diagnosis" "plan"
           "Article: # Intro Report: diagnosis Blueprint: plan" "final");
    vm_compute; reflexivity.
Defined.

Lemma C5_witness :
  filesystem (process sample_prompts sample_agent "in.md" "out.md" sample_world).2
    !! "out.md"%string =
  Some ("# 步骤 1: 诊断报告 (Analyst)" +:+ nl +:+ nl +:+ "diagnosis" +:+ nl +:+ nl +:+
        "---" +:+ nl +:+ nl +:+
        "# 步骤 2: 重构蓝图 (Architect)" +:+ nl +:+ nl +:+ "plan" +:+ nl +:+ nl +:+
        "---" +:+ nl +:+ nl +:+
        "# 步骤 3: 最终文章 (Article)" +:+ nl +:+ nl +:+ "final" +:+ nl +:+ nl).
Proof.
  rewrite (C5_output_layout sample_prompts sample_agent "in.md" "out.md" sample_world
             "# Intro" "Article: # Intro" "diagnosis"
             "Article: # Intro Report: diagnosis" "plan"
             "Article: # Intro Report: diagnosis Blueprint: plan" "final");
    vm_compute; reflexivity.
Defined.

(** C5 as stated fails on a successful run: with the answers "diagnosis",
    "plan" and "final" the output file has not the layout of the claim,
    with the headings as the specification words them and with what
    surrounds them left open, because two line feeds follow the final
    article. *)
Lemma C5_counterexample :
  (run_script sample_prompts sample_argv sample_world).1 = 0 /\
  ~ exists out,
      filesystem (run_script sample_prompts sample_argv sample_world).2 !! "out.md"%string
        = Some out /\
      claimed_output_layout claimed_heading1 claimed_heading2 claimed_heading3
        out "diagnosis" "plan" "final".
Proof.
  split; [vm_compute; reflexivity|].
  intros (out & Hout & gap1 & sep1 & gap2 & sep2 & gap3 & H).
  assert (E : ends_with out "final" = true).
  { rewrite H, <- !string_app_assoc. apply ends_with_app. }
  vm_compute in Hout. injection Hout as <-.
  vm_compute in E. discriminate E.
Qed.

(** The same with any heading texts, those of the source included: the
    file does not end with the final article. *)
Lemma output_does_not_end_with_the_article heading1 heading2 heading3 out :
  filesystem (run_script sample_prompts sample_argv sample_world).2 !! "out.md"%string
    = Some out ->
  ~ claimed_output_layout heading1 heading2 heading3 out "diagnosis" "plan" "final".
Proof.
  intros Hout (gap1 & sep1 & gap2 & sep2 & gap3 & H).
  assert (E : ends_with out "final" = true).
  { rewrite H, <- !string_app_assoc. apply ends_with_app. }
  vm_compute in Hout. injection Hout as <-.
  vm_compute in E. discriminate E.
Qed.

(** C4. The script run on an input path that does not exist: the output
    file is not created, no row is stored and the generation service is
    not called, as the claim says; but the exit status is 0, where the
    claim says 1. *)
Theorem C4_missing_input_exit_status :
  filesystem sample_world !! "missing.md"%string = None /\
  (run_script sample_prompts missing_input_argv sample_world).1 = 0 /\
  filesystem (run_script sample_prompts missing_input_argv sample_world).2
    !! "out.md"%string = None /\
  stored_rows (run_script sample_prompts missing_input_argv sample_world).2 = [] /\
  llm_calls (run_script sample_prompts missing_input_argv sample_world).2 = [].
Proof. vm_compute. repeat split. Qed.

(** In every world: with the agent constructed and no file at the input
    path, the script ends with exit status 0, the file system is untouched
    and the driver is not called after the import of [db]. *)
Lemma missing_input_exit_status prompts script article_path output_path w self :
  __init__ None None (import_db w).2 = (Returned self, (import_db w).2) ->
  filesystem w !! article_path = None ->
  (run_script prompts [script; article_path; output_path] w).1 = 0 /\
  filesystem (run_script prompts [script; article_path; output_path] w).2 = filesystem w /\
  driver_log (run_script prompts [script; article_path; output_path] w).2
    = driver_log (import_db w).2.
Proof.
  intros Hinit Hfile.
  rewrite (run_script_process _ _ _ _ _ _ Hinit).
  destruct (import_db_returns w) as [_ (Hfs & _)].
  rewrite <- Hfs in Hfile.
  rewrite (process_missing_input _ _ _ _ _ Hfile). cbn. auto.
Qed.


Lemma C3_witness :
  (run_script sample_prompts sample_argv architect_fails_world).1 = 1 /\
  filesystem (run_script sample_prompts sample_argv architect_fails_world).2 !! "out.md"%string
    = None /\
  length (llm_calls (run_script sample_prompts sample_argv architect_fails_world).2) = 2%nat.
Proof.
  destruct (C3_generation_failure_aborts sample_prompts sample_argv architect_fails_world
              1%nat "gemini-3-flash-preview" "You design blueprints."
              "Article: # Intro Report: diagnosis" "quota exceeded")
    as (Hstatus & Hfs & Hlen & _).
  - vm_compute. lia.
  - vm_compute. reflexivity.
  - vm_compute. reflexivity.
  - split; [exact Hstatus|]. split; [rewrite Hfs; vm_compute; reflexivity | exact Hlen].
Defined.

Lemma C6_witness :
  exists r w2,
    OptimizationLogRepository.find_by_id 1 inserted_world = (Returned (Some (LogRow r)), w2) /\
    col_original_content r = "text"%string /\
    col_evaluation r = Some "fine"%string /\
    is_Some (col_created_at r).
Proof.
  destruct (C6_insert_then_find_by_id "text" "p1" "r1" "p2" "r2" "p3" "r3"
              (Some "fine"%string) initialised_world inserted_world 1)
    as (r & w2 & Hfind & _ & Hoc & _ & _ & _ & _ & _ & _ & Hev & Hcr).
  - vm_compute. reflexivity.
  - intros n c _. vm_compute. reflexivity.
  - exists r, w2. auto.
Defined.

Lemma C9_witness :
  exists rows r,
    log_table (committed (db inserted_world)) = Some (rows ++ [r]) /\
    col_created_at r = Some (utcnow initialised_world - 0).
Proof.
  destruct (C9_created_at_is_the_client_clock "text" "p1" "r1" "p2" "r2" "p3" "r3"
              (Some "fine"%string) initialised_world) as [_ H].
  destruct (H 1) as (rows & r & Hrows & _ & Hcr & _).
  - vm_compute. reflexivity.
  - exists rows, r. split; [exact Hrows | exact Hcr].
Defined.

Lemma C7_witness :
  exists rows,
    [LogRow (sample_row 2 (Some 30)); LogRow (sample_row 3 (Some 20))] = map LogRow rows /\
    Z.of_nat 2 <= 2 /\
    StronglySorted newest_first rows.
Proof.
  apply (C7_find_all_limit_and_order 2 0 filled_world
           (OptimizationLogRepository.find_all 2 0 filled_world).2).
  vm_compute. reflexivity.
Defined.

Lemma C8_witness :
  List.filter is_getconn
    (driver_log (run_operation Count filled_world).2) = [Done (Getconn 0)] /\
  last (driver_log (run_operation Count filled_world).2) = Some (Done (Putconn 0 1)).
Proof.
  destruct (C8_connection_discipline Count filled_world
              (ConnectionPool.get_pool filled_world).2 default_pool)
    as (closing & _ & Hone & _).
  - vm_compute. reflexivity.
  - vm_compute. reflexivity.
  - split; [exact Hone | vm_compute; reflexivity].
Defined.

Lemma C10_witness :
  exists p w2 q w3,
    ConnectionPool_instance (ConnectionPool.initialize (Some sample_config) sample_world).2
      = Some p /\
    pool_config p = sample_config /\
    ConnectionPool.close_all (ConnectionPool.initialize (Some sample_config) sample_world).2
      = (Returned tt, w2) /\
    ConnectionPool_instance w2 = None /\
    ConnectionPool.get_pool w2 = (Returned (Some q), w3) /\
    pool_config q = pool_config default_pool /\
    pool_id q <> pool_id p.
Proof.
  destruct (C10_pool_singleton sample_world
              (ConnectionPool.initialize (Some sample_config) sample_world).2 sample_config)
    as (_ & _ & p & Hi & Hc & _ & _ & _ & _ & Hclose).
  - vm_compute. reflexivity.
  - vm_compute. reflexivity.
  - destruct Hclose as (w2 & Hcl & Hnone & _ & _ & Hget).
    + vm_compute. reflexivity.
    + destruct (Hget (pool_config default_pool)) as (q & w3 & Hg & _ & Hq & Hne & _).
      * vm_compute. reflexivity.
      * vm_compute. reflexivity.
      * exists p, w2, q, w3. auto 10.
Defined.

(** * Further properties *)

(** ** The configuration read from the environment *)

(** X1. [get_config] leaves the world as it is.  When the three integer
    settings can be read it returns the seven settings, each one taken
    from its variable when the variable is set (an empty text counts as
    set) and from its default otherwise; when one of [DB_PORT],
    [DB_POOL_MIN], [DB_POOL_MAX] is set to a text that [int] rejects, it
    raises [ValueError]. *)
Theorem X1_get_config_defaults_and_errors (w : World) :
  (DatabaseConfig.get_config w).2 = w /\
  match env_int w "DB_PORT" 5432, env_int w "DB_POOL_MIN" 1, env_int w "DB_POOL_MAX" 10 with
  | Some p, Some lo, Some hi =>
      (DatabaseConfig.get_config w).1 =
        Returned {| host := default "localhost"%string (environ w !! "DB_HOST"%string);
                    port := p;
                    database := default "postgres"%string (environ w !! "DB_NAME"%string);
                    user := default "kkbabe"%string (environ w !! "DB_USER"%string);
                    password := default EmptyString (environ w !! "DB_PASSWORD"%string);
                    minconn := lo;
                    maxconn := hi |}
  | _, _, _ =>
      (DatabaseConfig.get_config w).1 =
        Raised (ValueError "invalid literal for int() with base 10")
  end.
Proof.
  unfold DatabaseConfig.get_config, bind, getenv, get, ret.
  rewrite getenv_int_run.
  destruct (env_int w "DB_PORT" 5432); [|split; reflexivity].
  rewrite getenv_int_run.
  destruct (env_int w "DB_POOL_MIN" 1); [|split; reflexivity].
  rewrite getenv_int_run.
  destruct (env_int w "DB_POOL_MAX" 10); split; reflexivity.
Qed.

(** ** More on the pool *)

(** X2. When [initialize] with a configuration raises, no pool has been
    stored, the configuration has been stored, and the error has been
    printed; a later [initialize] whose construction goes through stores
    a pool built from the configuration of that later call. *)
Theorem X2_failed_initialize_can_be_retried (w w1 : World) (cfg : Config) (e : exn) :
  ConnectionPool_instance w = None ->
  ConnectionPool.initialize (Some cfg) w = (Raised e, w1) ->
  ConnectionPool_instance w1 = None /\
  ConnectionPool_config w1 = Some cfg /\
  console w1 = console w ++ [Plain ("Error initializing connection pool: " +:+ exn_str e)] /\
  forall cfg',
    driver_fault w1 (length (driver_log w1)) (PoolCreate cfg') = None ->
    exists p w2,
      ConnectionPool.initialize (Some cfg') w1 = (Returned tt, w2) /\
      ConnectionPool_instance w2 = Some p /\
      pool_config p = cfg' /\
      ConnectionPool_config w2 = Some cfg'.
Proof.
  intros Hnone Hinit.
  assert (Hw1 : exists msg, e = DatabaseError msg /\
            w1 = set_console
                   (console w ++ [Plain ("Error initializing connection pool: " +:+ msg)])
                   (logged (Failed (PoolCreate cfg)) (set_config (Some cfg) w))).
  { revert Hinit. unfold ConnectionPool.initialize, bind, get. rewrite Hnone.
    unfold try_except, ThreadedConnectionPool, bind, get, ret, modify, driver,
      py_print, emit_console, modify, raise. cbn.
    destruct (driver_fault _ _ _) as [msg|]; cbn; intros H; [|discriminate H].
    injection H as <- <-. eauto. }
  destruct Hw1 as (msg & -> & ->).
  split; [exact Hnone|]. split; [reflexivity|]. split; [reflexivity|].
  intros cfg' Hf.
  destruct (ConnectionPool.initialize (Some cfg') _) as [r w2] eqn:E.
  destruct (initialize_construct _ _ _ _
              (Hnone : ConnectionPool_instance
                         (set_console _ (logged _ (set_config _ w))) = None) E)
    as [(-> & _ & ->)|(m & _ & Hf' & _)].
  - eexists _, _. repeat split.
  - cbn in Hf, Hf'. congruence.
Qed.

(** X3. When [close_all] raises, a pool was stored and [closeall] on it
    has failed; that pool is still stored, and [get_pool] goes on
    returning it without constructing another one. *)
Theorem X3_failed_close_all_keeps_the_instance (w w1 : World) (e : exn) :
  ConnectionPool.close_all w = (Raised e, w1) ->
  exists p,
    ConnectionPool_instance w = Some p /\
    ConnectionPool_instance w1 = Some p /\
    last (driver_log w1) = Some (Failed (Closeall (pool_id p))) /\
    ConnectionPool.get_pool w1 = (Returned (Some p), w1).
Proof.
  intros H. destruct (ConnectionPool_instance w) as [p|] eqn:Hi.
  - rewrite (close_all_run _ _ Hi) in H.
    destruct (driver_fault _ _ _); [|discriminate H]. injection H as <- <-.
    exists p. split; [reflexivity|]. split; [exact Hi|]. split; [apply last_snoc|].
    apply get_pool_existing. exact Hi.
  - unfold ConnectionPool.close_all, bind, get in H. rewrite Hi in H. discriminate H.
Qed.

(** X4. After [initialize] with an explicit configuration and then
    [close_all], the pool that [get_pool] constructs is configured from
    the environment, not from the configuration given before; the stored
    configuration is replaced by that of the environment. *)
Theorem X4_pool_after_close_all_uses_the_environment
    (w w1 w2 w3 : World) (cfg : Config) (q : Pool) :
  ConnectionPool_instance w = None ->
  ConnectionPool.initialize (Some cfg) w = (Returned tt, w1) ->
  ConnectionPool.close_all w1 = (Returned tt, w2) ->
  ConnectionPool.get_pool w2 = (Returned (Some q), w3) ->
  (DatabaseConfig.get_config w).1 = Returned (pool_config q) /\
  ConnectionPool_config w2 = Some cfg /\
  ConnectionPool_config w3 = Some (pool_config q).
Proof.
  intros Hnone Hinit Hclose Hget.
  destruct (initialize_construct _ _ _ _ Hnone Hinit) as [(_ & _ & ->)|(m & H & _)];
    [|discriminate H].
  erewrite close_all_run in Hclose by reflexivity.
  destruct (driver_fault _ _ (Closeall _)); [discriminate Hclose|].
  injection Hclose as <-.
  apply get_pool_construct in Hget; [|reflexivity].
  destruct Hget as (c & Hc & _ & Hq & ->). injection Hq as ->.
  split; [|split; reflexivity].
  match type of Hc with
  | DatabaseConfig.get_config ?w2 = _ =>
      rewrite <- (get_config_depends_on_environ w w2 eq_refl eq_refl), Hc
  end.
  reflexivity.
Qed.

(** ** What an operation leaves in the store *)

Lemma transaction_view_end_transaction w :
  committed (db (end_transaction w)) = transaction_view w.
Proof. unfold end_transaction, transaction_view. destruct (txn w); reflexivity. Qed.

(** The two ways a guarded block ends: committed, the catalog being the
    view of the transaction (and then the only exception possible is that
    of [putconn]); or raised, the server state being what the block left. *)
Lemma guarded_outcomes {A} (block : M A) p conn w1 :
  only_exceptions block ->
  let b := block w1 in
  let res :=
    try_finally
      (try_except (x <- block ;; commit conn >> ret x)
         (fun e => rollback conn >> raise e))
      (putconn (Some p) conn) w1 in
  (exists x,
     b.1 = Returned x /\
     committed (db res.2) = transaction_view b.2 /\
     In (Done (Commit conn)) (drop (length (driver_log b.2)) (driver_log res.2)) /\
     ((res.1 = Returned x /\ txn res.2 = None) \/
      (exists m, res.1 = Raised (DatabaseError m) /\
         last (driver_log res.2) = Some (Failed (Putconn (pool_id p) conn)))))
  \/ ((exists e, res.1 = Raised e) /\
      db res.2 = db b.2 /\
      exists ev, In ev (drop (length (driver_log b.2)) (driver_log res.2)) /\
                 attempted (Rollback conn) ev).
Proof.
  intros Hex b res. subst b res. rewrite guarded_run. specialize (Hex w1).
  destruct (block w1) as [[x|e] w2]; cbn [fst snd] in *.
  - destruct (driver_fault w2 _ (Commit conn)) as [m|].
    + right.
      destruct (roll_back_spec (A:=A) p conn (DatabaseError m) (logged (Failed (Commit conn)) w2))
        as (_ & _ & Hd & ev1 & ev2 & Hl & Ha1 & _ & He).
      split; [exact He|]. split; [exact Hd|].
      exists ev1. split; [|exact Ha1].
      rewrite Hl. cbn. rewrite <- app_assoc, drop_app_length. cbn. auto.
    + left. exists x. split; [reflexivity|].
      unfold release. rewrite driver_log_end_transaction. cbn [driver_log logged set_driver_log].
      destruct (driver_fault _ _ (Putconn _ _)) as [m|]; cbn [fst snd].
      * split; [cbn; rewrite <- (transaction_view_end_transaction w2);
                unfold end_transaction; cbn; destruct (txn w2); reflexivity|].
        split.
        { cbn. rewrite driver_log_end_transaction. cbn.
          rewrite <- app_assoc, drop_app_length. cbn. auto. }
        right. exists m. split; [reflexivity|]. cbn. apply last_snoc.
      * split; [cbn; rewrite <- (transaction_view_end_transaction w2);
                unfold end_transaction; cbn; destruct (txn w2); reflexivity|].
        split.
        { cbn. rewrite driver_log_end_transaction. cbn.
          rewrite <- app_assoc, drop_app_length. cbn. auto. }
        left. split; reflexivity.
  - right. rewrite (Hex e eq_refl).
    destruct (roll_back_spec (A:=A) p conn e w2)
      as (_ & _ & Hd & ev1 & ev2 & Hl & Ha1 & _ & He).
    split; [exact He|]. split; [exact Hd|].
    exists ev1. split; [|exact Ha1].
    rewrite Hl, drop_app_length. cbn. auto.
Qed.

Lemma initialize_server cfg w :
  ConnectionPool_instance w = None ->
  db (ConnectionPool.initialize (Some cfg) w).2 = db w /\
  txn (ConnectionPool.initialize (Some cfg) w).2 = txn w /\
  exists pre, driver_log (ConnectionPool.initialize (Some cfg) w).2 = driver_log w ++ pre.
Proof.
  intros Hi. unfold ConnectionPool.initialize, bind, get. rewrite Hi.
  unfold try_except, ThreadedConnectionPool, bind, get, ret, modify, driver,
    py_print, emit_console, modify, raise. cbn.
  destruct (driver_fault _ _ _); cbn; repeat split; eexists; reflexivity.
Qed.

Lemma get_pool_server w :
  db (ConnectionPool.get_pool w).2 = db w /\
  txn (ConnectionPool.get_pool w).2 = txn w /\
  exists pre, driver_log (ConnectionPool.get_pool w).2 = driver_log w ++ pre.
Proof.
  destruct (ConnectionPool_instance w) as [p|] eqn:Hi.
  - rewrite (get_pool_existing _ _ Hi). cbn. repeat split.
    exists []. symmetry. apply app_nil_r.
  - assert (Heq : ConnectionPool.get_pool w =
                  match ConnectionPool.initialize None w with
                  | (Returned _, w') => (Returned (ConnectionPool_instance w'), w')
                  | (Raised e, w') => (Raised e, w')
                  end).
    { unfold ConnectionPool.get_pool. unfold bind at 1 2, get at 1. rewrite Hi.
      destruct (ConnectionPool.initialize None w) as [[[]|e] w']; reflexivity. }
    rewrite Heq, (initialize_default_config _ Hi). clear Heq.
    destruct (DatabaseConfig.get_config w) as [[cfg|e] w0].
    + pose proof (initialize_server cfg w Hi) as H.
      destruct (ConnectionPool.initialize (Some cfg) w) as [[[]|e] w1]; cbn in *; exact H.
    + cbn. repeat split. exists []. symmetry. apply app_nil_r.
Qed.

(** An operation either never gets a connection, and then raises with the
    server state untouched, or runs its block guarded. *)
Lemma run_operation_cases o w :
  ((exists e, (run_operation o w).1 = Raised e) /\
   db (run_operation o w).2 = db w /\
   txn (run_operation o w).2 = txn w /\
   Forall (fun ev => forall conn, ~ attempted (Commit conn) ev)
     (drop (length (driver_log w)) (driver_log (run_operation o w).2)))
  \/
  (exists p w0,
     ConnectionPool.get_pool w = (Returned (Some p), w0) /\
     driver_fault w0 (length (driver_log w0)) (Getconn (pool_id p)) = None /\
     db w0 = db w /\ txn w0 = txn w /\
     exists pre, driver_log w0 = driver_log w ++ pre).
Proof.
  destruct (get_pool_server w) as (Hdb & Htx & pre & Hlog).
  destruct (ConnectionPool.get_pool w) as [[pool|e] w0] eqn:Hp; cbn [fst snd] in *.
  - destruct (get_pool_returned _ _ _ Hp) as (p & -> & _).
    destruct (driver_fault w0 (length (driver_log w0)) (Getconn (pool_id p))) as [msg|] eqn:F.
    + left. rewrite run_operation_eq, (get_db_cursor_not_acquired _ _ _ _ _ Hp F). cbn.
      split; [eauto|]. split; [exact Hdb|]. split; [exact Htx|].
      rewrite Hlog, <- app_assoc, drop_app_length.
      destruct (get_pool_returned _ _ _ Hp) as (_ & _ & _ & _ & _ & _ & pre' & Hlog' & Hpre).
      rewrite Hlog in Hlog'. apply app_inv_head in Hlog'. subst pre'.
      apply Forall_app. split.
      * eapply Forall_impl; [exact Hpre|]. intros ev [cfg ->] conn [H|H]; discriminate H.
      * constructor; [|constructor]. intros conn [H|H]; discriminate H.
    + right. exists p, w0. repeat split; try assumption. eauto.
  - left. rewrite run_operation_eq. unfold get_db_cursor, bind. rewrite Hp. cbn.
    split; [eauto|]. split; [exact Hdb|]. split; [exact Htx|].
    destruct (get_pool_failed _ _ _ Hp) as (_ & _ & _ & _ & Hev).
    eapply Forall_impl; [exact Hev|]. intros ev [cfg ->] conn [H|H]; discriminate H.
Qed.

Lemma In_drop_le {A} (x : A) (l : list A) (n m : nat) :
  (m <= n)%nat -> In x (drop n l) -> In x (drop m l).
Proof.
  intros Hle Hin. replace n with (m + (n - m))%nat in Hin by lia.
  rewrite <- drop_drop in Hin.
  rewrite <- (take_drop (n - m) (drop m l)). apply in_or_app. right. exact Hin.
Qed.

(** X5. When an operation of the repository raises, the committed
    catalog is what it was before the call, with one exception: the
    transaction was committed and handing the connection back to the pool
    failed afterwards. *)
Theorem X5_raising_operation_and_the_store (o : operation) (w w' : World) (e : exn) :
  run_operation o w = (Raised e, w') ->
  committed (db w') = committed (db w) \/
  exists p conn,
    In (Done (Commit conn)) (drop (length (driver_log w)) (driver_log w')) /\
    last (driver_log w') = Some (Failed (Putconn (pool_id p) conn)).
Proof.
  intros Hrun.
  destruct (run_operation_cases o w) as [(_ & Hdb & _)|(p & w0 & Hp & Hf & Hdb & _ & pre & Hlog)].
  { rewrite Hrun in Hdb. cbn in Hdb. left. rewrite Hdb. reflexivity. }
  rewrite run_operation_eq, (get_db_cursor_acquired _ _ _ _ Hp Hf) in Hrun.
  pose proof (guarded_outcomes
                (with_cursor (length (driver_log w0)) (operation_block o))
                p (length (driver_log w0)) (logged (Done (Getconn (pool_id p))) w0)
                (with_cursor_only_exceptions _ _ (operation_block_only_exceptions o _))) as H.
  cbn zeta in H. rewrite Hrun in H. cbn [fst snd] in H.
  pose proof (with_cursor_frames (operation_block o) (length (driver_log w0))
                (operation_block_frames o _)
                (logged (Done (Getconn (pool_id p))) w0)) as (_ & Hc & _ & evs & Hl & _).
  cbn in Hc, Hl.
  destruct H as [(x & _ & _ & Hin & [[H _]|(m & _ & Hlast)])|(_ & Hd & _)].
  - discriminate H.
  - right. exists p, (length (driver_log w0)). split; [|exact Hlast].
    eapply In_drop_le; [|exact Hin].
    rewrite Hl, Hlog, !length_app. lia.
  - left. rewrite Hd, Hc, Hdb. reflexivity.
Qed.

(** ** Queries *)

#[global] Instance same_view_preorder : PreOrder same_view.
Proof.
  split.
  - intros w. reflexivity.
  - intros w1 w2 w3 H1 H2. unfold same_view in *. congruence.
Qed.

Lemma frames_execute_query cur s : is_query s = true -> frames same_view (execute cur s).
Proof.
  intros Hq w. unfold execute, bind, driver.
  destruct (driver_fault _ _ _); [reflexivity|].
  change (transaction_view (logged (Done (Execute cur s)) w)) with (transaction_view w).
  change (db (logged (Done (Execute cur s)) w)) with (db w).
  destruct s; try discriminate Hq; cbn [run_statement];
    destruct (log_table (transaction_view w)); try reflexivity.
  destruct (limit <? 0); [reflexivity|]. destruct (offset <? 0); reflexivity.
Qed.

Lemma frames_fetchone_view : frames same_view fetchone.
Proof. intros w. unfold fetchone. destruct (result_set w) as [[|r rest]|]; reflexivity. Qed.

Lemma frames_fetchall_view : frames same_view fetchall.
Proof. intros w. unfold fetchall. destruct (result_set w) as [rs|]; reflexivity. Qed.

Lemma with_cursor_same_view {A} (body : nat -> M A) conn :
  frames same_view (body conn) -> frames same_view (with_cursor conn body).
Proof.
  intros Hb. unfold with_cursor.
  apply frames_bind; [apply _ | |].
  { intros w. unfold driver. destruct (driver_fault _ _ _); reflexivity. }
  intros _. apply frames_bind; [apply _ | apply frames_modify; reflexivity |].
  intros _. apply frames_try_finally; [apply _ | exact Hb | apply frames_modify; reflexivity].
Qed.

Lemma find_by_id_block_view i cur :
  frames same_view (OptimizationLogRepository.find_by_id_block i cur).
Proof.
  unfold OptimizationLogRepository.find_by_id_block.
  apply frames_bind; [apply _ | apply frames_execute_query; reflexivity |].
  intros _. apply frames_fetchone_view.
Qed.

Lemma find_all_block_view l k cur :
  frames same_view (OptimizationLogRepository.find_all_block l k cur).
Proof.
  unfold OptimizationLogRepository.find_all_block.
  apply frames_bind; [apply _ | apply frames_execute_query; reflexivity |].
  intros _. apply frames_fetchall_view.
Qed.

Lemma count_block_view cur : frames same_view (OptimizationLogRepository.count_block cur).
Proof.
  unfold OptimizationLogRepository.count_block.
  apply frames_bind; [apply _ | apply frames_execute_query; reflexivity |].
  intros _. apply frames_bind; [apply _ | apply frames_fetchone_view |].
  intros r. apply frames_getitem. apply _.
Qed.

(** An operation whose block keeps the view of the transaction keeps the
    committed catalog, whatever the driver does. *)
Lemma query_keeps_catalog o w :
  (forall cur, frames same_view (operation_block o cur)) ->
  txn w = None ->
  committed (db (run_operation o w).2) = committed (db w).
Proof.
  intros Hview Htx.
  destruct (run_operation_cases o w)
    as [(_ & Hdb & _)|(p & w0 & Hp & Hf & Hdb & Htx0 & pre & Hlog)].
  { rewrite Hdb. reflexivity. }
  rewrite run_operation_eq, (get_db_cursor_acquired _ _ _ _ Hp Hf).
  pose proof (guarded_outcomes
                (with_cursor (length (driver_log w0)) (operation_block o))
                p (length (driver_log w0)) (logged (Done (Getconn (pool_id p))) w0)
                (with_cursor_only_exceptions _ _ (operation_block_only_exceptions o _))) as H.
  cbn zeta in H.
  pose proof (with_cursor_frames (operation_block o) (length (driver_log w0))
                (operation_block_frames o _)
                (logged (Done (Getconn (pool_id p))) w0)) as (_ & Hc & _).
  pose proof (with_cursor_same_view (operation_block o) (length (driver_log w0))
                (Hview _) (logged (Done (Getconn (pool_id p))) w0)) as Hv.
  unfold same_view in Hv. cbn in Hc.
  destruct H as [(x & _ & Hcom & _)|(_ & Hd & _)].
  - rewrite Hcom, Hv. unfold transaction_view. cbn. rewrite Htx0, Htx, Hdb. reflexivity.
  - rewrite Hd, Hc, Hdb. reflexivity.
Qed.

(** X6. On a connection without open transaction, [find_by_id],
    [find_all] and [count] leave the committed catalog as it is, whatever
    their arguments, whether they return or raise, and whichever call
    into the driver fails. *)
Theorem X6_queries_never_change_the_store (w : World) :
  txn w = None ->
  (forall record_id,
     committed (db (OptimizationLogRepository.find_by_id record_id w).2) = committed (db w)) /\
  (forall limit offset,
     committed (db (OptimizationLogRepository.find_all limit offset w).2) = committed (db w)) /\
  committed (db (OptimizationLogRepository.count w).2) = committed (db w).
Proof.
  intros Htx. split; [|split].
  - intros i. apply (query_keeps_catalog (Find_by_id i) w); [|exact Htx].
    intros cur. apply find_by_id_block_view.
  - intros l k. apply (query_keeps_catalog (Find_all l k) w); [|exact Htx].
    intros cur. apply find_all_block_view.
  - apply (query_keeps_catalog Count w); [|exact Htx].
    intros cur. apply count_block_view.
Qed.

(** When an operation has returned, its block has returned on a
    connection without open transaction, and what the block left in the
    transaction is what is committed. *)
Lemma run_operation_returned o w x w' :
  txn w = None ->
  run_operation o w = (Returned x, w') ->
  exists cur ws wb,
    operation_block o cur ws = (Returned x, wb) /\
    txn ws = None /\ db ws = db w /\ utcnow ws = utcnow w /\
    committed (db w') = transaction_view wb /\
    id_seq (db w') = id_seq (db wb) /\
    txn w' = None.
Proof.
  intros Htx E. rewrite run_operation_eq in E.
  destruct (get_db_cursor_returned _ _ _ _ E) as (p & w0 & wb & Hp & Hb & ->).
  destruct (get_pool_returned _ _ _ Hp) as (p' & _ & _ & Hh0 & Hdb0 & Htx0 & _).
  destruct Hh0 as (_ & _ & _ & _ & Hu0 & _).
  eexists _, _, wb. split; [exact Hb|]. cbn.
  split; [congruence|]. split; [exact Hdb0|]. split; [exact Hu0|].
  destruct (committed_world p (length (driver_log w0)) wb) as (_ & Ht1 & _ & Hc1 & _).
  cbn zeta in Ht1, Hc1.
  split; [exact Hc1|]. split; [|reflexivity].
  unfold end_transaction. cbn. destruct (txn wb); reflexivity.
Qed.

Lemma init_table_block_returned cur w wb :
  OptimizationLogRepository.init_table_block cur w = (Returned tt, wb) ->
  transaction_view wb =
    {| log_table := Some (default [] (log_table (transaction_view w)));
       created_at_index := true |}.
Proof.
  unfold OptimizationLogRepository.init_table_block. unfold bind at 1.
  destruct (execute _ _ w) as [[[]|e] w1] eqn:Ex; [|discriminate].
  destruct (execute_returned _ _ _ _ Ex) as (view' & rs & seq & Hrun & ->).
  intros Ex2.
  destruct (execute_returned _ _ _ _ Ex2) as (view2 & rs2 & seq2 & Hrun2 & ->).
  unfold transaction_view at 1. cbn.
  unfold transaction_view at 1 in Hrun2. cbn in Hrun2.
  cbn [run_statement] in Hrun.
  destruct (log_table (transaction_view w)) as [rows|] eqn:Hrows.
  - injection Hrun as <- <- <-. rewrite Hrows in Hrun2.
    injection Hrun2 as <- <- <-. reflexivity.
  - injection Hrun as <- <- <-. cbn in Hrun2. injection Hrun2 as <- <- <-. reflexivity.
Qed.

Lemma insert_block_sequence oc ap ar rp rr wp wr ev cur w id wb :
  OptimizationLogRepository.insert_block oc ap ar rp rr wp wr ev cur w = (Returned id, wb) ->
  id_seq (db wb) = id.
Proof.
  unfold OptimizationLogRepository.insert_block. unfold bind at 1, get at 1. unfold bind at 1.
  destruct (execute _ _ w) as [[[]|e] w1] eqn:Ex; [|discriminate].
  destruct (execute_returned _ _ _ _ Ex) as (view' & rs & seq & Hrun & ->).
  cbn [run_statement] in Hrun.
  destruct (log_table (transaction_view w)) as [rows|]; [|discriminate Hrun].
  destruct (existsb _ rows) eqn:Hex; [discriminate Hrun|].
  injection Hrun as <- <- <-.
  unfold bind, fetchone, getitem. cbn.
  intros E. injection E as <- <-. reflexivity.
Qed.

Lemma count_block_returned cur w n wb :
  OptimizationLogRepository.count_block cur w = (Returned n, wb) ->
  exists rows,
    log_table (transaction_view w) = Some rows /\ n = Z.of_nat (length rows).
Proof.
  unfold OptimizationLogRepository.count_block. unfold bind at 1.
  destruct (execute _ _ w) as [[[]|e] w1] eqn:Ex; [|discriminate].
  destruct (execute_returned _ _ _ _ Ex) as (view' & rs & seq & Hrun & ->).
  cbn [run_statement] in Hrun.
  destruct (log_table (transaction_view w)) as [rows|]; [|discriminate Hrun].
  injection Hrun as <- <- <-.
  unfold bind, fetchone, getitem. cbn.
  intros E. injection E as <- <-. exists rows. split; reflexivity.
Qed.

Lemma find_by_id_block_returned i cur w r wb :
  OptimizationLogRepository.find_by_id_block i cur w = (Returned r, wb) ->
  exists rows,
    log_table (transaction_view w) = Some rows /\
    r = head (map LogRow (List.filter (fun row => col_id row =? i) rows)).
Proof.
  unfold OptimizationLogRepository.find_by_id_block. unfold bind at 1.
  destruct (execute _ _ w) as [[[]|e] w1] eqn:Ex; [|discriminate].
  destruct (execute_returned _ _ _ _ Ex) as (view' & rs & seq & Hrun & ->).
  cbn [run_statement] in Hrun.
  destruct (log_table (transaction_view w)) as [rows|]; [|discriminate Hrun].
  injection Hrun as <- <- <-.
  unfold fetchone. cbn.
  destruct (map LogRow _) as [|r0 rest] eqn:Hm; intros E; injection E as <- <-;
    exists rows; (split; [reflexivity|]); rewrite Hm; reflexivity.
Qed.

Lemma view_without_transaction w : txn w = None -> transaction_view w = committed (db w).
Proof. intros H. unfold transaction_view. rewrite H. reflexivity. Qed.

(** X7. When [init_table] returns, the table exists with the rows it had
    before (none when it did not exist) and the index on [created_at]
    exists; a second call that returns leaves that catalog as it is. *)
Theorem X7_init_table_keeps_the_rows (w w' : World) :
  txn w = None ->
  OptimizationLogRepository.init_table w = (Returned tt, w') ->
  committed (db w') =
    {| log_table := Some (stored_rows w); created_at_index := true |} /\
  forall w'', OptimizationLogRepository.init_table w' = (Returned tt, w'') ->
    committed (db w'') = committed (db w').
Proof.
  intros Htx E.
  assert (Hone : forall v v', txn v = None ->
            OptimizationLogRepository.init_table v = (Returned tt, v') ->
            txn v' = None /\
            committed (db v') =
              {| log_table := Some (stored_rows v); created_at_index := true |}).
  { intros v v' Hv Ev.
    destruct (run_operation_returned Init_table v tt v' Hv Ev)
      as (cur & ws & wb & Hb & Hts & Hdbs & _ & Hc & _ & Ht').
    split; [exact Ht'|].
    rewrite Hc, (init_table_block_returned _ _ _ Hb), (view_without_transaction _ Hts), Hdbs.
    reflexivity. }
  destruct (Hone w w' Htx E) as [Ht' Hc]. split; [exact Hc|].
  intros w'' E2. destruct (Hone w' w'' Ht' E2) as [_ Hc2].
  rewrite Hc2, Hc. unfold stored_rows. rewrite Hc. reflexivity.
Qed.

Lemma insert_stores oc ap ar rp rr wp wr ev w id w' :
  txn w = None ->
  OptimizationLogRepository.insert oc ap ar rp rr wp wr ev w = (Returned id, w') ->
  exists rows,
    log_table (committed (db w)) = Some rows /\
    id = id_seq (db w) + 1 /\
    id_seq (db w') = id /\
    existsb (fun r => col_id r =? id) rows = false /\
    txn w' = None /\
    committed (db w') =
      {| log_table :=
           Some (rows ++
                   [{| col_id := id;
                       col_original_content := oc;
                       col_analyst_prompt := Some ap;
                       col_analyst_result := Some ar;
                       col_architect_prompt := Some rp;
                       col_architect_result := Some rr;
                       col_writer_prompt := Some wp;
                       col_writer_result := Some wr;
                       col_evaluation := ev;
                       col_created_at := Some (utcnow w - session_utc_offset (db w)) |}]);
         created_at_index := created_at_index (committed (db w)) |}.
Proof.
  intros Htx E.
  destruct (run_operation_returned (Insert oc ap ar rp rr wp wr ev) w id w' Htx E)
    as (cur & ws & wb & Hb & Hts & Hdbs & Hus & Hc & Hseq & Ht').
  cbn [operation_block] in Hb.
  pose proof (insert_block_sequence _ _ _ _ _ _ _ _ _ _ _ _ Hb) as Hs.
  destruct (insert_block_returned _ _ _ _ _ _ _ _ _ _ _ _ Hb)
    as (rows & Hrows & Hid & Hex & Htxn & _).
  rewrite (view_without_transaction _ Hts), Hdbs in Hrows, Htxn.
  rewrite Hdbs in Hid. rewrite Hus in Htxn.
  exists rows. split; [exact Hrows|]. split; [exact Hid|]. split; [congruence|].
  split; [exact Hex|]. split; [exact Ht'|].
  rewrite Hc. unfold transaction_view. rewrite Htxn. reflexivity.
Qed.

(** X8. When [insert] returns, the table existed, the identifier is the
    next value of the sequence and the sequence now stands at it, no row
    had that identifier, and the table holds the rows it had followed by
    one new row with that identifier and the given content and
    evaluation; the index is as before. *)
Theorem X8_insert_appends_one_row
    (oc ap ar rp rr wp wr : string) (ev : option string) (w w' : World) (id : Z) :
  txn w = None ->
  OptimizationLogRepository.insert oc ap ar rp rr wp wr ev w = (Returned id, w') ->
  log_table (committed (db w)) = Some (stored_rows w) /\
  id = id_seq (db w) + 1 /\
  id_seq (db w') = id /\
  Forall (fun r => col_id r <> id) (stored_rows w) /\
  created_at_index (committed (db w')) = created_at_index (committed (db w)) /\
  exists row,
    stored_rows w' = stored_rows w ++ [row] /\
    col_id row = id /\
    col_original_content row = oc /\
    col_evaluation row = ev.
Proof.
  intros Htx E.
  destruct (insert_stores _ _ _ _ _ _ _ _ _ _ _ Htx E)
    as (rows & Hrows & Hid & Hseq & Hex & _ & Hc).
  assert (Hst : stored_rows w = rows) by (unfold stored_rows; rewrite Hrows; reflexivity).
  rewrite Hst.
  split; [exact Hrows|]. split; [exact Hid|]. split; [exact Hseq|].
  split.
  { apply List.Forall_forall. intros r Hin Heq.
    assert (existsb (fun r => col_id r =? id) rows = true) as Hex'.
    { apply existsb_exists. exists r. split; [exact Hin|]. apply Z.eqb_eq. exact Heq. }
    congruence. }
  unfold stored_rows. rewrite Hc. cbn.
  split; [reflexivity|].
  eexists. split; [reflexivity|]. cbn. repeat split.
Qed.

(** X9. [count] called after an [insert] that returned answers the
    number of rows there were before the insert plus one, and leaves the
    rows as they are. *)
Theorem X9_count_after_insert
    (oc ap ar rp rr wp wr : string) (ev : option string) (w w1 w2 : World) (id n : Z) :
  txn w = None ->
  OptimizationLogRepository.insert oc ap ar rp rr wp wr ev w = (Returned id, w1) ->
  OptimizationLogRepository.count w1 = (Returned n, w2) ->
  n = Z.of_nat (length (stored_rows w)) + 1 /\
  stored_rows w2 = stored_rows w1.
Proof.
  intros Htx E1 E2.
  destruct (run_operation_returned (Insert oc ap ar rp rr wp wr ev) w id w1 Htx E1)
    as (cur & ws & wb & Hb & Hts & Hdbs & Hus & Hc & Hseq & Ht1).
  cbn [operation_block] in Hb.
  destruct (insert_block_returned _ _ _ _ _ _ _ _ _ _ _ _ Hb)
    as (rows & Hrows & _ & _ & Htxn & _).
  rewrite (view_without_transaction _ Hts), Hdbs in Hrows.
  destruct (run_operation_returned Count w1 n w2 Ht1 E2)
    as (cur2 & ws2 & wb2 & Hb2 & Hts2 & Hdbs2 & _ & Hc2 & _).
  cbn [operation_block] in Hb2.
  destruct (count_block_returned _ _ _ _ Hb2) as (rows2 & Hrows2 & ->).
  rewrite (view_without_transaction _ Hts2), Hdbs2, Hc in Hrows2.
  unfold transaction_view in Hrows2. rewrite Htxn in Hrows2. cbn in Hrows2.
  injection Hrows2 as <-.
  split.
  - unfold stored_rows. rewrite Hrows. cbn. rewrite length_app. cbn. lia.
  - unfold stored_rows. rewrite Hc2.
    pose proof (count_block_view cur2 ws2) as Hv. unfold same_view in Hv.
    rewrite Hb2 in Hv. cbn in Hv.
    rewrite Hv, (view_without_transaction _ Hts2), Hdbs2. reflexivity.
Qed.

(** X10. When [find_by_id] returns, the table exists; it returns [None]
    only when no stored row has the identifier, and otherwise a stored
    row with that identifier. *)
Theorem X10_find_by_id_result (record_id : Z) (w w' : World) (r : option result_row) :
  txn w = None ->
  OptimizationLogRepository.find_by_id record_id w = (Returned r, w') ->
  log_table (committed (db w)) = Some (stored_rows w) /\
  match r with
  | None => Forall (fun row => col_id row <> record_id) (stored_rows w)
  | Some found =>
      exists row, found = LogRow row /\ In row (stored_rows w) /\ col_id row = record_id
  end.
Proof.
  intros Htx E.
  destruct (run_operation_returned (Find_by_id record_id) w r w' Htx E)
    as (cur & ws & wb & Hb & Hts & Hdbs & _).
  cbn [operation_block] in Hb.
  destruct (find_by_id_block_returned _ _ _ _ _ Hb) as (rows & Hrows & ->).
  rewrite (view_without_transaction _ Hts), Hdbs in Hrows.
  assert (Hst : stored_rows w = rows) by (unfold stored_rows; rewrite Hrows; reflexivity).
  rewrite Hst. split; [exact Hrows|].
  destruct (List.filter _ rows) as [|row rest] eqn:Hf; cbn.
  - apply List.Forall_forall. intros row Hin Heq.
    assert (In row (List.filter (fun row => col_id row =? record_id) rows)) as Hin'.
    { apply filter_In. split; [exact Hin|]. apply Z.eqb_eq. exact Heq. }
    rewrite Hf in Hin'. destruct Hin'.
  - exists row. split; [reflexivity|].
    assert (In row (List.filter (fun row => col_id row =? record_id) rows)) as Hin'
      by (rewrite Hf; left; reflexivity).
    apply filter_In in Hin'. destruct Hin' as [Hin Heq].
    split; [exact Hin|]. apply Z.eqb_eq. exact Heq.
Qed.

Lemma In_take_drop {A} (x : A) (l : list A) n m : In x (take n (drop m l)) -> In x l.
Proof.
  intros H.
  rewrite <- (take_drop m l). apply in_or_app. right.
  rewrite <- (take_drop n (drop m l)). apply in_or_app. left. exact H.
Qed.

(** X11. When [find_all] returns, every record is a stored row, their
    number is the smaller of [limit] and the number of rows left after
    [offset], and with offset 0 and a limit that is not below the number
    of rows the records are all the rows, rearranged. *)
Theorem X11_find_all_returns_stored_rows
    (limit offset : Z) (w w' : World) (records : list result_row) :
  txn w = None ->
  OptimizationLogRepository.find_all limit offset w = (Returned records, w') ->
  exists rows,
    records = map LogRow rows /\
    (forall r, In r rows -> In r (stored_rows w)) /\
    length records =
      Nat.min (Z.to_nat limit) (length (stored_rows w) - Z.to_nat offset) /\
    (offset = 0 -> Z.of_nat (length (stored_rows w)) <= limit ->
     Permutation rows (stored_rows w)).
Proof.
  intros Htx E.
  destruct (run_operation_returned (Find_all limit offset) w records w' Htx E)
    as (cur & ws & wb & Hb & Hts & Hdbs & _).
  cbn [operation_block] in Hb.
  destruct (find_all_block_returned _ _ _ _ _ _ Hb) as (table & Htab & Hl & Ho & ->).
  rewrite (view_without_transaction _ Hts), Hdbs in Htab.
  assert (Hst : stored_rows w = table) by (unfold stored_rows; rewrite Htab; reflexivity).
  rewrite Hst.
  assert (Hperm : Permutation (merge_sort newest_first table) table)
    by apply merge_sort_Permutation.
  eexists. split; [reflexivity|]. split; [|split].
  - intros r Hin. apply In_take_drop in Hin.
    eapply Permutation_in; [exact Hperm | exact Hin].
  - rewrite length_map, length_take, length_drop.
    f_equal. f_equal. apply Permutation_length, merge_sort_Permutation.
  - intros -> Hle. change (Z.to_nat 0) with 0%nat. rewrite drop_0.
    rewrite take_ge; [exact Hperm|].
    rewrite (Permutation_length Hperm). lia.
Qed.

(** X12. [find_all] does not check its bounds: with a negative limit or
    a negative offset it never returns, it raises an exception that
    [except Exception] catches. *)
Theorem X12_find_all_negative_bounds (limit offset : Z) (w : World) :
  limit < 0 \/ offset < 0 ->
  exists e,
    (OptimizationLogRepository.find_all limit offset w).1 = Raised e /\
    is_Exception e = true.
Proof.
  intros Hneg.
  destruct (OptimizationLogRepository.find_all limit offset w) as [[records|e] w'] eqn:E.
  - unfold OptimizationLogRepository.find_all in E.
    destruct (get_db_cursor_returned _ _ _ _ E) as (p & w0 & wb & _ & Hb & _).
    destruct (find_all_block_returned _ _ _ _ _ _ Hb) as (table & _ & Hl & Ho & _). lia.
  - exists e. split; [reflexivity|].
    apply (run_operation_only_exceptions (Find_all limit offset) w e).
    cbn [run_operation]. rewrite E. reflexivity.
Qed.

Lemma block_needs_table o cur w x wb :
  o <> Init_table ->
  operation_block o cur w = (Returned x, wb) ->
  exists rows, log_table (transaction_view w) = Some rows.
Proof.
  intros Ho Hb. destruct o; [congruence| | | |]; cbn [operation_block operation_result] in *.
  - destruct (insert_block_returned _ _ _ _ _ _ _ _ _ _ _ _ Hb) as (rows & H & _). eauto.
  - destruct (find_by_id_block_returned _ _ _ _ _ Hb) as (rows & H & _). eauto.
  - destruct (find_all_block_returned _ _ _ _ _ _ Hb) as (rows & H & _). eauto.
  - destruct (count_block_returned _ _ _ _ Hb) as (rows & H & _). eauto.
Qed.

(** X13. As long as the table does not exist, [insert], [find_by_id],
    [find_all] and [count] raise an exception that [except Exception]
    catches, and the committed catalog stays without the table. *)
Theorem X13_operations_need_the_table (o : operation) (w : World) :
  o <> Init_table ->
  txn w = None ->
  log_table (committed (db w)) = None ->
  (exists e, (run_operation o w).1 = Raised e /\ is_Exception e = true) /\
  committed (db (run_operation o w).2) = committed (db w).
Proof.
  intros Ho Htx Htab.
  assert (Hraise : exists e, (run_operation o w).1 = Raised e).
  { destruct (run_operation o w) as [[x|e] w'] eqn:E; [|eauto].
    destruct (run_operation_returned o w x w' Htx E)
      as (cur & ws & wb & Hb & Hts & Hdbs & _).
    destruct (block_needs_table o cur ws x wb Ho Hb) as (rows & Hrows).
    rewrite (view_without_transaction _ Hts), Hdbs in Hrows. congruence. }
  destruct Hraise as [e He]. split.
  { exists e. split; [exact He|]. apply (run_operation_only_exceptions o w _ He). }
  destruct (run_operation o w) as [r w'] eqn:E. cbn [fst snd] in *. subst r.
  destruct (run_operation_cases o w)
    as [(_ & Hdb & _)|(p & w0 & Hp & Hf & Hdb & Htx0 & pre & Hlog)].
  { rewrite E in Hdb. cbn in Hdb. rewrite Hdb. reflexivity. }
  rewrite run_operation_eq, (get_db_cursor_acquired _ _ _ _ Hp Hf) in E.
  pose proof (guarded_outcomes
                (with_cursor (length (driver_log w0)) (operation_block o))
                p (length (driver_log w0)) (logged (Done (Getconn (pool_id p))) w0)
                (with_cursor_only_exceptions _ _ (operation_block_only_exceptions o _))) as H.
  cbn zeta in H. rewrite E in H. cbn [fst snd] in H.
  pose proof (with_cursor_frames (operation_block o) (length (driver_log w0))
                (operation_block_frames o _)
                (logged (Done (Getconn (pool_id p))) w0)) as (_ & Hc & _).
  cbn in Hc.
  destruct H as [(x & Hx & _)|(_ & Hd & _)].
  - exfalso. rewrite with_cursor_run in Hx.
    match type of Hx with
    | context [driver_fault ?a ?b ?c] => destruct (driver_fault a b c)
    end; [discriminate Hx|]. cbn [fst] in Hx.
    match type of Hx with
    | context [operation_block o ?a ?b] =>
        destruct (operation_block o a b) as [r wb] eqn:Hb
    end. cbn in Hx. subst r.
    destruct (block_needs_table o _ _ x wb Ho Hb) as (rows & Hrows).
    unfold transaction_view in Hrows. cbn in Hrows.
    rewrite Htx0, Htx, Hdb, Htab in Hrows. discriminate.
  - rewrite Hd, Hc, Hdb. reflexivity.
Qed.

(** X14. The module level of [db.py] never raises: when [init_table]
    raises, the exception is caught and one warning that carries its text
    is printed; when [init_table] returns, nothing is printed. *)
Theorem X14_import_db_never_raises (w : World) :
  (import_db w).1 = Returned tt /\
  match OptimizationLogRepository.init_table w with
  | (Returned _, w') => (import_db w).2 = w'
  | (Raised e, w') =>
      (import_db w).2 =
        set_console
          (console w' ++ [Plain ("Warning: Failed to initialize database table: " +:+ exn_str e)])
          w'
  end.
Proof.
  pose proof (run_operation_only_exceptions Init_table w) as Hex.
  cbn [run_operation] in Hex.
  unfold import_db, try_except.
  destruct (OptimizationLogRepository.init_table w) as [[[]|e] w'].
  - split; reflexivity.
  - rewrite (Hex e eq_refl). split; reflexivity.
Qed.

(** X23. When the three stages have returned and [insert] returns an
    identifier, [process] returns, prints that identifier, and the table
    holds the rows it had followed by one row: the article text as read,
    each result, each prompt as the labelled system prompt followed by
    the labelled user prompt, no evaluation, and the time of the caller's
    clock read in the session time zone. *)
Theorem X23_successful_run_is_recorded prompts self article_path output_path
    w raw s w1 id w2 :
  filesystem w !! article_path = Some raw ->
  txn w = None ->
  run_stages prompts self article_path (universal_newlines raw) output_path w
    = (Returned s, w1) ->
  insert_run prompts s w1 = (Returned id, w2) ->
  let final := (process prompts self article_path output_path w).2 in
  (process prompts self article_path output_path w).1 = Returned tt /\
  console final = console w2 ++ [Markup ("[dim]数据库记录 ID: " +:+ pretty id +:+ "[/dim]")] /\
  stored_rows final =
    stored_rows w ++
      [{| col_id := id;
          col_original_content := universal_newlines raw;
          col_analyst_prompt :=
            Some (full_prompt (ANALYST_SYSTEM_PROMPT prompts) (analyst_user_prompt s));
          col_analyst_result := Some (analysis s);
          col_architect_prompt :=
            Some (full_prompt (ARCHITECT_SYSTEM_PROMPT prompts) (architect_user_prompt s));
          col_architect_result := Some (blueprint s);
          col_writer_prompt :=
            Some (full_prompt (WRITER_SYSTEM_PROMPT prompts) (writer_user_prompt s));
          col_writer_result := Some (rewritten_article s);
          col_evaluation := None;
          col_created_at := Some (utcnow w - session_utc_offset (db w)) |}].
Proof.
  intros Hfile Htx Hrun Hins final. subst final.
  rewrite (process_with_input _ _ _ _ _ _ Hfile). unfold bind. rewrite Hrun.
  unfold record_run, try_except, bind. rewrite Hins. cbn.
  split; [reflexivity|]. split; [reflexivity|].
  destruct (run_stages_returned _ _ _ _ _ _ _ _ Hrun) as (Hs & Hart & _).
  destruct Hs as (Hdb & Htx1 & _ & _ & _ & _ & _ & _ & _ & Hu).
  unfold insert_run in Hins. cbn zeta in Hins.
  assert (Htx1' : txn w1 = None) by congruence.
  destruct (insert_stores _ _ _ _ _ _ _ _ _ _ _ Htx1' Hins)
    as (rows & Hrows & _ & _ & _ & _ & Hc).
  unfold stored_rows. cbn. rewrite Hc. cbn.
  rewrite <- Hdb, Hrows. cbn. rewrite Hart, Hu, Hdb. reflexivity.
Qed.

(** X24. An operation during which no connection has been handed out
    raises, leaves the committed catalog as it is, and has made no call
    into the driver besides constructing the pool and asking it for a
    connection: no [commit], no [rollback] and no [putconn]. *)
Theorem X24_no_connection_no_transaction (o : operation) (w : World) :
  (forall pid, ~ In (Done (Getconn pid))
                 (drop (length (driver_log w)) (driver_log (run_operation o w).2))) ->
  (exists e, (run_operation o w).1 = Raised e) /\
  committed (db (run_operation o w).2) = committed (db w) /\
  Forall (fun ev => (exists cfg, attempted (PoolCreate cfg) ev) \/
                    (exists pid, ev = Failed (Getconn pid)))
    (drop (length (driver_log w)) (driver_log (run_operation o w).2)).
Proof.
  intros Hnone. apply run_operation_without_connection.
  intros p w0 Hp Hf. apply (Hnone (pool_id p)).
  destruct (get_pool_returned _ _ _ Hp) as (_ & _ & _ & _ & _ & _ & pre & Hlog & _).
  rewrite run_operation_eq, (get_db_cursor_acquired _ _ _ _ Hp Hf).
  destruct (guarded_closing
              (with_cursor (length (driver_log w0)) (operation_block o))
              p (length (driver_log w0)) (logged (Done (Getconn (pool_id p))) w0)
              (with_cursor_only_exceptions _ _ (operation_block_only_exceptions o _)))
    as (closing & Hl & _).
  pose proof (with_cursor_frames (operation_block o) (length (driver_log w0))
                (operation_block_frames o _)
                (logged (Done (Getconn (pool_id p))) w0)) as (_ & _ & _ & evs & Hl2 & _).
  rewrite Hl, Hl2. cbn. rewrite Hlog, <- !app_assoc, drop_app_length.
  rewrite !in_app_iff. right. left. left. reflexivity.
Qed.

Lemma field_value_exception kwargs name e :
  field_value kwargs name = inl e -> is_Exception e = true.
Proof.
  unfold field_value. destruct (all_digits name); [intros H; injection H as <-; reflexivity|].
  destruct (kwargs !! name); [discriminate|]. intros H; injection H as <-; reflexivity.
Qed.

Lemma format_from_exception t : forall st kwargs e,
  format_from st kwargs t = inl e -> is_Exception e = true.
Proof.
  induction t as [|c rest IH]; intros st kwargs e.
  - destruct st; cbn; intros H; try discriminate; injection H as <-; reflexivity.
  - assert (Hemit : forall c' st', emit c' (format_from st' kwargs rest) = inl e ->
                                   is_Exception e = true).
    { intros c' st'. destruct (format_from st' kwargs rest) eqn:E; cbn; [|discriminate].
      intros H; injection H as <-. eapply IH, E. }
    assert (Hfield : forall name,
              match field_value kwargs name with
              | inl e => inl e
              | inr v => emit_text v (format_from Literal kwargs rest)
              end = inl e -> is_Exception e = true).
    { intros name. destruct (field_value kwargs name) eqn:Ef.
      - intros H; injection H as <-. eapply field_value_exception, Ef.
      - destruct (format_from Literal kwargs rest) eqn:E; cbn; [|discriminate].
        intros H; injection H as <-. eapply IH, E. }
    destruct st; cbn [format_from].
    + destruct (Ascii.eqb c "{"); [apply IH|].
      destruct (Ascii.eqb c "}"); [apply IH|]. apply Hemit.
    + destruct (Ascii.eqb c "{"); [apply Hemit|].
      destruct (Ascii.eqb c "}"); [apply Hfield|].
      destruct (starts_extension c); [intros H; injection H as <-; reflexivity|]. apply IH.
    + destruct (Ascii.eqb c "}"); [apply Hemit|]. intros H; injection H as <-; reflexivity.
    + destruct (Ascii.eqb c "}"); [apply Hfield|].
      destruct (Ascii.eqb c "{"); [intros H; injection H as <-; reflexivity|].
      destruct (starts_extension c); [intros H; injection H as <-; reflexivity|]. apply IH.
Qed.

Lemma exit_status_exception {A} (e : exn) :
  is_Exception e = true -> exit_status (@Raised A e) = 1.
Proof. destruct e; cbn; intros H; try reflexivity. discriminate H. Qed.

(** What every run of the stage block has in common. *)
Lemma run_stages_summary prompts self ap article op w :
  let r := (run_stages prompts self ap article op w).1 in
  let w1 := (run_stages prompts self ap article op w).2 in
  same_store w w1 /\
  (exists calls, llm_calls w1 = llm_calls w ++ calls /\ (length calls <= 3)%nat /\
     Forall (fun c => c.1.1 = model_name self) calls /\
     ((exists s, r = Returned s) -> length calls = 3%nat)) /\
  match r with
  | Returned s =>
      exists text, filesystem w1 = <[ op := text ]> (filesystem w)
  | Raised e =>
      filesystem w1 = filesystem w /\ exit_status (@Raised unit e) = 1
  end.
Proof.
  intros r w1. subst r w1.
  pose proof (run_stages_cases prompts self ap article op w) as H. cbn zeta in H.
  destruct H as [Hs H]. split; [exact Hs|].
  unfold analyst_call, architect_call, writer_call in H.
  destruct (format (ANALYST_USER_PROMPT_TEMPLATE prompts) _) as [e1|p1] eqn:F1.
  { destruct H as (-> & Hc & Hf). split.
    - exists []. rewrite app_nil_r. split; [exact Hc|]. split; [cbn; lia|].
      split; [constructor|]. intros [s Hr]. discriminate Hr.
    - split; [exact Hf|]. apply exit_status_exception. eapply format_from_exception, F1. }
  destruct (llm_reply w _ _ _ p1) as [m1|a].
  { destruct H as (-> & Hc & Hf). split.
    - eexists. split; [exact Hc|]. split; [cbn; lia|].
      split; [repeat constructor|]. intros [s Hr]. discriminate Hr.
    - split; [exact Hf|]. reflexivity. }
  destruct (format (ARCHITECT_USER_PROMPT_TEMPLATE prompts) _) as [e2|p2] eqn:F2.
  { destruct H as (-> & Hc & Hf). split.
    - eexists. split; [exact Hc|]. split; [cbn; lia|].
      split; [repeat constructor|]. intros [s Hr]. discriminate Hr.
    - split; [exact Hf|]. apply exit_status_exception. eapply format_from_exception, F2. }
  destruct (llm_reply w _ _ _ p2) as [m2|b].
  { destruct H as (-> & Hc & Hf). split.
    - eexists. split; [exact Hc|]. split; [cbn; lia|].
      split; [repeat constructor|]. intros [s Hr]. discriminate Hr.
    - split; [exact Hf|]. reflexivity. }
  destruct (format (WRITER_USER_PROMPT_TEMPLATE prompts) _) as [e3|p3] eqn:F3.
  { destruct H as (-> & Hc & Hf). split.
    - eexists. split; [exact Hc|]. split; [cbn; lia|].
      split; [repeat constructor|]. intros [s Hr]. discriminate Hr.
    - split; [exact Hf|]. apply exit_status_exception. eapply format_from_exception, F3. }
  destruct (llm_reply w _ _ _ p3) as [m3|c].
  { destruct H as (-> & Hc & Hf). split.
    - eexists. split; [exact Hc|]. split; [cbn; lia|].
      split; [repeat constructor|]. intros [s Hr]. discriminate Hr.
    - split; [exact Hf|]. reflexivity. }
  destruct H as (-> & Hc & Hf). split.
  - eexists. split; [exact Hc|]. split; [cbn; lia|].
    split; [repeat constructor|]. intros _. reflexivity.
  - eexists. exact Hf.
Qed.

Lemma init_run k m w :
  __init__ k m w =
    if truthy (py_or k (environ w !! "GEMINI_API_KEY"))
    then (Returned
            {| api_key := default EmptyString (py_or k (environ w !! "GEMINI_API_KEY"));
               model_name :=
                 default EmptyString
                   (py_or (py_or m (environ w !! "GEMINI_MODEL"))
                      (Some "gemini-3-flash-preview"%string)) |}, w)
    else (Raised (SystemExit 1),
          set_console
            (console w ++ [Markup "[bold red]错误:[/bold red] 未找到 GEMINI_API_KEY 环境变量。"]) w).
Proof.
  unfold __init__, bind, getenv, get. destruct (truthy _); reflexivity.
Qed.

Lemma process_cases prompts self ap op w :
  let r := (process prompts self ap op w).1 in
  let w' := (process prompts self ap op w).2 in
  (forall path, path <> op -> filesystem w' !! path = filesystem w !! path) /\
  (exists calls, llm_calls w' = llm_calls w ++ calls /\ (length calls <= 3)%nat /\
     Forall (fun c => c.1.1 = model_name self) calls /\
     (r = Returned tt -> calls = [] \/ length calls = 3%nat)) /\
  environ w' = environ w /\
  match r with
  | Returned _ => True
  | Raised e => exit_status r = 1 /\ filesystem w' = filesystem w /\ same_store w w'
  end.
Proof.
  intros r w'. subst r w'.
  destruct (filesystem w !! ap) as [raw|] eqn:Hin.
  - rewrite (process_with_input _ _ _ _ _ _ Hin). unfold bind.
    pose proof (run_stages_summary prompts self ap (universal_newlines raw) op w) as H.
    cbn zeta in H.
    destruct (run_stages prompts self ap (universal_newlines raw) op w) as [[s|e] w1].
    + cbn [fst snd] in H. destruct H as (Hs & (calls & Hc & Hlen & Hm & H3) & text & Hf).
      destruct (record_run_returns prompts s w1) as (Hr & Hfs & Hcalls & _ & Henv & _).
      rewrite Hr. split; [|split; [|split; [|exact I]]].
      * intros path Hp. rewrite Hfs, Hf. apply lookup_insert_ne. congruence.
      * exists calls. rewrite Hcalls. split; [exact Hc|]. split; [exact Hlen|].
        split; [exact Hm|]. intros _. right. apply H3. eauto.
      * rewrite Henv. apply Hs.
    + cbn [fst snd] in *. destruct H as (Hs & (calls & Hc & Hlen & Hm & _) & Hf & He).
      split; [|split; [|split]].
      * intros path _. rewrite Hf. reflexivity.
      * exists calls. split; [exact Hc|]. split; [exact Hlen|]. split; [exact Hm|].
        intros Hr. discriminate Hr.
      * apply Hs.
      * split; [exact He|]. split; [exact Hf|exact Hs].
  - rewrite (process_missing_input _ _ _ _ _ Hin). cbn.
    split; [reflexivity|]. split; [|split; [reflexivity|exact I]].
    exists []. rewrite app_nil_r. split; [reflexivity|]. split; [cbn; lia|].
    split; [constructor|]. intros _. left. reflexivity.
Qed.

Lemma main_run prompts argv w :
  main prompts argv w =
    if (length argv <? 3)%nat
    then (Raised (SystemExit 1), set_console (console w ++ [Markup usage]) w)
    else if truthy (environ w !! "GEMINI_API_KEY")
    then process prompts (script_agent w)
           (nth 1 argv EmptyString) (nth 2 argv EmptyString) w
    else (Raised (SystemExit 1), set_console (console w ++ [Markup missing_key]) w).
Proof.
  unfold main. destruct (length argv <? 3)%nat; [reflexivity|].
  unfold bind. rewrite init_run.
  change (py_or None (environ w !! "GEMINI_API_KEY")) with (environ w !! "GEMINI_API_KEY").
  destruct (truthy _); reflexivity.
Qed.

Lemma run_script_main prompts argv w :
  run_script prompts argv w =
    (exit_status (main prompts argv (import_db w).2).1,
     (main prompts argv (import_db w).2).2).
Proof.
  destruct (import_db_returns w) as [Hr _].
  unfold run_script, bind. destruct (import_db w) as [r0 w0]. cbn [fst snd] in *. subst r0.
  destruct (main prompts argv w0); reflexivity.
Qed.

Lemma run_script_cases prompts argv w :
  let w0 := (import_db w).2 in
  let st := (run_script prompts argv w).1 in
  let wf := (run_script prompts argv w).2 in
  (st = 0 \/ st = 1) /\
  (forall path, path <> nth 2 argv EmptyString ->
     filesystem wf !! path = filesystem w !! path) /\
  (exists calls, llm_calls wf = llm_calls w ++ calls /\ (length calls <= 3)%nat /\
     Forall (fun c => c.1.1 = resolved_model w) calls /\
     (st = 0 -> calls = [] \/ length calls = 3%nat)) /\
  (st <> 0 -> filesystem wf = filesystem w /\ driver_log wf = driver_log w0 /\ db wf = db w0) /\
  ((length argv < 3)%nat ->
     st = 1 /\ wf = set_console (console w0 ++ [Markup usage]) w0) /\
  ((3 <= length argv)%nat -> truthy (environ w !! "GEMINI_API_KEY") = false ->
     st = 1 /\ wf = set_console (console w0 ++ [Markup missing_key]) w0).
Proof.
  intros w0 st wf. subst w0 st wf.
  destruct (import_db_returns w) as [_ (Hfs & Hcalls & Hrep & Henv & _)].
  rewrite run_script_main, main_run. cbn [fst snd].
  assert (Hmodel : resolved_model (import_db w).2 = resolved_model w)
    by (unfold resolved_model; rewrite Henv; reflexivity).
  rewrite <- Hfs, <- Hcalls, <- Henv, <- Hmodel.
  generalize (import_db w).2 as w0. clear. intros w0.
  destruct (Nat.ltb_spec (length argv) 3) as [Hshort|Hlong].
  { cbn. split; [right; reflexivity|]. split; [reflexivity|].
    split.
    { exists []. rewrite app_nil_r. split; [reflexivity|]. split; [cbn; lia|].
      split; [constructor|]. intros H; discriminate H. }
    split; [intros _; repeat split|].
    split; [intros _; split; reflexivity|]. intros H; lia. }
  destruct (truthy (environ w0 !! "GEMINI_API_KEY")) eqn:Hkey.
  - pose proof (process_cases prompts (script_agent w0)
                  (nth 1 argv EmptyString) (nth 2 argv EmptyString) w0) as H.
    cbn zeta in H. cbn [model_name script_agent] in H.
    destruct (process prompts _ _ _ w0) as [[[]|e] w1]; cbn [fst snd] in *.
    + destruct H as (Hpath & (calls & Hc & Hlen & Hm & H3) & _ & _).
      split; [left; reflexivity|]. split; [exact Hpath|].
      split; [exists calls; repeat split; auto|].
      split; [intros H; cbn in H; congruence|].
      split; [intros H; lia|]. intros _ H; discriminate H.
    + destruct H as (Hpath & (calls & Hc & Hlen & Hm & H3) & _ & Hst & Hf & Hs).
      split; [right; exact Hst|]. split; [exact Hpath|].
      split.
      { exists calls. split; [exact Hc|]. split; [exact Hlen|]. split; [exact Hm|].
        rewrite Hst. intros H; discriminate H. }
      split.
      { intros _. split; [exact Hf|]. destruct Hs as (Hdb & _ & _ & Hlog & _).
        split; [exact Hlog | exact Hdb]. }
      split; [intros H; lia|]. intros _ H; discriminate H.
  - cbn. split; [right; reflexivity|]. split; [reflexivity|].
    split.
    { exists []. rewrite app_nil_r. split; [reflexivity|]. split; [cbn; lia|].
      split; [constructor|]. intros H; discriminate H. }
    split; [intros _; repeat split|].
    split; [intros H; lia|]. intros _ _. split; reflexivity.
Qed.

(** ** The preview *)

Lemma py_len_nonneg s : 0 <= py_len s.
Proof. induction s as [|c rest IH]; cbn; [lia|]. destruct (utf8_lead c); lia. Qed.

Lemma py_len_prefix s : forall n, py_len (py_prefix n s) = Z.min (Z.of_nat n) (py_len s).
Proof.
  induction s as [|c rest IH]; intros n; cbn.
  - lia.
  - pose proof (py_len_nonneg rest). destruct (utf8_lead c) eqn:Hc.
    + destruct n as [|m]; cbn; [lia|]. rewrite Hc, IH. lia.
    + cbn. rewrite Hc, IH. lia.
Qed.

Lemma py_prefix_is_prefix s : forall n, exists rest, s = py_prefix n s +:+ rest.
Proof.
  induction s as [|c rest IH]; intros n; cbn.
  - exists EmptyString. reflexivity.
  - destruct (utf8_lead c).
    + destruct n as [|m].
      * exists (String c rest). reflexivity.
      * destruct (IH m) as [tail Ht]. exists tail.
        change (String c rest = String c (py_prefix m rest +:+ tail)). rewrite <- Ht. reflexivity.
    + destruct (IH n) as [tail Ht]. exists tail.
      change (String c rest = String c (py_prefix n rest +:+ tail)). rewrite <- Ht. reflexivity.
Qed.

(** X22. The preview of an article of at most 500 characters is the
    article; the preview of a longer one is its first 500 characters
    followed by the truncation mark. *)
Theorem X22_preview_is_a_bounded_prefix (rewritten_article : string) :
  (py_len rewritten_article <= 500 -> preview_of rewritten_article = rewritten_article) /\
  (500 < py_len rewritten_article ->
   exists head rest,
     preview_of rewritten_article = head +:+ nl +:+ nl +:+ "...(内容已截断)..." /\
     rewritten_article = head +:+ rest /\
     py_len head = 500).
Proof.
  unfold preview_of, preview_len. split; intros H.
  - destruct (Z.ltb_spec 500 (py_len rewritten_article)); [lia | reflexivity].
  - destruct (Z.ltb_spec 500 (py_len rewritten_article)); [|lia].
    destruct (py_prefix_is_prefix rewritten_article (Z.to_nat 500)) as [rest Hr].
    exists (py_prefix (Z.to_nat 500) rewritten_article), rest.
    split; [reflexivity|]. split; [exact Hr|].
    rewrite py_len_prefix. lia.
Qed.

(** ** The agent *)

(** X19. When [__init__] returns, the world is unchanged, the key and
    the model name of the agent are not empty, the key is the argument
    when that is given and not empty and the value of [GEMINI_API_KEY]
    otherwise, and the model name is the argument, else the value of
    [GEMINI_MODEL], else the default, an empty text counting as absent.
    When it raises, it is [SystemExit] with code 1, neither the argument
    nor the variable held a key, and the error has been printed. *)
Theorem X19_agent_construction (key model : option string) (w : World) :
  (forall self w', __init__ key model w = (Returned self, w') ->
     w' = w /\
     api_key self <> EmptyString /\
     model_name self <> EmptyString /\
     (key = Some (api_key self) \/
      truthy key = false /\ environ w !! "GEMINI_API_KEY" = Some (api_key self)) /\
     (model = Some (model_name self) \/
      truthy model = false /\
      (environ w !! "GEMINI_MODEL" = Some (model_name self) \/
       truthy (environ w !! "GEMINI_MODEL") = false /\
       model_name self = "gemini-3-flash-preview"%string))) /\
  (forall e w', __init__ key model w = (Raised e, w') ->
     e = SystemExit 1 /\
     truthy key = false /\
     truthy (environ w !! "GEMINI_API_KEY") = false /\
     w' = set_console (console w ++ [Markup missing_key]) w).
Proof.
  rewrite init_run. unfold py_or. split.
  - intros self w'.
    destruct (truthy key) eqn:Hk.
    + rewrite Hk. intros H. injection H as <- <-. cbn [api_key model_name].
      split; [reflexivity|].
      destruct key as [[|a k]|]; try discriminate Hk. cbn [default].
      split; [discriminate|]. split.
      { destruct (truthy model) eqn:Hm.
        - rewrite Hm. destruct model as [[|b m]|]; try discriminate Hm. discriminate.
        - destruct (truthy (environ w !! "GEMINI_MODEL")) eqn:He.
          + destruct (environ w !! "GEMINI_MODEL") as [[|b m]|]; try discriminate He.
            discriminate.
          + discriminate. }
      split; [left; reflexivity|].
      destruct (truthy model) eqn:Hm.
      * rewrite Hm. destruct model as [[|b m]|]; try discriminate Hm. left. reflexivity.
      * right. split; [reflexivity|].
        destruct (truthy (environ w !! "GEMINI_MODEL")) eqn:He.
        -- destruct (environ w !! "GEMINI_MODEL") as [[|b m]|]; try discriminate He.
           left. reflexivity.
        -- right. split; reflexivity.
    + destruct (truthy (environ w !! "GEMINI_API_KEY")) eqn:Hek; [|discriminate].
      intros H. injection H as <- <-. cbn [api_key model_name].
      split; [reflexivity|].
      destruct (environ w !! "GEMINI_API_KEY") as [[|a k]|]; try discriminate Hek.
      cbn [default].
      split; [discriminate|]. split.
      { destruct (truthy model) eqn:Hm.
        - rewrite Hm. destruct model as [[|b m]|]; try discriminate Hm. discriminate.
        - destruct (truthy (environ w !! "GEMINI_MODEL")) eqn:He.
          + destruct (environ w !! "GEMINI_MODEL") as [[|b m]|]; try discriminate He.
            discriminate.
          + discriminate. }
      split; [right; split; reflexivity|].
      destruct (truthy model) eqn:Hm.
      * rewrite Hm. destruct model as [[|b m]|]; try discriminate Hm. left. reflexivity.
      * right. split; [reflexivity|].
        destruct (truthy (environ w !! "GEMINI_MODEL")) eqn:He.
        -- destruct (environ w !! "GEMINI_MODEL") as [[|b m]|]; try discriminate He.
           left. reflexivity.
        -- right. split; reflexivity.
  - intros e w'.
    destruct (truthy key) eqn:Hk.
    + rewrite Hk. discriminate.
    + destruct (truthy (environ w !! "GEMINI_API_KEY")) eqn:Hek; [discriminate|].
      intros H. injection H as <- <-. repeat split.
Qed.

(** ** The script *)

(** X15. Whatever the arguments, the environment, the files, the
    templates, the answers of the generation service and the failures of
    the driver, the exit status of the script is 0 or 1. *)
Theorem X15_exit_status_is_0_or_1 prompts (argv : list string) (w : World) :
  (run_script prompts argv w).1 = 0 \/ (run_script prompts argv w).1 = 1.
Proof. apply (run_script_cases prompts argv w). Qed.

(** X16. A run of the script changes no file other than the one named by
    its second argument. *)
Theorem X16_only_the_output_file_changes prompts (argv : list string) (w : World)
    (path : string) :
  path <> nth 2 argv EmptyString ->
  filesystem (run_script prompts argv w).2 !! path = filesystem w !! path.
Proof. apply (run_script_cases prompts argv w). Qed.


(** X18. A run of the script adds at most three calls to the record of
    the generation service, all of them to the model named by
    [GEMINI_MODEL] or, when that is unset or empty, to the default model;
    a run with exit status 0 has made none or exactly three. *)
Theorem X18_at_most_three_generation_calls prompts (argv : list string) (w : World) :
  exists calls,
    llm_calls (run_script prompts argv w).2 = llm_calls w ++ calls /\
    (length calls <= 3)%nat /\
    Forall (fun c => c.1.1 = resolved_model w) calls /\
    ((run_script prompts argv w).1 = 0 -> calls = [] \/ length calls = 3%nat).
Proof. apply (run_script_cases prompts argv w). Qed.

(** X20. With fewer than two arguments after the script name, the run
    prints the usage line and ends with status 1, whether or not a key is
    set; with enough arguments and no key in [GEMINI_API_KEY], it prints
    the missing-key error and ends with status 1, whether or not the
    input file exists.  In both cases nothing else happens after the
    import of [db]. *)
Theorem X20_startup_errors prompts (argv : list string) (w : World) :
  ((length argv < 3)%nat ->
     run_script prompts argv w =
       (1, set_console (console (import_db w).2 ++ [Markup usage]) (import_db w).2)) /\
  ((3 <= length argv)%nat -> truthy (environ w !! "GEMINI_API_KEY") = false ->
     run_script prompts argv w =
       (1, set_console (console (import_db w).2 ++ [Markup missing_key]) (import_db w).2)).
Proof.
  destruct (run_script_cases prompts argv w) as (_ & _ & _ & _ & H1 & H2).
  cbn zeta in H1, H2. split.
  - intros H. destruct (H1 H) as [Ha Hb].
    destruct (run_script prompts argv w) as [st wf]. cbn in *. congruence.
  - intros H Hk. destruct (H2 H Hk) as [Ha Hb].
    destruct (run_script prompts argv w) as [st wf]. cbn in *. congruence.
Qed.

(** X21. When the Analyst template does not render on the article text
    for a reason that the model of [format] covers (a field whose name is
    not among the keywords, a positional field, a brace that stands
    alone), [process] lets the exception of [format] escape: the exit
    status is 1, the generation service has not been called and no file
    has changed. *)
Theorem X21_template_that_does_not_render prompts self article_path output_path w raw e :
  filesystem w !! article_path = Some raw ->
  format (ANALYST_USER_PROMPT_TEMPLATE prompts)
    {[ "article_content"%string := universal_newlines raw ]} = inl e ->
  (forall what, e <> NotModelled what) ->
  (process prompts self article_path output_path w).1 = Raised e /\
  is_Exception e = true /\
  exit_status (process prompts self article_path output_path w).1 = 1 /\
  llm_calls (process prompts self article_path output_path w).2 = llm_calls w /\
  filesystem (process prompts self article_path output_path w).2 = filesystem w.
Proof.
  intros Hfile Hf _.
  rewrite (process_with_input _ _ _ _ _ _ Hfile). unfold bind.
  pose proof (run_stages_cases prompts self article_path (universal_newlines raw)
                output_path w) as H.
  cbn zeta in H. rewrite Hf in H. destruct H as (_ & Hr & Hc & Hfs).
  destruct (run_stages prompts self article_path (universal_newlines raw) output_path w)
    as [r w1]. cbn [fst snd] in *. subst r. cbn [fst snd].
  pose proof (format_from_exception _ _ _ _ Hf) as He.
  split; [reflexivity|]. split; [exact He|].
  split; [apply exit_status_exception, He|]. split; assumption.
Qed.

(** The block of [init_table] and the blocks of the three queries return
    on a connection without open transaction when the driver does not
    fail, the queries provided the table exists and their integers are in
    the range of [bigint]. *)
Lemma read_block_returns o cur ws :
  txn ws = None ->
  (forall n c, (length (driver_log ws) <= n)%nat -> driver_fault ws n c = None) ->
  match o with
  | Init_table => True
  | Insert _ _ _ _ _ _ _ _ => False
  | Find_by_id record_id =>
      is_Some (log_table (committed (db ws))) /\
      - 2 ^ 63 <= record_id < 2 ^ 63
  | Find_all limit offset =>
      is_Some (log_table (committed (db ws))) /\
      0 <= limit < 2 ^ 63 /\ 0 <= offset < 2 ^ 63
  | Count => is_Some (log_table (committed (db ws)))
  end ->
  exists x wb, operation_block o cur ws = (Returned x, wb).
Proof.
  intros Htx Hnf Hpre.
  destruct o; cbn [operation_block operation_result]; [| destruct Hpre | | |].
  - unfold OptimizationLogRepository.init_table_block, bind.
    rewrite execute_run by (apply Hnf; lia).
    rewrite (view_without_transaction _ Htx). cbn [run_statement].
    destruct (log_table (committed (db ws))) as [rows|] eqn:Hrows.
    + rewrite execute_run by (cbn; apply Hnf; rewrite length_app; lia).
      unfold transaction_view. cbn. rewrite Hrows. eauto.
    + rewrite execute_run by (cbn; apply Hnf; rewrite length_app; lia).
      unfold transaction_view. cbn. eauto.
  - destruct Hpre as [[rows Hrows] _].
    unfold OptimizationLogRepository.find_by_id_block, bind.
    rewrite execute_run by (apply Hnf; lia).
    rewrite (view_without_transaction _ Htx). cbn [run_statement]. rewrite Hrows.
    unfold fetchone. cbn. destruct (map LogRow _); eauto.
  - destruct Hpre as ([rows Hrows] & Hl & Ho).
    unfold OptimizationLogRepository.find_all_block, bind.
    rewrite execute_run by (apply Hnf; lia).
    rewrite (view_without_transaction _ Htx). cbn [run_statement]. rewrite Hrows.
    destruct (Z.ltb_spec limit 0); [lia|]. destruct (Z.ltb_spec offset 0); [lia|].
    cbn. eauto.
  - destruct Hpre as [rows Hrows].
    unfold OptimizationLogRepository.count_block, bind.
    rewrite execute_run by (apply Hnf; lia).
    rewrite (view_without_transaction _ Htx). cbn [run_statement]. rewrite Hrows.
    cbn. eauto.
Qed.

Lemma read_operation_returns (o : operation) (w w0 : World) (p : Pool) :
  ConnectionPool.get_pool w = (Returned (Some p), w0) ->
  (forall n c, (length (driver_log w0) <= n)%nat -> driver_fault w0 n c = None) ->
  txn w = None ->
  match o with
  | Init_table => True
  | Insert _ _ _ _ _ _ _ _ => False
  | Find_by_id record_id =>
      is_Some (log_table (committed (db w))) /\
      - 2 ^ 63 <= record_id < 2 ^ 63
  | Find_all limit offset =>
      is_Some (log_table (committed (db w))) /\
      0 <= limit < 2 ^ 63 /\ 0 <= offset < 2 ^ 63
  | Count => is_Some (log_table (committed (db w)))
  end ->
  returns_and_releases p (length (driver_log w0)) (run_operation o) w.
Proof.
  intros Hp Hnf Htx Hpre.
  destruct (get_pool_returned _ _ _ Hp) as (p' & Hpp & Hi0 & _ & Hdb0 & Htx0 & _).
  injection Hpp as <-.
  destruct (read_block_returns o (length (driver_log w0))
              (set_result_set None
                 (logged (Done (Cursor (length (driver_log w0))))
                    (logged (Done (Getconn (pool_id p))) w0))))
    as (x & wb & Hb).
  - cbn. congruence.
  - intros n c Hn. cbn in *. apply Hnf. rewrite !length_app in Hn. lia.
  - cbn [db set_result_set logged set_driver_log]. rewrite Hdb0. exact Hpre.
  - exists x. eexists. split; [apply (run_operation_returns o w p w0 x wb Hp Hnf Hb)|].
    destruct (committed_world p (length (driver_log w0)) wb) as (Hi1 & Ht1 & _ & _ & Hl1).
    cbn zeta in Hi1, Ht1, Hl1.
    split; [exact Ht1|]. split.
    + rewrite Hi1.
      pose proof (operation_block_frames o (length (driver_log w0))
                    (set_result_set None
                       (logged (Done (Cursor (length (driver_log w0))))
                          (logged (Done (Getconn (pool_id p))) w0)))) as (_ & _ & Hi & _).
      rewrite Hb in Hi. cbn in Hi. congruence.
    + rewrite Hl1.
      replace (driver_log wb ++
                 [Done (Commit (length (driver_log w0)));
                  Done (Putconn (pool_id p) (length (driver_log w0)))])
        with ((driver_log wb ++ [Done (Commit (length (driver_log w0)))]) ++
                [Done (Putconn (pool_id p) (length (driver_log w0)))])
        by (rewrite <- app_assoc; reflexivity).
      apply last_snoc.
Qed.

(** X25. With a pool, no open transaction and a driver that does not
    fail, [init_table] returns; when the table exists, so do [count],
    [find_by_id] for an identifier in the range of [bigint], and
    [find_all] for a limit and an offset that are not negative and in the
    range of [bigint].  The connection has then gone back to the pool as
    the last call and no transaction is left open. *)
Theorem X25_operations_return (w w0 : World) (p : Pool) :
  ConnectionPool.get_pool w = (Returned (Some p), w0) ->
  (forall n c, (length (driver_log w0) <= n)%nat -> driver_fault w0 n c = None) ->
  txn w = None ->
  returns_and_releases p (length (driver_log w0)) OptimizationLogRepository.init_table w /\
  (is_Some (log_table (committed (db w))) ->
   returns_and_releases p (length (driver_log w0)) OptimizationLogRepository.count w /\
   (forall record_id, - 2 ^ 63 <= record_id < 2 ^ 63 ->
      returns_and_releases p (length (driver_log w0))
        (OptimizationLogRepository.find_by_id record_id) w) /\
   (forall limit offset, 0 <= limit < 2 ^ 63 -> 0 <= offset < 2 ^ 63 ->
      returns_and_releases p (length (driver_log w0))
        (OptimizationLogRepository.find_all limit offset) w)).
Proof.
  intros Hp Hnf Htx. split.
  { apply (read_operation_returns Init_table w w0 p Hp Hnf Htx I). }
  intros Htab. split; [|split].
  - apply (read_operation_returns Count w w0 p Hp Hnf Htx Htab).
  - intros i Hi. apply (read_operation_returns (Find_by_id i) w w0 p Hp Hnf Htx).
    split; assumption.
  - intros l k Hl Hk. apply (read_operation_returns (Find_all l k) w w0 p Hp Hnf Htx).
    split; [assumption|]. split; assumption.
Qed.

(** ** The further properties on sample worlds *)

Lemma X1_witness :
  (DatabaseConfig.get_config sample_world).1 = Returned (pool_config default_pool).
Proof.
  destruct (X1_get_config_defaults_and_errors sample_world) as [_ H].
  vm_compute in H. vm_compute. exact H.
Defined.

Lemma X2_witness :
  exists p w2,
    ConnectionPool.initialize (Some sample_config)
      (ConnectionPool.initialize (Some sample_config) flaky_world).2 = (Returned tt, w2) /\
    ConnectionPool_instance w2 = Some p /\
    pool_config p = sample_config.
Proof.
  destruct (X2_failed_initialize_can_be_retried flaky_world
              (ConnectionPool.initialize (Some sample_config) flaky_world).2
              sample_config (DatabaseError "connection refused"))
    as (_ & _ & _ & H).
  - vm_compute. reflexivity.
  - vm_compute. reflexivity.
  - destruct (H sample_config) as (p & w2 & Hi & Hp & Hc & _).
    + vm_compute. reflexivity.
    + exists p, w2. auto.
Defined.

Lemma X3_witness :
  ConnectionPool.get_pool (ConnectionPool.close_all stale_pool_world).2 =
    (Returned (Some default_pool), (ConnectionPool.close_all stale_pool_world).2).
Proof.
  destruct (X3_failed_close_all_keeps_the_instance stale_pool_world
              (ConnectionPool.close_all stale_pool_world).2
              (DatabaseError "connection already closed"))
    as (p & Hi & _ & _ & Hg).
  - vm_compute. reflexivity.
  - vm_compute in Hi. injection Hi as <-. exact Hg.
Defined.

Lemma X4_witness :
  exists q,
    ConnectionPool_instance
      (ConnectionPool.get_pool
         (ConnectionPool.close_all
            (ConnectionPool.initialize (Some sample_config) sample_world).2).2).2 = Some q /\
    pool_config q = pool_config default_pool.
Proof.
  destruct (X4_pool_after_close_all_uses_the_environment
              sample_world
              (ConnectionPool.initialize (Some sample_config) sample_world).2
              (ConnectionPool.close_all
                 (ConnectionPool.initialize (Some sample_config) sample_world).2).2
              (ConnectionPool.get_pool
                 (ConnectionPool.close_all
                    (ConnectionPool.initialize (Some sample_config) sample_world).2).2).2
              sample_config
              {| pool_id := 2; pool_config := pool_config default_pool |})
    as (Hc & _).
  - vm_compute. reflexivity.
  - vm_compute. reflexivity.
  - vm_compute. reflexivity.
  - vm_compute. reflexivity.
  - eexists. split; [vm_compute; reflexivity | reflexivity].
Defined.

Lemma X5_witness :
  exists p conn,
    In (Done (Commit conn))
       (driver_log (OptimizationLogRepository.insert "text" "p1" "r1" "p2" "r2" "p3" "r3" None
                      putconn_fails_world).2) /\
    last (driver_log (OptimizationLogRepository.insert "text" "p1" "r1" "p2" "r2" "p3" "r3" None
                        putconn_fails_world).2)
      = Some (Failed (Putconn (pool_id p) conn)).
Proof.
  destruct (X5_raising_operation_and_the_store
              (Insert "text" "p1" "r1" "p2" "r2" "p3" "r3" None) putconn_fails_world
              (OptimizationLogRepository.insert "text" "p1" "r1" "p2" "r2" "p3" "r3" None
                 putconn_fails_world).2
              (DatabaseError "trying to put unkeyed connection"))
    as [H|(p & conn & Hin & Hlast)].
  - vm_compute. reflexivity.
  - vm_compute in H. discriminate H.
  - exists p, conn. split; [exact Hin | exact Hlast].
Defined.

Lemma X6_witness :
  committed (db (OptimizationLogRepository.count filled_world).2) = committed filled_database.
Proof.
  destruct (X6_queries_never_change_the_store filled_world) as (_ & _ & H).
  - reflexivity.
  - exact H.
Defined.

Lemma X7_witness :
  committed (db (OptimizationLogRepository.init_table sample_world).2) =
    {| log_table := Some []; created_at_index := true |}.
Proof.
  destruct (X7_init_table_keeps_the_rows sample_world
              (OptimizationLogRepository.init_table sample_world).2) as [H _].
  - reflexivity.
  - vm_compute. reflexivity.
  - exact H.
Defined.

Lemma X8_witness :
  exists row,
    stored_rows inserted_world = stored_rows initialised_world ++ [row] /\
    col_id row = 1 /\
    col_original_content row = "text"%string.
Proof.
  destruct (X8_insert_appends_one_row "text" "p1" "r1" "p2" "r2" "p3" "r3"
              (Some "fine"%string) initialised_world inserted_world 1)
    as (_ & _ & _ & _ & _ & row & Hrows & Hid & Hoc & _).
  - vm_compute. reflexivity.
  - vm_compute. reflexivity.
  - exists row. auto.
Defined.

Lemma X9_witness :
  1 = Z.of_nat (length (stored_rows initialised_world)) + 1 /\
  stored_rows (OptimizationLogRepository.count inserted_world).2 = stored_rows inserted_world.
Proof.
  apply (X9_count_after_insert "text" "p1" "r1" "p2" "r2" "p3" "r3"
           (Some "fine"%string) initialised_world inserted_world
           (OptimizationLogRepository.count inserted_world).2 1 1).
  - vm_compute. reflexivity.
  - vm_compute. reflexivity.
  - vm_compute. reflexivity.
Defined.

Lemma X10_witness :
  exists row,
    In row (stored_rows filled_world) /\ col_id row = 2 /\
    Forall (fun row => col_id row <> 7) (stored_rows filled_world).
Proof.
  destruct (X10_find_by_id_result 2 filled_world
              (OptimizationLogRepository.find_by_id 2 filled_world).2
              (Some (LogRow (sample_row 2 (Some 30)))))
    as (_ & row & _ & Hin & Hid).
  - reflexivity.
  - vm_compute. reflexivity.
  - destruct (X10_find_by_id_result 7 filled_world
                (OptimizationLogRepository.find_by_id 7 filled_world).2 None)
      as (_ & Hnone).
    + reflexivity.
    + vm_compute. reflexivity.
    + exists row. auto.
Defined.

Lemma X11_witness :
  exists rows,
    [LogRow (sample_row 2 (Some 30)); LogRow (sample_row 3 (Some 20));
     LogRow (sample_row 1 (Some 10))] = map LogRow rows /\
    Permutation rows (stored_rows filled_world).
Proof.
  destruct (X11_find_all_returns_stored_rows 100 0 filled_world
              (OptimizationLogRepository.find_all 100 0 filled_world).2
              [LogRow (sample_row 2 (Some 30)); LogRow (sample_row 3 (Some 20));
               LogRow (sample_row 1 (Some 10))])
    as (rows & Hrec & _ & _ & Hperm).
  - reflexivity.
  - vm_compute. reflexivity.
  - exists rows. split; [exact Hrec|]. apply Hperm; [reflexivity|].
    vm_compute. discriminate.
Defined.

Lemma X12_witness :
  exists e, (OptimizationLogRepository.find_all (-1) 0 filled_world).1 = Raised e /\
            is_Exception e = true.
Proof.
  apply (X12_find_all_negative_bounds (-1) 0 filled_world). left. lia.
Defined.

Lemma X13_witness :
  (exists e, (OptimizationLogRepository.count sample_world).1 = Raised e /\
             is_Exception e = true) /\
  committed (db (OptimizationLogRepository.count sample_world).2) = committed (db sample_world).
Proof.
  apply (X13_operations_need_the_table Count sample_world).
  - discriminate.
  - reflexivity.
  - reflexivity.
Defined.

Lemma X14_witness :
  (import_db unreachable_world).1 = Returned tt /\
  last (console (import_db unreachable_world).2) =
    Some (Plain "Warning: Failed to initialize database table: connection refused").
Proof.
  destruct (X14_import_db_never_raises unreachable_world) as [Hr H].
  split; [exact Hr|].
  assert (E : OptimizationLogRepository.init_table unreachable_world =
              (Raised (DatabaseError "connection refused"),
               (OptimizationLogRepository.init_table unreachable_world).2))
    by (vm_compute; reflexivity).
  rewrite E in H. rewrite H. cbn [console set_console]. rewrite last_snoc. reflexivity.
Defined.

Lemma X24_witness :
  exists e, (OptimizationLogRepository.count unreachable_world).1 = Raised e.
Proof.
  destruct (X24_no_connection_no_transaction Count unreachable_world) as (H & _).
  - intros pid. vm_compute. intros [H|[]]. discriminate H.
  - exact H.
Defined.

Lemma X23_witness :
  exists row,
    stored_rows (process sample_prompts sample_agent "in.md" "out.md" initialised_world).2
      = [row] /\
    col_original_content row = "# Intro"%string /\
    col_writer_result row = Some "final"%string /\
    col_analyst_prompt row =
      Some ("System Prompt:" +:+ nl +:+ "You diagnose articles." +:+ nl +:+ nl +:+
            "User Prompt:" +:+ nl +:+ "Article: # Intro").
Proof.
  pose proof (X23_successful_run_is_recorded sample_prompts sample_agent "in.md" "out.md"
                initialised_world "# Intro" sample_results
                (run_stages sample_prompts sample_agent "in.md" "# Intro" "out.md"
                   initialised_world).2
                1
                (insert_run sample_prompts sample_results
                   (run_stages sample_prompts sample_agent "in.md" "# Intro" "out.md"
                      initialised_world).2).2) as H.
  cbn zeta in H.
  destruct H as (_ & _ & Hrows); try (vm_compute; reflexivity).
  eexists. split; [exact Hrows|]. vm_compute. auto.
Defined.

Lemma X16_witness :
  filesystem (run_script sample_prompts sample_argv sample_world).2 !! "in.md"%string
    = Some "# Intro"%string.
Proof.
  rewrite (X16_only_the_output_file_changes sample_prompts sample_argv sample_world "in.md").
  - reflexivity.
  - vm_compute. discriminate.
Defined.


Lemma X18_witness :
  exists calls,
    llm_calls (run_script sample_prompts sample_argv sample_world).2 = calls /\
    length calls = 3%nat /\
    Forall (fun c => c.1.1 = "gemini-3-flash-preview"%string) calls.
Proof.
  destruct (X18_at_most_three_generation_calls sample_prompts sample_argv sample_world)
    as (calls & Hc & _ & Hm & H3).
  exists calls. split; [exact Hc|]. split; [|exact Hm].
  destruct H3 as [->| H3]; [vm_compute; reflexivity | | exact H3].
  vm_compute in Hc. discriminate Hc.
Defined.

Lemma X19_witness :
  api_key sample_agent <> EmptyString /\
  (None = Some (api_key sample_agent) \/
   truthy None = false /\
   environ sample_world !! "GEMINI_API_KEY"%string = Some (api_key sample_agent)).
Proof.
  destruct (X19_agent_construction None None sample_world) as [H _].
  destruct (H sample_agent sample_world) as (_ & Hk & _ & Hsrc & _).
  - vm_compute. reflexivity.
  - split; [exact Hk | exact Hsrc].
Defined.

Lemma X20_witness :
  (run_script sample_prompts ["technical_writer_agent.py"; "in.md"]%string sample_world).1 = 1.
Proof.
  destruct (X20_startup_errors sample_prompts
              ["technical_writer_agent.py"; "in.md"]%string sample_world) as [H _].
  rewrite H; [reflexivity | cbn; lia].
Defined.

Lemma X21_witness :
  (process broken_prompts sample_agent "in.md" "out.md" sample_world).1
    = Raised (KeyError "article") /\
  llm_calls (process broken_prompts sample_agent "in.md" "out.md" sample_world).2 = [].
Proof.
  destruct (X21_template_that_does_not_render broken_prompts sample_agent "in.md" "out.md"
              sample_world "# Intro" (KeyError "article"))
    as (Hr & _ & _ & Hc & _).
  - vm_compute. reflexivity.
  - vm_compute. reflexivity.
  - intros what H. discriminate H.
  - split; [exact Hr | exact Hc].
Defined.

Lemma X22_witness : preview_of "final" = "final"%string.
Proof.
  destruct (X22_preview_is_a_bounded_prefix "final") as [H _].
  apply H. vm_compute. discriminate.
Defined.

Lemma X15_witness : (run_script sample_prompts sample_argv sample_world).1 = 0.
Proof.
  destruct (X15_exit_status_is_0_or_1 sample_prompts sample_argv sample_world) as [H|H].
  - exact H.
  - vm_compute in H. discriminate H.
Defined.

Lemma X25_witness :
  exists x w',
    OptimizationLogRepository.count filled_world = (Returned x, w') /\
    txn w' = None /\
    ConnectionPool_instance w' = Some default_pool /\
    last (driver_log w') = Some (Done (Putconn 0 1)).
Proof.
  destruct (X25_operations_return filled_world
              (ConnectionPool.get_pool filled_world).2 default_pool) as [_ H].
  - vm_compute. reflexivity.
  - intros n c _. reflexivity.
  - reflexivity.
  - destruct H as [Hcount _].
    + eexists. vm_compute. reflexivity.
    + exact Hcount.
Defined.
